(** * Trend and scenario forecasting (src/forecasting.py)

    A shallow embedding of the forecasting module of the Ethiopia
    financial-inclusion pipeline, and the properties its specification
    states about it.

    Number model.  Python and numpy compute with binary64 floats.  Here a
    finite float is an exact real number ([R]); rounding and overflow are
    not modelled.  Where an exact operation is undefined (division by zero,
    logarithm outside its domain) numpy does not raise: it returns [inf] or
    [nan] and emits a warning, which the module silences at import time
    ([warnings.filterwarnings('ignore')]).  Those results are the extra
    constructors of [xreal].

    Python exceptions are the [Raise] results of the [result] monad. *)

From Stdlib Require Import Reals Lra Lia ZArith.
From stdpp Require Import gmap strings list fin_maps sorting.

Open Scope R_scope.

(** ** Values and exceptions *)

Inductive pyerror : Type :=
  | TypeError
  | ValueError
  | IndexError
  | LinAlgError.

Inductive result (A : Type) : Type :=
  | Ok (a : A)
  | Raise (e : pyerror).
Arguments Ok {A} a.
Arguments Raise {A} e.

#[global] Instance result_ret : MRet result := fun A a => Ok a.
#[global] Instance result_bind : MBind result := fun A B f m =>
  match m with
  | Ok a => f a
  | Raise e => Raise e
  end.

Definition returns {A} (m : result A) : Prop := exists a, m = Ok a.
Definition raises {A} (m : result A) : Prop := exists e, m = Raise e.

(** ** numpy, as far as the module uses it *)

Module Np.

(** A float64 value: an exact real, or one of numpy's special values. *)
Inductive xreal : Type :=
  | Fin (r : R)
  | PInf
  | NInf
  | NaN.

Definition sign_inf (a : R) : xreal :=
  if Rlt_dec 0 a then PInf else if Rlt_dec a 0 then NInf else NaN.

Definition xopp (x : xreal) : xreal :=
  match x with
  | Fin r => Fin (- r)
  | PInf => NInf
  | NInf => PInf
  | NaN => NaN
  end.

Definition xadd (x y : xreal) : xreal :=
  match x, y with
  | NaN, _ | _, NaN => NaN
  | Fin a, Fin b => Fin (a + b)
  | PInf, NInf | NInf, PInf => NaN
  | PInf, _ | _, PInf => PInf
  | NInf, _ | _, NInf => NInf
  end.

Definition xsub (x y : xreal) : xreal := xadd x (xopp y).

Definition xmul (x y : xreal) : xreal :=
  match x, y with
  | NaN, _ | _, NaN => NaN
  | Fin a, Fin b => Fin (a * b)
  | Fin a, PInf | PInf, Fin a => sign_inf a
  | Fin a, NInf | NInf, Fin a => xopp (sign_inf a)
  | PInf, PInf | NInf, NInf => PInf
  | PInf, NInf | NInf, PInf => NInf
  end.

(** [a / b] on finite operands.  A zero divisor gives [inf] or [nan] and a
    RuntimeWarning, never an exception.  The zero divisors of this module
    are a sum of squares and an integer difference, both [+0.0]. *)
Definition xdiv (a b : R) : xreal :=
  if Req_dec_T b 0 then sign_inf a else Fin (a / b).

(** [np.sqrt] *)
Definition xsqrt (x : xreal) : xreal :=
  match x with
  | Fin r => if Rlt_dec r 0 then NaN else Fin (sqrt r)
  | PInf => PInf
  | NInf | NaN => NaN
  end.

(** [np.log1p]: [-inf] at -1 and [nan] below it. *)
Definition log1p (x : R) : xreal :=
  if Rlt_dec (-1) x then Fin (ln (1 + x))
  else if Req_dec_T x (-1) then NInf else NaN.

(** [x <= y] on floats: every comparison with [nan] is false. *)
Definition xle (x y : xreal) : Prop :=
  match x, y with
  | NaN, _ | _, NaN => False
  | Fin a, Fin b => a <= b
  | NInf, _ | _, PInf => True
  | _, _ => False
  end.

Definition sum (l : list R) : R := foldr Rplus 0 l.

(** [a.mean()], applied in this module to non-empty arrays only. *)
Definition mean (l : list R) : R := sum l / INR (length l).

(** [np.std(a)]: [sqrt(mean(abs(a - a.mean())**2))], the population form. *)
Definition std (l : list R) : R :=
  sqrt (mean ((fun r => Rabs (r - mean l) ^ 2) <$> l)).

(** [np.sum((a - a.mean())**2)] *)
Definition sum_sq_dev (l : list R) : R := sum ((fun r => (r - mean l) ^ 2) <$> l).

(** [a.min()] of an integer array; a zero-size array raises ValueError. *)
Definition min (l : list Z) : result Z :=
  match l with
  | [] => Raise ValueError
  | z :: l' => Ok (foldr Z.min z l')
  end.

(** [a[-1]] *)
Definition last_item {A} (l : list A) : result A :=
  match last l with
  | Some a => Ok a
  | None => Raise IndexError
  end.

(** [a[i]] for [i >= 0] *)
Definition item {A} (l : list A) (i : nat) : result A :=
  match l !! i with
  | Some a => Ok a
  | None => Raise IndexError
  end.

(** [np.polyfit(x, y, 1)], returning [(slope, intercept)].

    numpy raises TypeError for an empty [x] and for [x] and [y] of different
    lengths.  Otherwise it divides each column of the Vandermonde matrix
    [[x, 1]] by its Euclidean norm and solves the least-squares problem by
    SVD ([lstsq]), taking the minimum-norm solution when the matrix has
    rank 1, which only raises the silenced RankWarning:
    - two distinct abscissae (rank 2): the unique least-squares line;
    - all abscissae equal to [c <> 0] (rank 1): the scaled matrix has the two
      columns [sgn(c)/sqrt n] and [1/sqrt n], its minimum-norm solution
      unscales to slope [mean(y)/(2c)] and intercept [mean(y)/2];
    - all abscissae 0: the first column norm is 0, the scaled matrix holds
      [0/0 = nan] and [lstsq] raises LinAlgError (SVD did not converge). *)
Definition lstsq_slope (x y : list R) : R :=
  sum (zip_with (fun a b => (a - mean x) * (b - mean y)) x y) / sum_sq_dev x.

Definition lstsq_intercept (x y : list R) : R := mean y - lstsq_slope x y * mean x.

Definition polyfit1 (x y : list R) : result (R * R) :=
  match x with
  | [] => Raise TypeError
  | c :: _ =>
      if negb (length x =? length y)%nat then Raise TypeError
      else if Req_dec_T (sum ((fun r => r * r) <$> x)) 0 then Raise LinAlgError
      else if Req_dec_T (sum_sq_dev x) 0 then Ok (mean y / (2 * c), mean y / 2)
      else Ok (lstsq_slope x y, lstsq_intercept x y)
  end.

End Np.

Import Np.

(** ** Linear trend forecaster *)

Definition linear_trend_forecast (years : list Z) (values : list R)
    (forecast_years : list Z) : result (list xreal * list xreal * list xreal) :=
  let yrs := IZR <$> years in
  '(slope, intercept) ← polyfit1 yrs values;
  let forecast := (fun y => slope * IZR y + intercept) <$> forecast_years in
  let fitted := (fun y => slope * y + intercept) <$> yrs in
  let residuals := zip_with Rminus values fitted in
  let std_error := std residuals in
  let margin :=
    (fun y => xmul (Fin (1.96 * std_error))
                (xsqrt (xadd (Fin (1 + 1 / INR (length years)))
                             (xdiv ((IZR y - mean yrs) ^ 2) (sum_sq_dev yrs)))))
      <$> forecast_years in
  let lower := zip_with xsub (Fin <$> forecast) margin in
  let upper := zip_with xadd (Fin <$> forecast) margin in
  mret (Fin <$> forecast, lower, upper).

(** ** Logarithmic trend forecaster *)

(** [np.log1p(years - base_year + 1)] on the historical years.  The argument
    is at least 1 because [base_year] is their minimum, so the transform
    stays inside the domain of the logarithm (lemma [log_years_in_domain]). *)
Definition log_year (base_year y : Z) : R := ln (1 + IZR (y - base_year + 1)).

Definition log_trend_forecast (years : list Z) (values : list R)
    (forecast_years : list Z) : result (list xreal * list xreal * list xreal) :=
  base_year ← Np.min years;
  let log_years := log_year base_year <$> years in
  let log_forecast_years := (fun y => log1p (IZR (y - base_year + 1))) <$> forecast_years in
  '(slope, intercept) ← polyfit1 log_years values;
  let forecast := (fun t => xadd (xmul (Fin slope) t) (Fin intercept)) <$> log_forecast_years in
  let fitted := (fun t => slope * t + intercept) <$> log_years in
  let residuals := zip_with Rminus values fitted in
  let std_error := std residuals in
  let margin := 1.96 * std_error in
  let lower := (fun f => xsub f (Fin margin)) <$> forecast in
  let upper := (fun f => xadd f (Fin margin)) <$> forecast in
  mret (forecast, lower, upper).

(** ** Scenario forecaster *)

(** A value stored in the returned dict: the list of forecast years
    (Python ints) or the value sequence of one scenario (floats). *)
Inductive pylist : Type :=
  | IntList (l : list Z)
  | FloatList (l : list R).

Definition pylen (e : pylist) : nat :=
  match e with
  | IntList l => length l
  | FloatList l => length l
  end.

(** [list(range(a, b))] *)
Definition py_range (a b : Z) : list Z := seqZ a (b - a).

(** The module's default scenarios, in insertion order. *)
Definition default_scenarios : list (string * R) :=
  [("optimistic"%string, 4); ("base"%string, 2.5); ("pessimistic"%string, 1)].

(** The inner loop:
      value = current_value
      for year in forecast_years:
          value = min(value + annual_growth, 100)
          forecasts.append(value)                                   *)
Fixpoint yearly_values (value annual_growth : R) (forecast_years : list Z) : list R :=
  match forecast_years with
  | [] => []
  | _ :: rest =>
      let value' := Rmin (value + annual_growth) 100 in
      value' :: yearly_values value' annual_growth rest
  end.

(** A dict argument is the list of its items in insertion order; the keys
    of a dict are pairwise distinct. *)
Definition dict_items {A} (items : list (string * A)) : Prop := NoDup (items.*1).

(** One pass of the loop over [scenarios.items()]:
      results[scenario] = forecasts                                  *)
Definition scenario_step (current_value : R) (forecast_years : list Z)
    (results : gmap string pylist) (item : string * R) : gmap string pylist :=
  let '(scenario, annual_growth) := item in
  <[ scenario := FloatList (yearly_values current_value annual_growth forecast_years) ]> results.

(** [scenario_forecast(current_value, target_value, target_year,
                       current_year, scenarios)].
    [target_value] is accepted and never read.  Nothing here can raise. *)
Definition scenario_forecast (current_value target_value : R)
    (target_year current_year : Z)
    (scenarios : option (list (string * R))) : gmap string pylist :=
  let scenarios := default default_scenarios scenarios in
  let forecast_years := py_range (current_year + 1) (target_year + 1) in
  let results : gmap string pylist := {[ "years"%string := IntList forecast_years ]} in
  foldl (scenario_step current_value forecast_years) results scenarios.

(** ** Growth-rate analyzer *)

Record growth_row : Type := {
  period_start : Z;
  period_end : Z;
  period_years : Z;
  start_value : R;
  end_value : R;
  total_growth_pp : R;
  annual_growth_pp : xreal
}.

(** The dict appended for one pair of consecutive observations. *)
Definition make_growth_row (y0 y1 : Z) (v0 v1 : R) : growth_row :=
  let period_years := (y1 - y0)%Z in
  let total_growth := v1 - v0 in
  let annual_growth := xdiv total_growth (IZR period_years) in
  {| period_start := y0; period_end := y1; period_years := period_years;
     start_value := v0; end_value := v1;
     total_growth_pp := total_growth; annual_growth_pp := annual_growth |}.

(** One iteration of the loop body, at index [i >= 1]; an index past the
    end of an array raises IndexError. *)
Definition growth_row_at (years : list Z) (values : list R) (i : nat) : result growth_row :=
  y1 ← item years i;
  y0 ← item years (i - 1);
  v1 ← item values i;
  v0 ← item values (i - 1);
  mret (make_growth_row y0 y1 v0 v1).

(** [for i in ...: data.append(...)] *)
Fixpoint growth_loop (years : list Z) (values : list R) (indices : list nat)
    (data : list growth_row) : result (list growth_row) :=
  match indices with
  | [] => Ok data
  | i :: rest =>
      row ← growth_row_at years values i;
      growth_loop years values rest (data ++ [row])
  end.

(** [calculate_growth_rates(years, values)]; the DataFrame is the list of
    its rows. *)
Definition calculate_growth_rates (years : list Z) (values : list R)
    : result (list growth_row) :=
  growth_loop years values (seq 1 (length years - 1)) [].

(** ** Indicator forecast aggregator *)

(** A pandas Timestamp, as far as it is used: ordered by calendar date,
    [.dt.year] reads the first field. *)
Record timestamp : Type := { ts_year : Z; ts_month : Z; ts_day : Z }.

Definition ts_leb (a b : timestamp) : bool :=
  (ts_year a <? ts_year b)%Z
  || ((ts_year a =? ts_year b)%Z
      && ((ts_month a <? ts_month b)%Z
          || ((ts_month a =? ts_month b)%Z && (ts_day a <=? ts_day b)%Z))).

(** A row of the unified dataset, with the columns the aggregator reads. *)
Record observation_row : Type := {
  record_type : string;
  indicator_code : string;
  observation_date : timestamp;
  value_numeric : R
}.

(** [df[df[column] == key]] *)
Definition rows_where (column : observation_row -> string) (key : string)
    (df : list observation_row) : list observation_row :=
  filter (fun r => column r = key) df.

(** [df.sort_values('observation_date')].  pandas leaves the order of rows
    with equal dates unspecified; the merge sort fixes one. *)
Definition sort_by_date (df : list observation_row) : list observation_row :=
  merge_sort (fun a b => Is_true (ts_leb (observation_date a) (observation_date b))) df.

(** The dict stored under ['access'] and ['usage']. *)
Record indicator_forecast : Type := {
  indicator : string;
  code : string;
  current_value : R;
  current_year : Z;
  historical_years : list Z;
  historical_values : list R;
  forecast_years : list Z;
  linear_forecast : list xreal;
  linear_lower : list xreal;
  linear_upper : list xreal;
  log_forecast : list xreal;
  log_lower : list xreal;
  log_upper : list xreal;
  target : R;
  target_year : Z
}.

Definition default_forecast_years : list Z := [2025; 2026; 2027]%Z.

(** The series of one indicator: sorted rows, their years and values. *)
Definition indicator_rows (code : string) (observations : list observation_row)
    : list observation_row :=
  sort_by_date (rows_where indicator_code code observations).

Definition row_years (data : list observation_row) : list Z :=
  (fun r => ts_year (observation_date r)) <$> data.

Definition row_values (data : list observation_row) : list R :=
  value_numeric <$> data.

(** The two fits and the dict literal built from them. *)
Definition indicator_entry (name code : string) (target : R)
    (years : list Z) (values : list R) (forecast_years : list Z)
    : result indicator_forecast :=
  '(linear, lower, upper) ← linear_trend_forecast years values forecast_years;
  '(log, log_lower, log_upper) ← log_trend_forecast years values forecast_years;
  current_value ← last_item values;
  current_year ← last_item years;
  mret {| indicator := name; code := code;
          current_value := current_value; current_year := current_year;
          historical_years := years; historical_values := values;
          forecast_years := forecast_years;
          linear_forecast := linear; linear_lower := lower; linear_upper := upper;
          log_forecast := log; log_lower := log_lower; log_upper := log_upper;
          target := target; target_year := 2025 |}.

Definition forecast_access_usage (df : list observation_row) (forecast_years : list Z)
    : result (gmap string indicator_forecast) :=
  let observations := rows_where record_type "observation" df in
  let results : gmap string indicator_forecast := ∅ in
  let acc_data := indicator_rows "ACC_OWNERSHIP" observations in
  access ← indicator_entry "Account Ownership Rate" "ACC_OWNERSHIP" 60
             (row_years acc_data) (row_values acc_data) forecast_years;
  let results := <[ "access"%string := access ]> results in
  let usg_data := indicator_rows "USG_DIGITAL_PAYMENT" observations in
  if decide (2 <= length usg_data)%nat then
    usage ← indicator_entry "Digital Payment Adoption" "USG_DIGITAL_PAYMENT" 50
              (row_years usg_data) (row_values usg_data) forecast_years;
    mret (<[ "usage"%string := usage ]> results)
  else mret results.

(** ** Vocabulary of the specification *)

(** The input holds at least two different years. *)
Definition two_distinct (years : list Z) : bool :=
  match years with
  | [] => false
  | y :: rest => negb (forallb (Z.eqb y) rest)
  end.

(** All historical years are one and the same year [c]. *)
Definition all_years (c : Z) (years : list Z) : bool := forallb (Z.eqb c) years.

(** Years in strictly increasing order. *)
Fixpoint strictly_increasing (years : list Z) : bool :=
  match years with
  | a :: (b :: _) as rest => (a <? b)%Z && strictly_increasing rest
  | _ => true
  end.

(** Sum of squared residuals of the line [a * x + b] over the points. *)
Definition sse (x y : list R) (a b : R) : R :=
  sum (zip_with (fun xi yi => (yi - (a * xi + b)) ^ 2) x y).

(** Population standard deviation: the root of the mean squared deviation
    from the mean. *)
Definition population_std (l : list R) : R :=
  sqrt (sum ((fun r => (r - mean l) ^ 2) <$> l) / INR (length l)).

(** The margin formula of the specification:
    [1.96 * std_error * sqrt(1 + 1/n + (y - mean)^2 / sum((years - mean)^2))]. *)
Definition prediction_margin (std_error : R) (years : list R) (y : R) : R :=
  1.96 * std_error
  * sqrt (1 + 1 / INR (length years)
          + (y - mean years) ^ 2 / sum ((fun h => (h - mean years) ^ 2) <$> years)).

(** The transformed coordinate of the specification:
    [log(1 + (year - min_year) + 1)]. *)
Definition log_coordinate (min_year year : Z) : R :=
  ln (1 + (IZR year - IZR min_year) + 1).

(** Every forecast year is no earlier than the year before the first
    historical year, where the log transform is still defined. *)
Definition log_domain (years forecast_years : list Z) : bool :=
  forallb (fun y => existsb (fun h => (h - 1 <=? y)%Z) years) forecast_years.

(** Every forecast year is after every historical year: the forecast range
    that the specification asks of the caller. *)
Definition after_history (years forecast_years : list Z) : bool :=
  forallb (fun y => forallb (fun h => (h <? y)%Z) years) forecast_years.

(** The bounds returned by a forecaster are ordered around the forecast at
    every index. *)
Definition bounds_ordered (forecast lower upper : list xreal) : Prop :=
  forall (i : nat) f l u,
    forecast !! i = Some f -> lower !! i = Some l -> upper !! i = Some u ->
    xle l f /\ xle f u.

(** A float that is neither infinite nor [nan]. *)
Definition finite (x : xreal) : Prop := exists r, x = Fin r.

(** One row per pair of consecutive observations, read off the two arrays
    side by side. *)
Fixpoint growth_pairs (years : list Z) (values : list R) : list growth_row :=
  match years, values with
  | y0 :: ((y1 :: _) as years'), v0 :: ((v1 :: _) as values') =>
      make_growth_row y0 y1 v0 v1 :: growth_pairs years' values'
  | _, _ => []
  end.

(** Sum of an integer column. *)
Definition zsum (l : list Z) : Z := foldr Z.add 0%Z l.

(** An entry built by the aggregator has one forecast of each kind per
    forecast year, and the target year 2025. *)
Definition entry_for (forecasts : list Z) (entry : indicator_forecast) : Prop :=
  forecast_years entry = forecasts
  /\ target_year entry = 2025%Z
  /\ length (linear_forecast entry) = length forecasts
  /\ length (linear_lower entry) = length forecasts
  /\ length (linear_upper entry) = length forecasts
  /\ length (log_forecast entry) = length forecasts
  /\ length (log_lower entry) = length forecasts
  /\ length (log_upper entry) = length forecasts.

(** The rows of the dataset the aggregator can read: observations of one
    of its two indicators. *)
Definition relevant_row (r : observation_row) : Prop :=
  record_type r = "observation"%string
  /\ (indicator_code r = "ACC_OWNERSHIP"%string
      \/ indicator_code r = "USG_DIGITAL_PAYMENT"%string).

#[global] Instance relevant_row_dec (r : observation_row) : Decision (relevant_row r).
Proof. unfold relevant_row. apply _. Defined.

(** ** Forecast table *)

(** A row of the formatted forecast table. *)
Record table_row : Type := {
  col_indicator : string;
  col_year : Z;
  col_linear_forecast : string;
  col_ci_95 : string;
  col_log_forecast : string;
  col_target : string
}.

(** The dict appended for forecast year number [i].  [fmt1] and [fmt0] are
    Python's float formatting with one and with no decimal ([f"{x:.1f}"],
    [f"{x:.0f}"]), taken as parameters.  A forecast list shorter than the
    list of forecast years raises IndexError. *)
Definition forecast_table_row (fmt1 : xreal -> string) (fmt0 : R -> string)
    (data : indicator_forecast) (i : nat) (year : Z) : result table_row :=
  linear ← item (linear_forecast data) i;
  lower ← item (linear_lower data) i;
  upper ← item (linear_upper data) i;
  log ← item (log_forecast data) i;
  mret {| col_indicator := indicator data;
          col_year := year;
          col_linear_forecast := fmt1 linear +:+ "%";
          col_ci_95 := "[" +:+ fmt1 lower +:+ "%, " +:+ fmt1 upper +:+ "%]";
          col_log_forecast := fmt1 log +:+ "%";
          col_target := if decide (year = target_year data)
                        then fmt0 (target data) +:+ "%" else "-" |}.

(** [for i, year in enumerate(data['forecast_years']): rows.append(...)] *)
Fixpoint table_year_loop (fmt1 : xreal -> string) (fmt0 : R -> string)
    (data : indicator_forecast) (i : nat) (years : list Z)
    (rows : list table_row) : result (list table_row) :=
  match years with
  | [] => Ok rows
  | year :: rest =>
      row ← forecast_table_row fmt1 fmt0 data i year;
      table_year_loop fmt1 fmt0 data (S i) rest (rows ++ [row])
  end.

(** [for indicator_key, data in forecasts.items(): ...] *)
Fixpoint table_loop (fmt1 : xreal -> string) (fmt0 : R -> string)
    (items : list (string * indicator_forecast))
    (rows : list table_row) : result (list table_row) :=
  match items with
  | [] => Ok rows
  | (_, data) :: rest =>
      rows' ← table_year_loop fmt1 fmt0 data 0 (forecast_years data) rows;
      table_loop fmt1 fmt0 rest rows'
  end.

(** [create_forecast_table(forecasts)]; the dict is the list of its items in
    insertion order, the DataFrame the list of its rows. *)
Definition create_forecast_table (fmt1 : xreal -> string) (fmt0 : R -> string)
    (forecasts : list (string * indicator_forecast)) : result (list table_row) :=
  table_loop fmt1 fmt0 forecasts [].

(** An entry whose four formatted forecast lists reach to the last forecast
    year. *)
Definition table_ready (data : indicator_forecast) : Prop :=
  (length (forecast_years data) <= length (linear_forecast data))%nat
  /\ (length (forecast_years data) <= length (linear_lower data))%nat
  /\ (length (forecast_years data) <= length (linear_upper data))%nat
  /\ (length (forecast_years data) <= length (log_forecast data))%nat.

(** A table row made from an entry: its indicator name, one of its forecast
    years, and the target only in the row of the target year. *)
Definition row_of_entry (fmt0 : R -> string) (data : indicator_forecast)
    (row : table_row) : Prop :=
  col_indicator row = indicator data
  /\ col_year row ∈ forecast_years data
  /\ col_target row = if decide (col_year row = target_year data)
                      then fmt0 (target data) +:+ "%" else "-".

(** ** Data loader (src/data_loader.py) *)

(** The columns of the unified dataset that the loader reads, as accessors
    on its rows; everything else in a row is carried along untouched.  An
    empty cell (NaN, NaT) is [None]. *)
Class UnifiedColumns (row : Type) : Type := {
  record_type_cell : row -> option string;
  indicator_code_cell : row -> option string;
  observation_date_cell : row -> option timestamp;
  value_numeric_cell : row -> option R;
  source_name_cell : row -> option string;
  pillar_cell : row -> option string;
  confidence_cell : row -> option string
}.

(** A DataFrame of such rows.  The loader itself tests for the column
    [record_type] (['record_type' in df.columns]), so its presence is part of
    the frame; the other columns are taken to exist. *)
Record frame (row : Type) : Type := {
  has_record_type : bool;
  frame_rows : list row
}.
Arguments has_record_type {row} _.
Arguments frame_rows {row} _.

(** The result of an operation that looks a column up: a missing column
    raises KeyError with the name of the column. *)
Inductive keyed (A : Type) : Type :=
  | Loaded (a : A)
  | KeyError (column : string).
Arguments Loaded {A} a.
Arguments KeyError {A} column.

#[global] Instance keyed_ret : MRet keyed := fun A a => Loaded a.
#[global] Instance keyed_bind : MBind keyed := fun A B f m =>
  match m with
  | Loaded a => f a
  | KeyError c => KeyError c
  end.

Definition the_record_types : list string :=
  ["observation"; "event"; "impact_link"; "target"]%string.

(** [df[df['record_type'] == key].copy()] *)
Definition with_record_type `{UnifiedColumns row} (key : string) (df : frame row)
    : keyed (frame row) :=
  if has_record_type df
  then Loaded {| has_record_type := true;
                 frame_rows := filter (fun r => record_type_cell r = Some key)
                                 (frame_rows df) |}
  else KeyError "record_type".

Definition get_observations `{UnifiedColumns row} (df : frame row) : keyed (frame row) :=
  with_record_type "observation" df.

Definition get_events `{UnifiedColumns row} (df : frame row) : keyed (frame row) :=
  with_record_type "event" df.

Definition get_impact_links `{UnifiedColumns row} (df : frame row) : keyed (frame row) :=
  with_record_type "impact_link" df.

Definition get_targets `{UnifiedColumns row} (df : frame row) : keyed (frame row) :=
  with_record_type "target" df.

(** The loop of [split_by_record_type] over the four record types. *)
Fixpoint split_loop `{UnifiedColumns row} (df : frame row) (record_types : list string)
    (result : gmap string (frame row)) : keyed (gmap string (frame row)) :=
  match record_types with
  | [] => Loaded result
  | record_type :: rest =>
      part ← with_record_type record_type df;
      split_loop df rest (<[ record_type := part ]> result)
  end.

Definition split_by_record_type `{UnifiedColumns row} (df : frame row)
    : keyed (gmap string (frame row)) :=
  split_loop df the_record_types ∅.

(** Dates in ascending order with the missing ones last, as [sort_values]
    places them. *)
Definition date_leb (a b : option timestamp) : bool :=
  match a, b with
  | Some x, Some y => ts_leb x y
  | Some _, None => true
  | None, Some _ => false
  | None, None => true
  end.

(** The rows selected by [get_indicator_time_series]: the rows of the
    indicator, observations only when the frame has a [record_type] column,
    sorted by observation date.  pandas leaves the order of rows with equal
    dates unspecified; the merge sort fixes one. *)
Definition indicator_time_series_rows `{UnifiedColumns row} (df : frame row)
    (code : string) : list row :=
  let observations :=
    if has_record_type df
    then filter (fun r => record_type_cell r = Some "observation"%string) (frame_rows df)
    else frame_rows df in
  let indicator_data := filter (fun r => indicator_code_cell r = Some code) observations in
  merge_sort (fun a b => Is_true (date_leb (observation_date_cell a)
                                           (observation_date_cell b)))
    indicator_data.

(** A row of the time series: the four columns that are kept. *)
Record time_series_row : Type := {
  series_observation_date : option timestamp;
  series_value_numeric : option R;
  series_source_name : option string;
  series_confidence : option string
}.

(** [get_indicator_time_series(df, indicator_code)]: the selected rows cut
    down to the four columns, renumbered from 0. *)
Definition get_indicator_time_series `{UnifiedColumns row} (df : frame row)
    (code : string) : list time_series_row :=
  (fun r => {| series_observation_date := observation_date_cell r;
               series_value_numeric := value_numeric_cell r;
               series_source_name := source_name_cell r;
               series_confidence := confidence_cell r |})
    <$> indicator_time_series_rows df code.

(** [column.min()] and [column.max()] of a date column: missing dates are
    skipped, and the result is missing when there is no date at all. *)
Definition date_min {row} (cell : row -> option timestamp) (rows : list row)
    : option timestamp :=
  foldr (fun r acc =>
           match cell r, acc with
           | Some d, Some m => Some (if ts_leb d m then d else m)
           | Some d, None => Some d
           | None, _ => acc
           end) None rows.

Definition date_max {row} (cell : row -> option timestamp) (rows : list row)
    : option timestamp :=
  foldr (fun r acc =>
           match cell r, acc with
           | Some d, Some m => Some (if ts_leb d m then m else d)
           | Some d, None => Some d
           | None, _ => acc
           end) None rows.

(** [column.value_counts().to_dict()]: the number of rows per value, missing
    values left out. *)
Definition value_counts {row} (cell : row -> option string) (rows : list row)
    : gmap string nat :=
  foldr (fun r counts =>
           match cell r with
           | Some v => <[ v := S (default 0%nat (counts !! v)) ]> counts
           | None => counts
           end) ∅ rows.

(** [column.nunique()] *)
Definition nunique {row} (cell : row -> option string) (rows : list row) : nat :=
  size (list_to_set (omap cell rows) : gset string).

(** The dict returned by [summarize_dataset]. *)
Record dataset_summary : Type := {
  total_records : nat;
  record_type_counts : gmap string nat;
  pillar_counts : gmap string nat;
  confidence_counts : gmap string nat;
  unique_indicators : nat;
  date_range_min : option timestamp;
  date_range_max : option timestamp
}.

(** [summarize_dataset(df)] *)
Definition summarize_dataset `{UnifiedColumns row} (df : frame row) : keyed dataset_summary :=
  if has_record_type df
  then Loaded {| total_records := length (frame_rows df);
                 record_type_counts := value_counts record_type_cell (frame_rows df);
                 pillar_counts := value_counts pillar_cell (frame_rows df);
                 confidence_counts := value_counts confidence_cell (frame_rows df);
                 unique_indicators := nunique indicator_code_cell (frame_rows df);
                 date_range_min := date_min observation_date_cell (frame_rows df);
                 date_range_max := date_max observation_date_cell (frame_rows df) |}
  else KeyError "record_type".

(** The rows of the forecasting module read through the loader's columns:
    the four columns they model hold no empty cell, the other cells are
    empty. *)
#[global] Instance observation_row_columns : UnifiedColumns observation_row := {
  record_type_cell := fun r => Some (record_type r);
  indicator_code_cell := fun r => Some (indicator_code r);
  observation_date_cell := fun r => Some (observation_date r);
  value_numeric_cell := fun r => Some (value_numeric r);
  source_name_cell := fun _ => None;
  pillar_cell := fun _ => None;
  confidence_cell := fun _ => None
}.

(** ** Report statistics (src/generate_report.py, [load_data]) *)

(** The dict of statistics handed to the report template. *)
Record report_stats : Type := {
  stat_total_records : nat;
  n_observations : nat;
  n_events : nat;
  n_impact_links : nat;
  n_targets : nat;
  high_conf_pct : R;
  med_conf_pct : R;
  low_conf_pct : R
}.

(** [(df[column] == key).sum()] *)
Definition count_where {row} (cell : row -> option string) (key : string)
    (df : list row) : nat :=
  length (filter (fun r => cell r = Some key) df).

(** [round(count / total_records * 100, 1) if total_records > 0 else 0];
    [round1] is Python's rounding to one decimal, taken as a parameter. *)
Definition conf_pct (round1 : R -> R) (count total_records : nat) : R :=
  if (0 <? total_records)%nat then round1 (INR count / INR total_records * 100) else 0.

(** The statistics used when no data file exists. *)
Definition default_report_stats : report_stats :=
  {| stat_total_records := 67; n_observations := 35; n_events := 10;
     n_impact_links := 20; n_targets := 2;
     high_conf_pct := 45; med_conf_pct := 40; low_conf_pct := 15 |}.

(** [load_data()].  [enriched] and [raw] are the contents of the processed
    and of the raw CSV file, [None] for a file that does not exist.  The
    column [record_type] is looked up first. *)
Definition load_data `{UnifiedColumns row} (round1 : R -> R)
    (enriched raw : option (frame row)) : keyed report_stats :=
  let data_path := match enriched with Some df => Some df | None => raw end in
  match data_path with
  | Some df =>
      if has_record_type df then
        let total_records := length (frame_rows df) in
        Loaded
          {| stat_total_records := total_records;
             n_observations := count_where record_type_cell "observation" (frame_rows df);
             n_events := count_where record_type_cell "event" (frame_rows df);
             n_impact_links := count_where record_type_cell "impact_link" (frame_rows df);
             n_targets := count_where record_type_cell "target" (frame_rows df);
             high_conf_pct :=
               conf_pct round1 (count_where confidence_cell "high" (frame_rows df))
                 total_records;
             med_conf_pct :=
               conf_pct round1 (count_where confidence_cell "medium" (frame_rows df))
                 total_records;
             low_conf_pct :=
               conf_pct round1 (count_where confidence_cell "low" (frame_rows df))
                 total_records |}
      else KeyError "record_type"
  | None => Loaded default_report_stats
  end.

(** ** Analysis runner (scripts/run_analysis.py) *)

Module RunAnalysis.

(** How a [subprocess.run] call ends: the exit status of the child, or one
    of the exceptions of the call. *)
Inductive process_outcome : Type :=
  | Exited (returncode : Z)
  | TimeoutExpired
  | FileNotFoundError
  | OtherException.

#[global] Instance process_outcome_eq_dec : EqDecision process_outcome.
Proof. solve_decision. Defined.

(** A call that completes with a value, or lets an exception escape. *)
Inductive attempt (A : Type) : Type :=
  | Completed (a : A)
  | Escaped.
Arguments Completed {A} a.
Arguments Escaped {A}.

(** What the script starts, in order. *)
Inductive run_event : Type :=
  | RanNotebook (notebook : string)
  | RanReport.

(** [run_notebook(notebook_path)]: success is exit status 0; a timeout and
    a missing interpreter module are caught and reported as failure. *)
Definition run_notebook (outcome : process_outcome) : attempt bool :=
  match outcome with
  | Exited returncode => Completed (bool_decide (returncode = 0%Z))
  | TimeoutExpired | FileNotFoundError => Completed false
  | OtherException => Escaped
  end.

(** [generate_report()]: no exception is caught. *)
Definition generate_report (outcome : process_outcome) : attempt bool :=
  match outcome with
  | Exited returncode => Completed (bool_decide (returncode = 0%Z))
  | TimeoutExpired | FileNotFoundError | OtherException => Escaped
  end.

Definition notebooks : list string :=
  ["01_data_exploration.ipynb"; "02_eda.ipynb"; "03_impact_modeling.ipynb";
   "04_forecasting.ipynb"]%string.

(** The loop of [main] over the notebooks.  [present] tells which notebook
    files exist, [execute] how the execution of each one ends. *)
Fixpoint notebook_loop (present : string -> bool) (execute : string -> process_outcome)
    (todo : list string) (results : list (string * bool)) (trace : list run_event)
    : list run_event * attempt (list (string * bool)) :=
  match todo with
  | [] => (trace, Completed results)
  | nb :: rest =>
      if present nb then
        match run_notebook (execute nb) with
        | Completed ok =>
            notebook_loop present execute rest (results ++ [(nb, ok)])
              (trace ++ [RanNotebook nb])
        | Escaped => (trace ++ [RanNotebook nb], Escaped)
        end
      else notebook_loop present execute rest (results ++ [(nb, false)]) trace
  end.

(** [main()]: the processes started and the value returned. *)
Definition main (present : string -> bool) (execute : string -> process_outcome)
    (report : process_outcome) : list run_event * attempt bool :=
  match notebook_loop present execute notebooks [] [] with
  | (trace, Completed results) =>
      match generate_report report with
      | Completed report_success =>
          (trace ++ [RanReport], Completed (forallb snd results && report_success))
      | Escaped => (trace ++ [RanReport], Escaped)
      end
  | (trace, Escaped) => (trace, Escaped)
  end.

(** [sys.exit(0 if success else 1)] *)
Definition exit_status (success : bool) : Z := if success then 0%Z else 1%Z.

End RunAnalysis.

(** ** Dashboard (dashboard/app.py) *)

Module Dashboard.

(** The values of the trace 'Forecast (Base)' drawn by
    [plot_account_ownership] for the years 2025..2027:
    [[last_value + 2.5 * i for i in [1, 2, 3]]]. *)
Definition forecast_values (last_value : R) : list R :=
  (fun i => last_value + 2.5 * i) <$> [1; 2; 3].

(** The curves drawn by [plot_scenario_forecast(indicator)] over the years
    2024..2027: optimistic, base, pessimistic. *)
Definition scenario_curves (indicator : string) : list R * list R * list R :=
  if decide (indicator = "access"%string)
  then ([49; 53; 57; 61], [49; 51.5; 54; 56.5], [49; 50; 51; 52])
  else ([35; 39; 43; 47], [35; 37.5; 40; 42.5], [35; 36; 37; 38]).

End Dashboard.

(** * Properties *)

(** ** Scenario forecaster *)

Section ScenarioLoop.
Variables (current_value : R) (years : list Z).

Local Abbreviation step := (scenario_step current_value years).

Lemma scenario_loop_other (scenarios : list (string * R)) (results : gmap string pylist) name :
  name ∉ scenarios.*1 -> foldl step results scenarios !! name = results !! name.
Proof.
  revert results. induction scenarios as [|[n g] rest IH]; intros results Hn; [done|].
  cbn in Hn. apply not_elem_of_cons in Hn as [Hne Hrest].
  cbn. rewrite IH by done. by apply lookup_insert_ne.
Qed.

Lemma scenario_loop_item (scenarios : list (string * R)) (results : gmap string pylist) name g :
  dict_items scenarios -> (name, g) ∈ scenarios ->
  foldl step results scenarios !! name
  = Some (FloatList (yearly_values current_value g years)).
Proof.
  unfold dict_items. revert results.
  induction scenarios as [|[n g'] rest IH]; intros results Hnd Hin.
  - by apply elem_of_nil in Hin.
  - cbn in Hnd. apply NoDup_cons in Hnd as [Hfresh Hnd].
    apply elem_of_cons in Hin as [Heq|Hin].
    + injection Heq as -> ->. cbn.
      rewrite scenario_loop_other by done. apply lookup_insert_eq.
    + cbn. by apply IH.
Qed.

Lemma scenario_loop_size (scenarios : list (string * R)) (results : gmap string pylist) :
  dict_items scenarios ->
  (forall name, name ∈ scenarios.*1 -> results !! name = None) ->
  size (foldl step results scenarios) = (size results + length scenarios)%nat.
Proof.
  unfold dict_items. revert results.
  induction scenarios as [|[n g] rest IH]; intros results Hnd Hfree; cbn.
  - lia.
  - cbn in Hnd. apply NoDup_cons in Hnd as [Hfresh Hnd].
    rewrite IH; [| done |].
    + rewrite map_size_insert_None; [lia|]. apply Hfree. cbn. left.
    + intros name Hname. rewrite lookup_insert_ne.
      * apply Hfree. cbn. by right.
      * intros ->. contradiction.
Qed.
End ScenarioLoop.

Lemma yearly_values_length value g years :
  length (yearly_values value g years) = length years.
Proof. revert value. induction years as [|y rest IH]; intros value; cbn; [done|]. by rewrite IH. Qed.

Lemma yearly_values_head value g years v :
  yearly_values value g years !! 0%nat = Some v -> v = Rmin (value + g) 100.
Proof. destruct years; cbn; [done|]. by intros [= <-]. Qed.

Lemma yearly_values_next value g years i v w :
  yearly_values value g years !! i = Some v ->
  yearly_values value g years !! S i = Some w ->
  w = Rmin (v + g) 100.
Proof.
  revert value i. induction years as [|y rest IH]; intros value i; cbn; [done|].
  destruct i as [|i]; cbn.
  - intros [= <-]. apply yearly_values_head.
  - apply IH.
Qed.

Lemma py_range_length a b : length (py_range a b) = Z.to_nat (b - a).
Proof. apply length_seqZ. Qed.

Lemma py_range_lookup a b (i : nat) :
  (i < Z.to_nat (b - a))%nat -> py_range a b !! i = Some (a + Z.of_nat i)%Z.
Proof. intros Hi. apply lookup_seqZ_lt. lia. Qed.

Lemma py_range_empty a b : (b <= a)%Z -> py_range a b = [].
Proof.
  intros Hle. apply length_zero_iff_nil. rewrite py_range_length. lia.
Qed.

Ltac eval_Rmin := unfold Rmin; repeat (destruct (Rle_dec _ _)); try lra.

(** C2. With [current_year < target_year] the forecast years are
    [current_year+1 .. target_year], stored under ['years'] unless a scenario
    takes that name; every scenario of the mapping is stored
    with one value per forecast year, the first being
    [min(current_value + growth, 100)] and each later one
    [min(previous + growth, 100)].  One step from 98 at growth 4 gives exactly
    100, and from 49 at growth 2.5 the years 2025..2027 give
    [51.5, 54.0, 56.5]. *)
Theorem scenario_forecast_sequences
    (current_value target_value : R) (target_year current_year : Z)
    (scenarios : list (string * R)) :
  dict_items scenarios ->
  (current_year < target_year)%Z ->
  let results :=
    scenario_forecast current_value target_value target_year current_year (Some scenarios) in
  let years := py_range (current_year + 1) (target_year + 1) in
  (length years = Z.to_nat (target_year - current_year)
   /\ forall i : nat, (i < length years)%nat ->
        years !! i = Some (current_year + 1 + Z.of_nat i)%Z)
  /\ ("years"%string ∉ scenarios.*1 -> results !! "years"%string = Some (IntList years))
  /\ (forall name g, (name, g) ∈ scenarios ->
        exists values,
          results !! name = Some (FloatList values)
          /\ length values = length years
          /\ values !! 0%nat = Some (Rmin (current_value + g) 100)
          /\ forall (i : nat) v w, values !! i = Some v -> values !! S i = Some w ->
               w = Rmin (v + g) 100)
  /\ (forall name year,
        scenario_forecast 98 target_value (year + 1) year (Some [(name, 4)]) !! name
        = Some (FloatList [100]))
  /\ scenario_forecast 49 target_value 2027 2024 (Some [("base"%string, 2.5)])
     = <[ "base"%string := FloatList [51.5; 54; 56.5] ]>
         {[ "years"%string := IntList [2025; 2026; 2027]%Z ]}.
Proof.
  intros Hdict Hlt results years.
  assert (Hlen : length years = Z.to_nat (target_year - current_year)).
  { unfold years. rewrite py_range_length. f_equal. lia. }
  split; [split; [done|]|split; [|split; [|split]]].
  - intros i Hi. unfold years. apply py_range_lookup. rewrite <- py_range_length. exact Hi.
  - intros Hfree. unfold results, scenario_forecast, default, from_option, Datatypes.id.
    rewrite scenario_loop_other by done. apply lookup_singleton_eq.
  - intros name g Hin. exists (yearly_values current_value g years).
    split; [|split; [|split]].
    + unfold results, scenario_forecast. cbn [default].
      by apply scenario_loop_item.
    + apply yearly_values_length.
    + destruct years as [|y rest] eqn:E; [|done]. cbn in Hlen. lia.
    + intros i v w. apply yearly_values_next.
  - intros name year. unfold scenario_forecast, default, from_option, Datatypes.id. cbn [foldl scenario_step].
    rewrite lookup_insert_eq. do 2 f_equal.
    unfold py_range. replace (year + 1 + 1 - (year + 1))%Z with 1%Z by lia.
    change (seqZ (year + 1) 1) with [(year + 1)%Z].
    cbn. f_equal. eval_Rmin.
  - unfold scenario_forecast, default, from_option, Datatypes.id. cbn [foldl scenario_step].
    do 2 f_equal.
    change (py_range (2024 + 1) (2027 + 1)) with [2025; 2026; 2027]%Z.
    cbn. repeat f_equal; eval_Rmin.
Qed.

Lemma scenario_forecast_sequences_witness :
  exists values,
    scenario_forecast 49 60 2027 2024 (Some [("base"%string, 2.5)]) !! "base"%string
    = Some (FloatList values)
    /\ length values = 3%nat.
Proof.
  assert (Hdict : dict_items [("base"%string, 2.5)]).
  { unfold dict_items. cbn. apply NoDup_singleton. }
  destruct (scenario_forecast_sequences 49 60 2027 2024 [("base"%string, 2.5)]
              Hdict ltac:(lia)) as (_ & _ & Hsc & _).
  destruct (Hsc "base"%string 2.5 ltac:(left)) as (values & Hres & Hlen & _).
  exists values. split; [exact Hres|]. rewrite Hlen. reflexivity.
Defined.

Lemma scenario_loop_empty_horizon current_value
    (scenarios : list (string * R)) (results : gmap string pylist) name :
  name ∈ scenarios.*1 ->
  foldl (scenario_step current_value []) results scenarios !! name = Some (FloatList []).
Proof.
  revert results. induction scenarios as [|[n g] rest IH]; intros results Hin.
  - by apply elem_of_nil in Hin.
  - cbn [foldl scenario_step]. destruct (decide (name ∈ rest.*1)) as [Hrest|Hrest].
    + by apply IH.
    + rewrite scenario_loop_other by done.
      cbn in Hin. apply elem_of_cons in Hin as [->|Hin]; [|contradiction].
      apply lookup_insert_eq.
Qed.

(** C7. With [target_year <= current_year] the result is produced (the
    function has no failing path): the entry under ['years'] is an empty
    list, it is the empty list of forecast years unless a scenario carries
    that name, and every scenario, custom or default, maps to the empty
    value sequence. *)
Theorem scenario_forecast_empty_horizon
    (current_value target_value : R) (target_year current_year : Z)
    (scenarios : option (list (string * R))) :
  (target_year <= current_year)%Z ->
  let results :=
    scenario_forecast current_value target_value target_year current_year scenarios in
  py_range (current_year + 1) (target_year + 1) = []
  /\ (exists entry, results !! "years"%string = Some entry /\ pylen entry = 0%nat)
  /\ ("years"%string ∉ (default default_scenarios scenarios).*1 ->
      results !! "years"%string = Some (IntList []))
  /\ (forall name, name ∈ (default default_scenarios scenarios).*1 ->
      results !! name = Some (FloatList [])).
Proof.
  intros Hle results.
  assert (Hyears : py_range (current_year + 1) (target_year + 1) = [])
    by (apply py_range_empty; lia).
  assert (Hsc : forall name, name ∈ (default default_scenarios scenarios).*1 ->
                  results !! name = Some (FloatList [])).
  { intros name Hin. unfold results, scenario_forecast. rewrite Hyears.
    by apply scenario_loop_empty_horizon. }
  assert (Hfree : "years"%string ∉ (default default_scenarios scenarios).*1 ->
                  results !! "years"%string = Some (IntList [])).
  { intros Hfree. unfold results, scenario_forecast. rewrite Hyears.
    rewrite scenario_loop_other by done. apply lookup_singleton_eq. }
  split; [done|]. split; [|done].
  destruct (decide ("years"%string ∈ (default default_scenarios scenarios).*1)) as [Hin|Hout].
  - exists (FloatList []). split; [by apply Hsc|done].
  - exists (IntList []). split; [by apply Hfree|done].
Qed.

Lemma scenario_forecast_empty_horizon_witness :
  scenario_forecast 49 60 2024 2024 None !! "base"%string = Some (FloatList []).
Proof.
  destruct (scenario_forecast_empty_horizon 49 60 2024 2024 None ltac:(lia))
    as (_ & _ & _ & Hsc).
  apply Hsc. cbn. right. left.
Defined.

(** C10. When no scenario is named ['years'], the returned mapping has
    [len(scenarios) + 1] entries, keeps the forecast years under ['years']
    and stores for every scenario a sequence as long as that list.  A
    scenario named ['years'] has its value sequence stored under that key in
    place of the forecast years. *)
Theorem scenario_forecast_entries
    (current_value target_value : R) (target_year current_year : Z)
    (scenarios : list (string * R)) :
  dict_items scenarios ->
  let results :=
    scenario_forecast current_value target_value target_year current_year (Some scenarios) in
  let years := py_range (current_year + 1) (target_year + 1) in
  ("years"%string ∉ scenarios.*1 ->
     size results = (length scenarios + 1)%nat
     /\ results !! "years"%string = Some (IntList years)
     /\ forall name g, (name, g) ∈ scenarios ->
          exists values, results !! name = Some (FloatList values)
                         /\ length values = length years)
  /\ (forall g, ("years"%string, g) ∈ scenarios ->
        results !! "years"%string = Some (FloatList (yearly_values current_value g years))).
Proof.
  intros Hdict results years. split.
  - intros Hfree. split; [|split].
    + unfold results, scenario_forecast, default, from_option, Datatypes.id.
      rewrite scenario_loop_size; [by rewrite map_size_singleton; lia | done |].
      intros name Hname. apply lookup_singleton_ne. by intros <-.
    + unfold results, scenario_forecast, default, from_option, Datatypes.id.
      rewrite scenario_loop_other by done. apply lookup_singleton_eq.
    + intros name g Hin. exists (yearly_values current_value g years). split.
      * by apply scenario_loop_item.
      * apply yearly_values_length.
  - intros g Hin. by apply scenario_loop_item.
Qed.

Lemma scenario_forecast_entries_witness :
  size (scenario_forecast 49 60 2027 2024
          (Some [("optimistic"%string, 4); ("base"%string, 2.5)])) = 3%nat.
Proof.
  assert (Hdict : dict_items [("optimistic"%string, 4); ("base"%string, 2.5)]).
  { unfold dict_items. cbn. apply NoDup_cons. split; [|apply NoDup_singleton].
    intros Hin. apply list_elem_of_singleton in Hin. discriminate. }
  destruct (scenario_forecast_entries 49 60 2027 2024 _ Hdict) as [Hsize _].
  apply Hsize. cbn. intros Hin.
  apply elem_of_cons in Hin as [Hin|Hin]; [discriminate|].
  apply list_elem_of_singleton in Hin. discriminate.
Defined.

(** ** Sums of reals *)

Lemma sum_cons r l : sum (r :: l) = r + sum l.
Proof. reflexivity. Qed.

Lemma sum_nonneg (l : list R) : Forall (fun r => 0 <= r) l -> 0 <= sum l.
Proof. induction 1 as [|r l Hr _ IH]; [cbn; lra|]. rewrite sum_cons. lra. Qed.

Lemma sum_zero_nonneg (l : list R) :
  Forall (fun r => 0 <= r) l -> sum l = 0 -> Forall (fun r => r = 0) l.
Proof.
  induction 1 as [|r l Hr Hl IH]; [constructor|].
  rewrite sum_cons. intros Hsum.
  pose proof (sum_nonneg l Hl). constructor; [lra|]. apply IH. lra.
Qed.

Lemma sum_squares_nonneg {A} (f : A -> R) (l : list A) :
  0 <= sum ((fun a => f a ^ 2) <$> l).
Proof.
  apply sum_nonneg, Forall_fmap, Forall_forall. intros a _. cbn. apply pow2_ge_0.
Qed.

Lemma sum_squares_zero {A} (f : A -> R) (l : list A) a :
  sum ((fun a => f a ^ 2) <$> l) = 0 -> a ∈ l -> f a = 0.
Proof.
  intros Hsum Hin.
  assert (Hall : Forall (fun r => r = 0) ((fun a => f a ^ 2) <$> l)).
  { apply sum_zero_nonneg; [|done].
    apply Forall_fmap, Forall_forall. intros b _. cbn. apply pow2_ge_0. }
  rewrite Forall_fmap, Forall_forall in Hall. specialize (Hall a Hin). cbn in Hall.
  nra.
Qed.

Lemma sum_const (c : R) (l : list R) :
  Forall (fun r => r = c) l -> sum l = INR (length l) * c.
Proof.
  induction 1 as [|r l -> _ IH].
  - cbn. lra.
  - rewrite sum_cons, IH. cbn [length]. rewrite S_INR. lra.
Qed.

(** Expansion of the sum of squared deviations from any centre [m]. *)
Lemma sum_sq_shift (m : R) (l : list R) :
  sum ((fun r => (r - m) ^ 2) <$> l)
  = sum ((fun r => r * r) <$> l) - 2 * m * sum l + INR (length l) * m ^ 2.
Proof.
  induction l as [|r l IH].
  - cbn. lra.
  - rewrite !fmap_cons, !sum_cons, IH. cbn [length]. rewrite S_INR. ring.
Qed.

Lemma sum_cross_shift (m m' : R) (x y : list R) :
  length x = length y ->
  sum (zip_with (fun a b => (a - m) * (b - m')) x y)
  = sum (zip_with Rmult x y) - m' * sum x - m * sum y + INR (length x) * m * m'.
Proof.
  revert y. induction x as [|a x IH]; intros [|b y] Hlen; try discriminate.
  - cbn. lra.
  - cbn [zip_with]. rewrite !sum_cons, IH by (cbn in Hlen; lia).
    cbn [length]. rewrite S_INR. ring.
Qed.

(** Expansion of the sum of squared residuals in the raw moments. *)
Lemma sse_expand (x y : list R) (a b : R) :
  length x = length y ->
  sse x y a b
  = sum ((fun r => r * r) <$> y) - 2 * a * sum (zip_with Rmult x y) - 2 * b * sum y
    + a ^ 2 * sum ((fun r => r * r) <$> x) + 2 * a * b * sum x
    + b ^ 2 * INR (length x).
Proof.
  unfold sse. revert y. induction x as [|xi x IH]; intros [|yi y] Hlen; try discriminate.
  - cbn. lra.
  - cbn [zip_with]. rewrite !fmap_cons, !sum_cons, IH by (cbn in Hlen; lia).
    cbn [length]. rewrite S_INR. ring.
Qed.

Lemma sum_affine_sq (u v : R) (x : list R) :
  sum ((fun r => (u * r + v) ^ 2) <$> x)
  = u ^ 2 * sum ((fun r => r * r) <$> x) + 2 * u * v * sum x + v ^ 2 * INR (length x).
Proof.
  induction x as [|r x IH].
  - cbn. lra.
  - rewrite !fmap_cons, !sum_cons, IH. cbn [length]. rewrite S_INR. ring.
Qed.

Lemma fmap_square (l : list R) : (fun r => r * r) <$> l = (fun r => r ^ 2) <$> l.
Proof. apply list_fmap_ext. intros _ r _. ring. Qed.

Lemma length_INR_ne_0 {A} (l : list A) : l <> [] -> INR (length l) <> 0.
Proof. intros Hne. apply not_0_INR. destruct l; [done|cbn; lia]. Qed.

Lemma sum_sq_dev_nonneg (x : list R) : 0 <= sum_sq_dev x.
Proof. unfold sum_sq_dev. apply (sum_squares_nonneg (fun r => r - mean x)). Qed.

Lemma sum_sq_dev_zero (x : list R) r : sum_sq_dev x = 0 -> r ∈ x -> r = mean x.
Proof.
  unfold sum_sq_dev. intros Hz Hin.
  pose proof (sum_squares_zero (fun r => r - mean x) x r Hz Hin) as H. cbn in H. lra.
Qed.

Lemma mean_const (c : R) (x : list R) :
  x <> [] -> Forall (fun r => r = c) x -> mean x = c.
Proof.
  intros Hne Hall. unfold mean. rewrite (sum_const c) by done.
  field. by apply length_INR_ne_0.
Qed.

Lemma sum_sq_dev_const (c : R) (x : list R) :
  x <> [] -> Forall (fun r => r = c) x -> sum_sq_dev x = 0.
Proof.
  intros Hne Hall. unfold sum_sq_dev. rewrite (mean_const c) by done.
  rewrite (sum_const 0); [lra|].
  apply Forall_fmap. eapply Forall_impl; [exact Hall|]. cbn. intros r ->. ring.
Qed.

(** Two different abscissae give a positive spread. *)
Lemma sum_sq_dev_distinct (x : list R) a b :
  a ∈ x -> b ∈ x -> a <> b -> 0 < sum_sq_dev x.
Proof.
  intros Ha Hb Hab. destruct (sum_sq_dev_nonneg x) as [Hpos|Hz]; [done|].
  symmetry in Hz. pose proof (sum_sq_dev_zero x a Hz Ha).
  pose proof (sum_sq_dev_zero x b Hz Hb). congruence.
Qed.

Lemma sum_squares_ne_0 (x : list R) r :
  r ∈ x -> r <> 0 -> sum ((fun r => r * r) <$> x) <> 0.
Proof.
  intros Hin Hr Hz. rewrite fmap_square in Hz.
  by pose proof (sum_squares_zero (fun r => r) x r Hz Hin).
Qed.

Section LeastSquares.
Variables x y : list R.
Hypothesis Hlen : length x = length y.
Hypothesis Hspread : sum_sq_dev x <> 0.

Lemma spread_nonempty : x <> [].
Proof. intros ->. apply Hspread. reflexivity. Qed.

Lemma spread_squares_ne_0 : sum ((fun r => r * r) <$> x) <> 0.
Proof.
  intros Hz. apply Hspread. rewrite fmap_square in Hz.
  assert (Hall : Forall (fun r => r = 0) x).
  { apply Forall_forall. intros r Hin.
    exact (sum_squares_zero (fun r => r) x r Hz Hin). }
  apply (sum_sq_dev_const 0); [apply spread_nonempty|done].
Qed.

(** The normal equations of the fitted line. *)
Lemma lstsq_normal_intercept :
  sum y = lstsq_slope x y * sum x + lstsq_intercept x y * INR (length x).
Proof.
  pose proof (length_INR_ne_0 x spread_nonempty) as Hn.
  unfold lstsq_intercept, mean. rewrite <- Hlen. field. exact Hn.
Qed.

Lemma lstsq_normal_slope :
  sum (zip_with Rmult x y)
  = lstsq_slope x y * sum ((fun r => r * r) <$> x) + lstsq_intercept x y * sum x.
Proof.
  pose proof (length_INR_ne_0 x spread_nonempty) as Hn.
  assert (Hs : lstsq_slope x y * sum_sq_dev x
               = sum (zip_with (fun a b => (a - mean x) * (b - mean y)) x y)).
  { unfold lstsq_slope. field. exact Hspread. }
  unfold lstsq_intercept. revert Hs. generalize (lstsq_slope x y). intros s Hs.
  rewrite sum_cross_shift in Hs by done.
  unfold sum_sq_dev in Hs. rewrite sum_sq_shift in Hs.
  unfold mean in *. rewrite <- Hlen in *.
  set (n := INR (length x)) in *. set (sx := sum x) in *. set (sy := sum y) in *.
  set (sxx := sum ((fun r => r * r) <$> x)) in *.
  set (sxy := sum (zip_with Rmult x y)) in *.
  assert (E1 : s * (sxx - 2 * (sx / n) * sx + n * (sx / n) ^ 2)
               = s * sxx - s * sx * sx / n) by (field; exact Hn).
  assert (E2 : sxy - sy / n * sx - sx / n * sy + n * (sx / n) * (sy / n)
               = sxy - sx * sy / n) by (field; exact Hn).
  assert (E3 : (sy / n - s * (sx / n)) * sx = sx * sy / n - s * sx * sx / n)
    by (field; exact Hn).
  lra.
Qed.

(** The fitted line minimises the sum of squared residuals: the sum for any
    other line exceeds it by a sum of squares. *)
Lemma lstsq_sse_gap (a b : R) :
  sse x y a b
  = sse x y (lstsq_slope x y) (lstsq_intercept x y)
    + sum ((fun r => ((a - lstsq_slope x y) * r + (b - lstsq_intercept x y)) ^ 2) <$> x).
Proof.
  rewrite !sse_expand by done. rewrite sum_affine_sq.
  rewrite lstsq_normal_slope, lstsq_normal_intercept. ring.
Qed.

Lemma lstsq_minimal (a b : R) :
  sse x y (lstsq_slope x y) (lstsq_intercept x y) <= sse x y a b.
Proof.
  rewrite (lstsq_sse_gap a b).
  pose proof (sum_squares_nonneg
                (fun r => (a - lstsq_slope x y) * r + (b - lstsq_intercept x y)) x).
  lra.
Qed.

End LeastSquares.

Lemma polyfit1_full_rank (x y : list R) :
  length x = length y -> sum_sq_dev x <> 0 ->
  polyfit1 x y = Ok (lstsq_slope x y, lstsq_intercept x y).
Proof.
  intros Hlen Hspread.
  assert (Hsq : sum ((fun r => r * r) <$> x) <> 0)
    by (eapply spread_squares_ne_0; eassumption).
  unfold polyfit1. destruct x as [|c rest] eqn:Ex.
  { exfalso. apply Hspread. reflexivity. }
  rewrite Hlen, Nat.eqb_refl. cbn [negb].
  destruct (Req_dec_T _ 0) as [Hz|_]; [contradiction|].
  destruct (Req_dec_T _ 0) as [Hz|_]; [contradiction|done].
Qed.

Lemma lstsq_unique (x y : list R) (p q a b : R) :
  length x = length y -> p ∈ x -> q ∈ x -> p <> q ->
  sse x y a b = sse x y (lstsq_slope x y) (lstsq_intercept x y) ->
  a = lstsq_slope x y /\ b = lstsq_intercept x y.
Proof.
  intros Hlen Hp Hq Hpq Heq.
  assert (Hspread : sum_sq_dev x <> 0).
  { pose proof (sum_sq_dev_distinct x p q Hp Hq Hpq). lra. }
  rewrite (lstsq_sse_gap x y Hlen Hspread a b) in Heq.
  set (u := a - lstsq_slope x y) in *. set (v := b - lstsq_intercept x y) in *.
  assert (Hz : sum ((fun r => (u * r + v) ^ 2) <$> x) = 0) by lra.
  pose proof (sum_squares_zero (fun r => u * r + v) x p Hz Hp) as Ep.
  pose proof (sum_squares_zero (fun r => u * r + v) x q Hz Hq) as Eq.
  cbn in Ep, Eq.
  assert (Hu : u = 0).
  { assert (u * (p - q) = 0) by lra.
    destruct (Rmult_integral _ _ H) as [?|?]; [done|lra]. }
  subst u v. split; nra.
Qed.

(** ** Linear trend forecaster *)

Lemma two_distinct_spec (years : list Z) :
  two_distinct years = true ->
  exists a b, a ∈ years /\ b ∈ years /\ a <> b.
Proof.
  destruct years as [|y rest]; [done|]. cbn. intros Hneg.
  apply negb_true_iff in Hneg.
  induction rest as [|z rest IH]; [done|]. cbn in Hneg.
  apply andb_false_iff in Hneg as [Hyz|Hrest].
  - exists y, z. split; [left|split; [right; left|]]. by apply Z.eqb_neq.
  - destruct (IH Hrest) as (a & b & Ha & Hb & Hab).
    exists a, b. split; [|split; [|done]].
    + apply elem_of_cons in Ha as [->|Ha]; [left|right; by right].
    + apply elem_of_cons in Hb as [->|Hb]; [left|right; by right].
Qed.

Lemma two_distinct_length (years : list Z) :
  two_distinct years = true -> (2 <= length years)%nat.
Proof. destruct years as [|y [|z rest]]; cbn; try done. lia. Qed.

Lemma two_distinct_spread (years : list Z) :
  two_distinct years = true -> 0 < sum_sq_dev (IZR <$> years).
Proof.
  intros Hd. destruct (two_distinct_spec years Hd) as (a & b & Ha & Hb & Hab).
  apply (sum_sq_dev_distinct _ (IZR a) (IZR b)).
  - by apply list_elem_of_fmap_2.
  - by apply list_elem_of_fmap_2.
  - intros Heq. by apply eq_IZR in Heq.
Qed.

Lemma zip_with_fmap_same {A B C D} (h : B -> C -> D) (f : A -> B) (g : A -> C) (l : list A) :
  zip_with h (f <$> l) (g <$> l) = (fun a => h (f a) (g a)) <$> l.
Proof. induction l as [|a l IH]; cbn; [done|]. by rewrite IH. Qed.

Lemma std_population (l : list R) : std l = population_std l.
Proof.
  unfold std, population_std, mean at 1. rewrite length_fmap. do 2 f_equal.
  f_equal. apply list_fmap_ext. intros _ r _. apply pow2_abs.
Qed.

Lemma std_nonneg (l : list R) : 0 <= std l.
Proof. apply sqrt_pos. Qed.

(** On a positive spread the margin stays finite and is the formula of the
    specification. *)
Lemma margin_finite (std_error : R) (yrs : list R) (y : R) :
  0 < sum_sq_dev yrs ->
  xmul (Fin (1.96 * std_error))
       (xsqrt (xadd (Fin (1 + 1 / INR (length yrs)))
                    (xdiv ((y - mean yrs) ^ 2) (sum_sq_dev yrs))))
  = Fin (prediction_margin std_error yrs y).
Proof.
  intros Hpos. unfold xdiv.
  destruct (Req_dec_T (sum_sq_dev yrs) 0) as [Hz|_]; [lra|].
  cbn [xadd xsqrt].
  assert (Hn : 0 <= 1 / INR (length yrs)).
  { unfold Rdiv. rewrite Rmult_1_l. destruct (length yrs) as [|n] eqn:E.
    - cbn. rewrite Rinv_0. lra.
    - left. apply Rinv_0_lt_compat. apply lt_0_INR. lia. }
  assert (Hq : 0 <= (y - mean yrs) ^ 2 / sum_sq_dev yrs).
  { apply Rmult_le_pos; [apply pow2_ge_0|]. left. by apply Rinv_0_lt_compat. }
  destruct (Rlt_dec _ 0) as [Hneg|_]; [lra|]. reflexivity.
Qed.

Lemma prediction_margin_nonneg (std_error : R) (yrs : list R) (y : R) :
  0 <= std_error -> 0 <= prediction_margin std_error yrs y.
Proof.
  intros Hs. unfold prediction_margin. apply Rmult_le_pos; [lra|apply sqrt_pos].
Qed.

(** The result of the linear forecaster on a valid input, in closed form. *)
Lemma linear_trend_forecast_valid (years : list Z) (values : list R) (forecast_years : list Z) :
  length years = length values ->
  two_distinct years = true ->
  let yrs := IZR <$> years in
  let slope := lstsq_slope yrs values in
  let intercept := lstsq_intercept yrs values in
  let residuals := zip_with Rminus values ((fun y => slope * y + intercept) <$> yrs) in
  let margin := fun y => prediction_margin (std residuals) yrs (IZR y) in
  linear_trend_forecast years values forecast_years
  = Ok ((fun y => Fin (slope * IZR y + intercept)) <$> forecast_years,
        (fun y => Fin (slope * IZR y + intercept - margin y)) <$> forecast_years,
        (fun y => Fin (slope * IZR y + intercept + margin y)) <$> forecast_years).
Proof.
  intros Hlen Hd yrs slope intercept residuals margin.
  pose proof (two_distinct_spread years Hd) as Hpos. fold yrs in Hpos.
  unfold linear_trend_forecast. fold yrs.
  rewrite polyfit1_full_rank; [|by unfold yrs; rewrite length_fmap|lra].
  cbn [mbind result_bind mret result_ret]. fold slope intercept residuals.
  replace (length years) with (length yrs) by (unfold yrs; apply length_fmap).
  rewrite <- !list_fmap_compose, !zip_with_fmap_same.
  unfold mret, result_ret.
  do 2 f_equal; [f_equal|]; apply list_fmap_ext; intros _ y _; unfold compose;
    rewrite margin_finite by done; cbn [xsub xadd xopp]; f_equal; unfold margin; lra.
Qed.

(** A perfect line is reproduced: the points (2020, 10), (2021, 12),
    (2022, 14) forecast 16 for 2023 with a zero margin. *)
Example perfect_line_forecast :
  linear_trend_forecast [2020; 2021; 2022]%Z [10; 12; 14] [2023]%Z
  = Ok ([Fin 16], [Fin 16], [Fin 16]).
Proof.
  rewrite (linear_trend_forecast_valid [2020; 2021; 2022]%Z [10; 12; 14] [2023]%Z eq_refl eq_refl).
  set (yrs := IZR <$> [2020; 2021; 2022]%Z).
  assert (Hmx : mean yrs = 2021) by (unfold mean, yrs; cbn; lra).
  assert (Hmy : mean [10; 12; 14] = 12) by (unfold mean; cbn; lra).
  assert (Hss : sum_sq_dev yrs = 2) by (unfold sum_sq_dev; rewrite Hmx; unfold yrs; cbn; lra).
  assert (Hs : lstsq_slope yrs [10; 12; 14] = 2).
  { unfold lstsq_slope. rewrite Hss, Hmx, Hmy. unfold yrs. cbn. lra. }
  assert (Hi : lstsq_intercept yrs [10; 12; 14] = -4030).
  { unfold lstsq_intercept. rewrite Hs, Hmx, Hmy. lra. }
  rewrite Hs, Hi.
  assert (Hstd : std (zip_with Rminus [10; 12; 14] ((fun y => 2 * y + -4030) <$> yrs)) = 0).
  { unfold yrs. cbn [fmap list_fmap zip_with].
    replace (10 - (2 * 2020 + -4030)) with 0 by lra.
    replace (12 - (2 * 2021 + -4030)) with 0 by lra.
    replace (14 - (2 * 2022 + -4030)) with 0 by lra.
    unfold std. assert (Hm0 : mean [0; 0; 0] = 0) by (unfold mean; cbn; lra).
    rewrite Hm0. cbn [fmap list_fmap]. rewrite Rminus_diag, Rabs_R0.
    replace (mean [0 ^ 2; 0 ^ 2; 0 ^ 2]) with 0 by (unfold mean; cbn; lra).
    apply sqrt_0. }
  rewrite Hstd. unfold prediction_margin. cbn [fmap list_fmap].
  do 2 f_equal; [f_equal|]; do 2 f_equal; lra.
Qed.

(** C1. On at least two points with two different years, the coefficients
    used by [linear_trend_forecast] are the least-squares line (the unique
    minimiser of the sum of squared residuals); the forecast of year [y] is
    [slope * y + intercept]; [std_error] is the population standard deviation
    of the residuals observed minus fitted; the bounds are the forecast
    minus and plus
    [1.96 * std_error * sqrt(1 + 1/n + (y - mean)^2 / sum((years - mean)^2))]. *)
Theorem linear_trend_forecast_least_squares
    (years : list Z) (values : list R) (forecast_years : list Z) :
  length years = length values ->
  (2 <= length years)%nat ->
  two_distinct years = true ->
  let yrs := IZR <$> years in
  exists slope intercept,
    (forall a b, sse yrs values slope intercept <= sse yrs values a b)
    /\ (forall a b, sse yrs values a b = sse yrs values slope intercept ->
          a = slope /\ b = intercept)
    /\ let point := fun y => slope * IZR y + intercept in
       let residuals := zip_with Rminus values (point <$> years) in
       let std_error := population_std residuals in
       let margin := fun y => prediction_margin std_error yrs (IZR y) in
       linear_trend_forecast years values forecast_years
       = Ok ((fun y => Fin (point y)) <$> forecast_years,
             (fun y => Fin (point y - margin y)) <$> forecast_years,
             (fun y => Fin (point y + margin y)) <$> forecast_years).
Proof.
  intros Hlen _ Hd yrs.
  assert (Hlen' : length yrs = length values) by (unfold yrs; by rewrite length_fmap).
  pose proof (two_distinct_spread years Hd) as Hpos. fold yrs in Hpos.
  exists (lstsq_slope yrs values), (lstsq_intercept yrs values).
  split; [|split].
  - intros a b. apply lstsq_minimal; [done|lra].
  - intros a b. destruct (two_distinct_spec years Hd) as (p & q & Hp & Hq & Hpq).
    apply (lstsq_unique yrs values (IZR p) (IZR q)); [done| | |].
    + by apply list_elem_of_fmap_2.
    + by apply list_elem_of_fmap_2.
    + intros Heq. by apply eq_IZR in Heq.
  - cbv zeta. rewrite <- std_population.
    rewrite (linear_trend_forecast_valid years values forecast_years Hlen Hd).
    fold yrs.
    assert (Hfit : (fun y => lstsq_slope yrs values * y + lstsq_intercept yrs values) <$> yrs
                   = (fun y => lstsq_slope yrs values * IZR y + lstsq_intercept yrs values)
                       <$> years)
      by (unfold yrs at 3; by rewrite <- list_fmap_compose).
    rewrite Hfit. reflexivity.
Qed.

Lemma linear_trend_forecast_least_squares_witness :
  returns (linear_trend_forecast [2020; 2021; 2022]%Z [10; 12; 14] [2023]%Z).
Proof.
  destruct (linear_trend_forecast_least_squares
              [2020; 2021; 2022]%Z [10; 12; 14] [2023]%Z
              eq_refl ltac:(cbn; lia) eq_refl)
    as (slope & intercept & _ & _ & Hres).
  eexists. exact Hres.
Defined.

(** ** Logarithmic trend forecaster *)

Lemma foldr_min_spec (z : Z) (l : list Z) :
  foldr Z.min z l ∈ z :: l /\ forall y, y ∈ z :: l -> (foldr Z.min z l <= y)%Z.
Proof.
  induction l as [|a l [IHin IHle]]; cbn.
  - split; [left|]. intros y Hy. apply list_elem_of_singleton in Hy. lia.
  - split.
    + destruct (Z.min_spec a (foldr Z.min z l)) as [[_ ->]|[_ ->]].
      * right. left.
      * apply elem_of_cons in IHin as [->|Hin]; [left|right; by right].
    + intros y Hy. apply elem_of_cons in Hy as [->|Hy].
      * specialize (IHle z ltac:(left)). lia.
      * apply elem_of_cons in Hy as [->|Hy]; [lia|].
        specialize (IHle y ltac:(by right)). lia.
Qed.

Lemma np_min_spec (years : list Z) (base : Z) :
  Np.min years = Ok base -> base ∈ years /\ forall y, y ∈ years -> (base <= y)%Z.
Proof.
  destruct years as [|z l]; [done|]. cbn. intros [= <-]. apply foldr_min_spec.
Qed.

Lemma np_min_nonempty (years : list Z) :
  years <> [] -> exists base, Np.min years = Ok base.
Proof. destruct years as [|z l]; [done|]. intros _. by eexists. Qed.

Lemma log1p_finite (x : R) : -1 < x -> log1p x = Fin (ln (1 + x)).
Proof. intros Hx. unfold log1p. destruct (Rlt_dec (-1) x); [done|contradiction]. Qed.

(** The transform of a historical year is inside the domain of [log1p]. *)
Lemma log_years_in_domain (base y : Z) :
  (base <= y)%Z -> log1p (IZR (y - base + 1)) = Fin (log_year base y).
Proof.
  intros Hle. apply log1p_finite.
  assert (1 <= IZR (y - base + 1)) by (apply IZR_le; lia). lra.
Qed.

Lemma log_year_coordinate (base y : Z) : log_year base y = log_coordinate base y.
Proof.
  unfold log_year, log_coordinate. f_equal. rewrite plus_IZR, minus_IZR. ring.
Qed.

Lemma log_year_pos (base y : Z) : (base <= y)%Z -> 0 < log_year base y.
Proof.
  intros Hle. unfold log_year. rewrite <- ln_1. apply ln_increasing; [lra|].
  assert (1 <= IZR (y - base + 1)) by (apply IZR_le; lia). lra.
Qed.

Lemma log_year_inj (base a b : Z) :
  (base <= a)%Z -> (base <= b)%Z -> log_year base a = log_year base b -> a = b.
Proof.
  intros Ha Hb Heq. unfold log_year in Heq.
  assert (1 <= IZR (a - base + 1)) by (apply IZR_le; lia).
  assert (1 <= IZR (b - base + 1)) by (apply IZR_le; lia).
  apply ln_inv in Heq; [|lra|lra].
  assert (E : IZR (a - base + 1) = IZR (b - base + 1)) by lra.
  apply eq_IZR in E. lia.
Qed.

Lemma log_years_spread (years : list Z) (base : Z) :
  two_distinct years = true -> Np.min years = Ok base ->
  0 < sum_sq_dev (log_year base <$> years).
Proof.
  intros Hd Hmin. destruct (np_min_spec years base Hmin) as [_ Hle].
  destruct (two_distinct_spec years Hd) as (a & b & Ha & Hb & Hab).
  apply (sum_sq_dev_distinct _ (log_year base a) (log_year base b)).
  - by apply list_elem_of_fmap_2.
  - by apply list_elem_of_fmap_2.
  - intros Heq. apply Hab. apply (log_year_inj base); auto.
Qed.

(** The result of the logarithmic forecaster on a valid input. *)
Lemma log_trend_forecast_valid (years : list Z) (values : list R) (forecast_years : list Z)
    (base : Z) :
  length years = length values ->
  two_distinct years = true ->
  Np.min years = Ok base ->
  let t := log_year base <$> years in
  let slope := lstsq_slope t values in
  let intercept := lstsq_intercept t values in
  let residuals := zip_with Rminus values ((fun x => slope * x + intercept) <$> t) in
  let point := fun y => xadd (xmul (Fin slope) (log1p (IZR (y - base + 1)))) (Fin intercept) in
  log_trend_forecast years values forecast_years
  = Ok (point <$> forecast_years,
        (fun y => xsub (point y) (Fin (1.96 * std residuals))) <$> forecast_years,
        (fun y => xadd (point y) (Fin (1.96 * std residuals))) <$> forecast_years).
Proof.
  intros Hlen Hd Hmin t slope intercept residuals point.
  pose proof (log_years_spread years base Hd Hmin) as Hpos. fold t in Hpos.
  unfold log_trend_forecast. rewrite Hmin. cbn [mbind result_bind]. fold t.
  rewrite polyfit1_full_rank; [|by unfold t; rewrite length_fmap|lra].
  cbn [mbind result_bind]. fold slope intercept residuals.
  unfold mret, result_ret. rewrite <- !list_fmap_compose. reflexivity.
Qed.

(** C5. On a valid input [log_trend_forecast] maps each historical year to
    [log(1 + (year - min_year) + 1)], fits value against that coordinate by
    least squares, evaluates the fitted line at the forecast years under the
    same transform [log1p(year - min_year + 1)], and returns the forecast
    minus and plus the one margin [1.96 * std_error] for every forecast
    year: wherever the transform is defined, from the year before the first
    historical year on, the three outputs are the real numbers [forecast],
    [forecast - 1.96 * std_error] and [forecast + 1.96 * std_error]. *)
Theorem log_trend_forecast_least_squares
    (years : list Z) (values : list R) (forecast_years : list Z) :
  length years = length values ->
  (2 <= length years)%nat ->
  two_distinct years = true ->
  exists min_year slope intercept,
    (min_year ∈ years /\ forall y, y ∈ years -> (min_year <= y)%Z)
    /\ Forall (fun y => log1p (IZR (y - min_year + 1)) = Fin (log_coordinate min_year y)) years
    /\ let t := log_coordinate min_year <$> years in
       (forall a b, sse t values slope intercept <= sse t values a b)
       /\ (forall a b, sse t values a b = sse t values slope intercept ->
             a = slope /\ b = intercept)
       /\ let residuals := zip_with Rminus values ((fun x => slope * x + intercept) <$> t) in
          let std_error := population_std residuals in
          let point :=
            fun y => xadd (xmul (Fin slope) (log1p (IZR (y - min_year + 1)))) (Fin intercept) in
          log_trend_forecast years values forecast_years
          = Ok (point <$> forecast_years,
                (fun y => xsub (point y) (Fin (1.96 * std_error))) <$> forecast_years,
                (fun y => xadd (point y) (Fin (1.96 * std_error))) <$> forecast_years)
          /\ forall y, (min_year - 1 <= y)%Z ->
               let forecast := slope * log_coordinate min_year y + intercept in
               point y = Fin forecast
               /\ xsub (point y) (Fin (1.96 * std_error))
                  = Fin (forecast - 1.96 * std_error)
               /\ xadd (point y) (Fin (1.96 * std_error))
                  = Fin (forecast + 1.96 * std_error).
Proof.
  intros Hlen Hn Hd.
  destruct (np_min_nonempty years) as [base Hmin].
  { intros ->. cbn in Hn. lia. }
  destruct (np_min_spec years base Hmin) as [Hin Hle].
  assert (Ht : log_coordinate base <$> years = log_year base <$> years).
  { apply list_fmap_ext. intros _ y _. symmetry. apply log_year_coordinate. }
  pose proof (log_years_spread years base Hd Hmin) as Hpos.
  assert (Hlen' : length (log_year base <$> years) = length values)
    by (by rewrite length_fmap).
  exists base, (lstsq_slope (log_year base <$> years) values),
    (lstsq_intercept (log_year base <$> years) values).
  split; [done|]. split.
  { apply Forall_forall. intros y Hy. rewrite <- log_year_coordinate.
    apply log_years_in_domain. by apply Hle. }
  cbv zeta. rewrite Ht. split; [|split; [|split]].
  - intros a b. apply lstsq_minimal; [done|lra].
  - intros a b. destruct (two_distinct_spec years Hd) as (p & q & Hp & Hq & Hpq).
    apply (lstsq_unique _ values (log_year base p) (log_year base q)); [done| | |].
    + by apply list_elem_of_fmap_2.
    + by apply list_elem_of_fmap_2.
    + intros Heq. apply Hpq. apply (log_year_inj base); auto.
  - rewrite <- std_population.
    apply (log_trend_forecast_valid years values forecast_years base Hlen Hd Hmin).
  - intros y Hy. rewrite log1p_finite.
    + cbn [xmul xadd xsub xopp]. rewrite <- log_year_coordinate. by repeat split.
    + assert (0 <= IZR (y - base + 1)) by (apply IZR_le; lia). lra.
Qed.

Lemma log_trend_forecast_least_squares_witness :
  exists forecast margin,
    log_trend_forecast [2020; 2021; 2022]%Z [10; 12; 14] [2023]%Z
    = Ok ([Fin forecast], [Fin (forecast - margin)], [Fin (forecast + margin)]).
Proof.
  destruct (log_trend_forecast_least_squares
              [2020; 2021; 2022]%Z [10; 12; 14] [2023]%Z
              eq_refl ltac:(cbn; lia) eq_refl)
    as (base & slope & intercept & [_ Hle] & _ & _ & _ & Hres & Hreal).
  assert (Hbase : (base - 1 <= 2023)%Z).
  { specialize (Hle 2020%Z ltac:(left)). lia. }
  destruct (Hreal 2023%Z Hbase) as (Hpoint & Hlower & Hupper).
  cbv zeta in Hres, Hpoint, Hlower, Hupper.
  cbn [fmap list_fmap] in Hres, Hpoint, Hlower, Hupper.
  rewrite Hlower, Hupper, Hpoint in Hres.
  do 2 eexists. exact Hres.
Defined.

(** ** Ordering of the bounds *)

Lemma log_domain_spec (years forecast_years : list Z) (base : Z) :
  log_domain years forecast_years = true ->
  Np.min years = Ok base ->
  forall y, y ∈ forecast_years -> (base - 1 <= y)%Z.
Proof.
  intros Hdom Hmin y Hy. destruct (np_min_spec years base Hmin) as [_ Hle].
  unfold log_domain in Hdom. rewrite forallb_forall in Hdom.
  apply list_elem_of_In in Hy. specialize (Hdom y Hy).
  apply existsb_exists in Hdom as (h & Hh & Hhy).
  apply list_elem_of_In in Hh. specialize (Hle h Hh). lia.
Qed.

Lemma bounds_ordered_fmap {A} (point lower upper : A -> xreal) (l : list A) :
  (forall a, a ∈ l -> xle (lower a) (point a) /\ xle (point a) (upper a)) ->
  bounds_ordered (point <$> l) (lower <$> l) (upper <$> l).
Proof.
  intros Hall i f lo up Hf Hl Hu.
  rewrite list_lookup_fmap in Hf, Hl, Hu.
  destruct (l !! i) as [a|] eqn:Ea; [|done].
  cbn in Hf, Hl, Hu. injection Hf as <-. injection Hl as <-. injection Hu as <-.
  apply Hall. by eapply list_elem_of_lookup_2.
Qed.

(** On at least two points with two different years the linear forecaster
    returns ordered bounds for any forecast years, and the logarithmic
    forecaster does so wherever its transform is defined, from the year
    before the first historical year on. *)
Lemma trend_forecast_bounds_in_domain
    (years : list Z) (values : list R) (forecast_years : list Z) :
  length years = length values ->
  (2 <= length years)%nat ->
  two_distinct years = true ->
  (exists forecast lower upper,
      linear_trend_forecast years values forecast_years = Ok (forecast, lower, upper)
      /\ length forecast = length forecast_years
      /\ length lower = length forecast_years
      /\ length upper = length forecast_years
      /\ bounds_ordered forecast lower upper)
  /\ (log_domain years forecast_years = true ->
      exists forecast lower upper,
        log_trend_forecast years values forecast_years = Ok (forecast, lower, upper)
        /\ length forecast = length forecast_years
        /\ length lower = length forecast_years
        /\ length upper = length forecast_years
        /\ bounds_ordered forecast lower upper).
Proof.
  intros Hlen Hn Hd. split.
  - rewrite (linear_trend_forecast_valid years values forecast_years Hlen Hd).
    do 3 eexists. split; [reflexivity|]. rewrite !length_fmap.
    do 3 (split; [done|]).
    apply bounds_ordered_fmap. intros y _. cbn [xle].
    pose proof (prediction_margin_nonneg
                  (std (zip_with Rminus values
                          ((fun h => lstsq_slope (IZR <$> years) values * h
                                     + lstsq_intercept (IZR <$> years) values)
                             <$> (IZR <$> years))))
                  (IZR <$> years) (IZR y) (std_nonneg _)).
    lra.
  - intros Hdom. destruct (np_min_nonempty years) as [base Hmin].
    { intros ->. cbn in Hn. lia. }
    rewrite (log_trend_forecast_valid years values forecast_years base Hlen Hd Hmin).
    do 3 eexists. split; [reflexivity|]. rewrite !length_fmap.
    do 3 (split; [done|]).
    apply bounds_ordered_fmap. intros y Hy.
    pose proof (log_domain_spec years forecast_years base Hdom Hmin y Hy) as Hge.
    rewrite log1p_finite.
    + cbn [xmul xadd xsub xopp xle].
      pose proof (std_nonneg
                    (zip_with Rminus values
                       ((fun x => lstsq_slope (log_year base <$> years) values * x
                                  + lstsq_intercept (log_year base <$> years) values)
                          <$> (log_year base <$> years)))).
      lra.
    + assert (0 <= IZR (y - base + 1)) by (apply IZR_le; lia). lra.
Qed.

Lemma after_history_log_domain (years forecast_years : list Z) :
  years <> [] -> after_history years forecast_years = true ->
  log_domain years forecast_years = true.
Proof.
  intros Hne Hafter. unfold after_history in Hafter. unfold log_domain.
  rewrite forallb_forall in Hafter. apply forallb_forall. intros y Hy.
  specialize (Hafter y Hy). rewrite forallb_forall in Hafter.
  destruct years as [|h rest]; [done|].
  apply existsb_exists. exists h. split; [by left|].
  specialize (Hafter h ltac:(by left)). apply Z.ltb_lt in Hafter.
  apply Z.leb_le. lia.
Qed.

(** C3. On a valid input (at least two points, two different years, every
    forecast year after the historical years) both forecasters return one
    forecast, lower and upper bound per forecast year, with
    [lower <= forecast <= upper] at every index. *)
Theorem trend_forecast_bounds_ordered
    (years : list Z) (values : list R) (forecast_years : list Z) :
  length years = length values ->
  (2 <= length years)%nat ->
  two_distinct years = true ->
  after_history years forecast_years = true ->
  (exists forecast lower upper,
      linear_trend_forecast years values forecast_years = Ok (forecast, lower, upper)
      /\ length forecast = length forecast_years
      /\ length lower = length forecast_years
      /\ length upper = length forecast_years
      /\ bounds_ordered forecast lower upper)
  /\ (exists forecast lower upper,
        log_trend_forecast years values forecast_years = Ok (forecast, lower, upper)
        /\ length forecast = length forecast_years
        /\ length lower = length forecast_years
        /\ length upper = length forecast_years
        /\ bounds_ordered forecast lower upper).
Proof.
  intros Hlen Hn Hd Hafter.
  destruct (trend_forecast_bounds_in_domain years values forecast_years Hlen Hn Hd)
    as [Hlinear Hlog].
  split; [exact Hlinear|]. apply Hlog. apply after_history_log_domain; [|exact Hafter].
  intros ->. cbn in Hn. lia.
Qed.

Lemma trend_forecast_bounds_ordered_witness :
  exists forecast lower upper,
    log_trend_forecast [2020; 2021; 2022]%Z [10; 12; 14] [2023; 2024]%Z
    = Ok (forecast, lower, upper)
    /\ bounds_ordered forecast lower upper.
Proof.
  destruct (trend_forecast_bounds_ordered
              [2020; 2021; 2022]%Z [10; 12; 14] [2023; 2024]%Z
              eq_refl ltac:(cbn; lia) eq_refl eq_refl)
    as [_ (forecast & lower & upper & Hres & _ & _ & _ & Hord)].
  exists forecast, lower, upper. split; [exact Hres|exact Hord].
Defined.

(** ** Degenerate inputs *)

Lemma all_years_spec (c : Z) (years : list Z) :
  all_years c years = true -> Forall (fun y => y = c) years.
Proof.
  unfold all_years. rewrite forallb_forall, Forall_forall.
  intros Hall y Hy. apply list_elem_of_In in Hy. specialize (Hall y Hy).
  symmetry. by apply Z.eqb_eq.
Qed.

(** Rank 1 with a non-zero abscissa: the minimum-norm solution. *)
Lemma polyfit1_rank1 (c : R) (x y : list R) :
  x <> [] -> Forall (fun r => r = c) x -> c <> 0 -> length x = length y ->
  polyfit1 x y = Ok (mean y / (2 * c), mean y / 2).
Proof.
  intros Hne Hall Hc Hlen.
  pose proof (sum_sq_dev_const c x Hne Hall) as Hz.
  destruct x as [|r rest] eqn:Ex; [done|]. rewrite <- Ex in *.
  assert (Hr : r = c) by (rewrite Ex in Hall; by inversion Hall).
  assert (Hsq : sum ((fun r => r * r) <$> x) <> 0).
  { apply (sum_squares_ne_0 x r); [rewrite Ex; left|congruence]. }
  unfold polyfit1. rewrite Ex at 1. rewrite Hlen, Nat.eqb_refl. cbn [negb].
  destruct (Req_dec_T _ 0) as [?|_]; [contradiction|].
  destruct (Req_dec_T _ 0) as [_|?]; [|contradiction]. by rewrite Hr.
Qed.

(** Over a zero spread the margin is [inf] or [nan]. *)
Lemma margin_not_finite (s b q d : R) :
  d = 0 -> 0 <= s ->
  let margin := xmul (Fin s) (xsqrt (xadd (Fin b) (xdiv (q ^ 2) d))) in
  margin = PInf \/ margin = NaN.
Proof.
  intros -> Hs margin.
  assert (Hdiv : xdiv (q ^ 2) 0 = PInf \/ xdiv (q ^ 2) 0 = NaN).
  { unfold xdiv, sign_inf. pose proof (pow2_ge_0 q).
    destruct (Req_dec_T 0 0) as [_|?]; [|done].
    destruct (Rlt_dec 0 (q ^ 2)); [by left|].
    destruct (Rlt_dec (q ^ 2) 0); [lra|by right]. }
  unfold margin. destruct Hdiv as [-> | ->]; [|by right].
  cbn [xadd xsqrt xmul]. unfold sign_inf.
  destruct (Rlt_dec 0 s); [by left|]. destruct (Rlt_dec s 0); [lra|by right].
Qed.

Lemma not_finite_bounds (f : R) (margin : xreal) :
  margin = PInf \/ margin = NaN ->
  ~ finite (xsub (Fin f) margin) /\ ~ finite (xadd (Fin f) margin).
Proof. intros [-> | ->]; cbn; split; intros [r Hr]; discriminate. Qed.

(** The linear forecaster on years that are all the same non-zero year: it
    returns the degenerate fit, and no bound is a finite number. *)
Lemma linear_trend_forecast_degenerate
    (years : list Z) (values : list R) (forecast_years : list Z) (c : Z) :
  years <> [] -> all_years c years = true -> c <> 0%Z ->
  length years = length values ->
  exists lower upper,
    linear_trend_forecast years values forecast_years
    = Ok ((fun y => Fin (mean values / (2 * IZR c) * IZR y + mean values / 2))
            <$> forecast_years, lower, upper)
    /\ Forall (fun b => ~ finite b) lower
    /\ Forall (fun b => ~ finite b) upper.
Proof.
  intros Hne Hall Hc Hlen. apply all_years_spec in Hall.
  assert (Hall' : Forall (fun r => r = IZR c) (IZR <$> years)).
  { apply Forall_fmap. eapply Forall_impl; [exact Hall|]. by intros y ->. }
  assert (Hne' : IZR <$> years <> []) by (by destruct years).
  unfold linear_trend_forecast.
  rewrite (polyfit1_rank1 (IZR c)); [|done|done| |by rewrite length_fmap].
  2:{ intros Hz. by apply (eq_IZR c 0) in Hz. }
  cbn [mbind result_bind]. unfold mret, result_ret.
  rewrite <- !list_fmap_compose, !zip_with_fmap_same.
  do 2 eexists. split; [reflexivity|].
  pose proof (sum_sq_dev_const (IZR c) _ Hne' Hall') as Hz.
  assert (Hstd : forall l, 0 <= 1.96 * std l).
  { intros l. pose proof (std_nonneg l). lra. }
  split; apply Forall_fmap, Forall_forall; intros y _; unfold compose.
  - match goal with
    | |- ~ finite (xsub (Fin ?f) ?m) => refine (proj1 (not_finite_bounds f m _))
    end.
    apply margin_not_finite; [exact Hz|apply Hstd].
  - match goal with
    | |- ~ finite (xadd (Fin ?f) ?m) => refine (proj2 (not_finite_bounds f m _))
    end.
    apply margin_not_finite; [exact Hz|apply Hstd].
Qed.

(** The logarithmic forecaster on years that are all the same year: every
    transformed year is [log 2], and the degenerate fit is returned. *)
Lemma log_trend_forecast_degenerate
    (years : list Z) (values : list R) (forecast_years : list Z) (c : Z) :
  years <> [] -> all_years c years = true ->
  length years = length values ->
  returns (log_trend_forecast years values forecast_years).
Proof.
  intros Hne Hall Hlen. apply all_years_spec in Hall.
  destruct (np_min_nonempty years Hne) as [base Hmin].
  destruct (np_min_spec years base Hmin) as [Hin Hle].
  assert (Hbase : base = c) by (rewrite Forall_forall in Hall; by apply Hall).
  assert (Hall' : Forall (fun r => r = log_year base base) (log_year base <$> years)).
  { apply Forall_fmap. eapply Forall_impl; [exact Hall|]. cbn. intros y ->. by rewrite Hbase. }
  unfold log_trend_forecast. rewrite Hmin. cbn [mbind result_bind].
  rewrite (polyfit1_rank1 (log_year base base)); [| |done| |by rewrite length_fmap].
  - cbn [mbind result_bind]. by eexists.
  - by destruct years.
  - pose proof (log_year_pos base base ltac:(lia)). lra.
Qed.

(** C4, as the code has it.  With exactly one historical point, or with all
    historical years the same year, and as many values as years, neither
    forecaster signals an error.  The logarithmic forecaster returns a
    result.  For a year other than 0 the linear forecaster returns the
    forecast of the minimum-norm fit, slope [mean(values) / (2 * year)] and
    intercept [mean(values) / 2], with bounds that are infinite or [nan]. *)
Theorem trend_forecast_degenerate_returns
    (years : list Z) (values : list R) (forecast_years : list Z) (c : Z) :
  years <> [] ->
  all_years c years = true ->
  length years = length values ->
  (c <> 0%Z ->
   exists lower upper,
     linear_trend_forecast years values forecast_years
     = Ok ((fun y => Fin (mean values / (2 * IZR c) * IZR y + mean values / 2))
             <$> forecast_years, lower, upper)
     /\ Forall (fun b => ~ finite b) lower
     /\ Forall (fun b => ~ finite b) upper)
  /\ returns (log_trend_forecast years values forecast_years).
Proof.
  intros Hne Hall Hlen. split.
  - intros Hc. by apply linear_trend_forecast_degenerate.
  - by apply (log_trend_forecast_degenerate years values forecast_years c).
Qed.

Lemma trend_forecast_degenerate_returns_witness :
  returns (linear_trend_forecast [2020]%Z [10] [2021]%Z)
  /\ returns (log_trend_forecast [2020]%Z [10] [2021]%Z).
Proof.
  destruct (trend_forecast_degenerate_returns [2020]%Z [10] [2021]%Z 2020%Z
              ltac:(discriminate) eq_refl eq_refl) as [Hlin Hlog].
  split; [|exact Hlog].
  destruct (Hlin ltac:(discriminate)) as (lower & upper & Hres & _).
  eexists. exact Hres.
Defined.

Lemma mean_singleton (r : R) : mean [r] = r.
Proof. unfold mean. cbn. lra. Qed.

Lemma std_singleton (r : R) : std [r] = 0.
Proof.
  unfold std. rewrite mean_singleton. cbn [fmap list_fmap].
  rewrite mean_singleton, Rminus_diag, Rabs_R0.
  replace (0 ^ 2) with 0 by ring. apply sqrt_0.
Qed.

Lemma sum_sq_dev_singleton (r : R) : sum_sq_dev [r] = 0.
Proof. unfold sum_sq_dev. rewrite mean_singleton. cbn. ring. Qed.

(** C4 as stated fails: one historical point is fitted without an error.
    The linear forecaster returns the forecast of the degenerate fit with
    [nan] bounds, the logarithmic forecaster returns a result as well. *)
Lemma single_point_forecast_returns :
  linear_trend_forecast [2020]%Z [10] [2021]%Z
  = Ok ([Fin (10 / (2 * 2020) * 2021 + 10 / 2)], [NaN], [NaN])
  /\ returns (log_trend_forecast [2020]%Z [10] [2021]%Z).
Proof.
  split.
  - unfold linear_trend_forecast. cbn [fmap list_fmap].
    rewrite (polyfit1_rank1 2020); [|done|by repeat constructor|lra|done].
    cbn [mbind result_bind zip_with fmap list_fmap length].
    rewrite std_singleton, sum_sq_dev_singleton, !mean_singleton.
    unfold xdiv. destruct (Req_dec_T 0 0) as [_|?]; [|done].
    unfold sign_inf. destruct (Rlt_dec 0 ((2021 - 2020) ^ 2)) as [_|Hn].
    2:{ exfalso. apply Hn. nra. }
    cbn [xadd xsqrt xmul]. unfold sign_inf.
    destruct (Rlt_dec 0 (1.96 * 0)) as [?|_]; [lra|].
    destruct (Rlt_dec (1.96 * 0) 0) as [?|_]; [lra|].
    reflexivity.
  - by apply (log_trend_forecast_degenerate [2020]%Z [10] [2021]%Z 2020%Z).
Qed.

(** ** Growth-rate analyzer *)

Lemma item_lookup {A} (l : list A) (i : nat) a : l !! i = Some a -> item l i = Ok a.
Proof. unfold item. by intros ->. Qed.

Lemma xdiv_finite (a b : R) : b <> 0 -> xdiv a b = Fin (a / b).
Proof. intros Hb. unfold xdiv. destruct (Req_dec_T b 0); [contradiction|done]. Qed.

Lemma growth_loop_rows (years : list Z) (values : list R) (k a : nat)
    (data : list growth_row) :
  length years = length values -> (1 <= a)%nat -> (a + k <= length years)%nat ->
  exists rows,
    growth_loop years values (seq a k) data = Ok (data ++ rows)
    /\ length rows = k
    /\ forall j : nat, (j < k)%nat ->
         exists y0 y1 v0 v1,
           years !! (a + j - 1)%nat = Some y0 /\ years !! (a + j)%nat = Some y1
           /\ values !! (a + j - 1)%nat = Some v0 /\ values !! (a + j)%nat = Some v1
           /\ rows !! j = Some (make_growth_row y0 y1 v0 v1).
Proof.
  intros Hlen. revert a data. induction k as [|k IH]; intros a data Ha Hk.
  - exists []. cbn. rewrite app_nil_r. split; [done|]. split; [done|]. intros j Hj. lia.
  - destruct (lookup_lt_is_Some_2 years (a - 1)) as [y0 Hy0]; [lia|].
    destruct (lookup_lt_is_Some_2 years a) as [y1 Hy1]; [lia|].
    destruct (lookup_lt_is_Some_2 values (a - 1)) as [v0 Hv0]; [lia|].
    destruct (lookup_lt_is_Some_2 values a) as [v1 Hv1]; [lia|].
    destruct (IH (S a) (data ++ [make_growth_row y0 y1 v0 v1])) as (rows & Hrun & Hrows & Hrow);
      [lia|lia|].
    exists (make_growth_row y0 y1 v0 v1 :: rows). split; [|split].
    + cbn [seq growth_loop]. unfold growth_row_at.
      rewrite (item_lookup _ _ _ Hy1), (item_lookup _ _ _ Hy0),
        (item_lookup _ _ _ Hv1), (item_lookup _ _ _ Hv0).
      cbn [mbind result_bind mret result_ret]. rewrite Hrun.
      by rewrite <- app_assoc.
    + cbn. by rewrite Hrows.
    + intros [|j] Hj.
      * rewrite Nat.add_0_r. by exists y0, y1, v0, v1.
      * destruct (Hrow j ltac:(lia)) as (z0 & z1 & w0 & w1 & Hz0 & Hz1 & Hw0 & Hw1 & Hr).
        exists z0, z1, w0, w1.
        replace (a + S j - 1)%nat with (S a + j - 1)%nat by lia.
        replace (a + S j)%nat with (S a + j)%nat by lia. done.
Qed.

Lemma strictly_increasing_lookup (years : list Z) (i : nat) y0 y1 :
  strictly_increasing years = true ->
  years !! i = Some y0 -> years !! S i = Some y1 -> (y0 < y1)%Z.
Proof.
  revert i. induction years as [|a rest IH]; intros i Hinc H0 H1; [done|].
  destruct rest as [|b rest]; [done|].
  cbn [strictly_increasing] in Hinc. apply andb_true_iff in Hinc as [Hab Hrest].
  destruct i as [|i].
  - cbn in H0, H1. injection H0 as <-. injection H1 as <-. by apply Z.ltb_lt.
  - apply (IH i Hrest H0 H1).
Qed.

(** C6. On [n >= 2] pairs with strictly increasing years the analyzer
    returns [n - 1] rows; row [i] spans observation [i] to observation
    [i + 1], with [period_years] the difference of the years,
    [total_growth_pp] the difference of the values and [annual_growth_pp]
    their quotient. *)
Theorem calculate_growth_rates_rows (years : list Z) (values : list R) :
  length years = length values ->
  (2 <= length years)%nat ->
  strictly_increasing years = true ->
  exists rows,
    calculate_growth_rates years values = Ok rows
    /\ length rows = (length years - 1)%nat
    /\ forall (i : nat) y0 y1 v0 v1,
         years !! i = Some y0 -> years !! S i = Some y1 ->
         values !! i = Some v0 -> values !! S i = Some v1 ->
         exists row,
           rows !! i = Some row
           /\ period_start row = y0 /\ period_end row = y1
           /\ period_years row = (y1 - y0)%Z
           /\ start_value row = v0 /\ end_value row = v1
           /\ total_growth_pp row = v1 - v0
           /\ annual_growth_pp row = Fin (total_growth_pp row / IZR (period_years row)).
Proof.
  intros Hlen Hn Hinc.
  destruct (growth_loop_rows years values (length years - 1) 1 [] Hlen)
    as (rows & Hrun & Hrows & Hrow); [lia|lia|].
  exists rows. split; [exact Hrun|]. split; [exact Hrows|].
  intros i y0 y1 v0 v1 Hy0 Hy1 Hv0 Hv1.
  assert (Hi : (i < length years - 1)%nat).
  { apply lookup_lt_Some in Hy1. lia. }
  destruct (Hrow i Hi) as (z0 & z1 & w0 & w1 & Hz0 & Hz1 & Hw0 & Hw1 & Hr).
  replace (1 + i - 1)%nat with i in * by lia. change (1 + i)%nat with (S i) in *.
  assert (z0 = y0) by congruence. assert (z1 = y1) by congruence.
  assert (w0 = v0) by congruence. assert (w1 = v1) by congruence. subst.
  exists (make_growth_row y0 y1 v0 v1). split; [exact Hr|].
  cbn. repeat (split; [reflexivity|]).
  apply xdiv_finite.
  pose proof (strictly_increasing_lookup years i y0 y1 Hinc Hy0 Hy1) as Hlt.
  apply IZR_lt in Hlt. rewrite minus_IZR. lra.
Qed.

Lemma calculate_growth_rates_rows_witness :
  exists rows,
    calculate_growth_rates [2014; 2017; 2021]%Z [22; 35; 46] = Ok rows
    /\ length rows = 2%nat.
Proof.
  destruct (calculate_growth_rates_rows [2014; 2017; 2021]%Z [22; 35; 46]
              eq_refl ltac:(cbn; lia) eq_refl) as (rows & Hrun & Hrows & _).
  exists rows. split; [exact Hrun|exact Hrows].
Defined.

(** C9, as the code has it.  With fewer than 2 years the loop body never
    runs: the analyzer signals no error and returns the empty table. *)
Theorem calculate_growth_rates_too_short (years : list Z) (values : list R) :
  (length years < 2)%nat -> calculate_growth_rates years values = Ok [].
Proof. destruct years as [|y [|z rest]]; cbn; [done|done|lia]. Qed.

Lemma calculate_growth_rates_too_short_witness :
  calculate_growth_rates [2021]%Z [46] = Ok [].
Proof. apply calculate_growth_rates_too_short. cbn. lia. Defined.

(** C9 as stated fails: one pair, or none, gives the empty table. *)
Lemma calculate_growth_rates_no_error :
  calculate_growth_rates [2021]%Z [46] = Ok []
  /\ calculate_growth_rates [] [] = Ok []
  /\ ~ raises (calculate_growth_rates [2021]%Z [46]).
Proof.
  split; [reflexivity|]. split; [reflexivity|]. intros [e He]. discriminate.
Qed.

(** ** Indicator forecast aggregator *)

(** [polyfit] returns whenever the abscissae are not all zero. *)
Lemma polyfit1_returns (x y : list R) :
  x <> [] -> length x = length y -> sum ((fun r => r * r) <$> x) <> 0 ->
  returns (polyfit1 x y).
Proof.
  intros Hne Hlen Hsq. unfold polyfit1. destruct x as [|c rest] eqn:Ex; [done|].
  rewrite Hlen, Nat.eqb_refl. cbn [negb].
  destruct (Req_dec_T _ 0) as [?|_]; [contradiction|].
  destruct (Req_dec_T _ 0); by eexists.
Qed.

Lemma linear_trend_forecast_returns (years : list Z) (values : list R)
    (forecast_years : list Z) (y : Z) :
  y ∈ years -> y <> 0%Z -> length years = length values ->
  returns (linear_trend_forecast years values forecast_years).
Proof.
  intros Hin Hy Hlen.
  destruct (polyfit1_returns (IZR <$> years) values) as [[slope intercept] Hfit].
  - intros Hnil. apply fmap_nil_inv in Hnil. subst. by apply elem_of_nil in Hin.
  - by rewrite length_fmap.
  - apply (sum_squares_ne_0 _ (IZR y)); [by apply list_elem_of_fmap_2|].
    intros Hz. by apply (eq_IZR y 0) in Hz.
  - unfold linear_trend_forecast. rewrite Hfit. cbn [mbind result_bind]. by eexists.
Qed.

Lemma log_trend_forecast_returns (years : list Z) (values : list R)
    (forecast_years : list Z) :
  years <> [] -> length years = length values ->
  returns (log_trend_forecast years values forecast_years).
Proof.
  intros Hne Hlen.
  destruct (np_min_nonempty years Hne) as [base Hmin].
  destruct (np_min_spec years base Hmin) as [Hin Hle].
  destruct (polyfit1_returns (log_year base <$> years) values) as [[slope intercept] Hfit].
  - intros Hnil. by apply fmap_nil_inv in Hnil.
  - by rewrite length_fmap.
  - apply (sum_squares_ne_0 _ (log_year base base)); [by apply list_elem_of_fmap_2|].
    pose proof (log_year_pos base base ltac:(lia)). lra.
  - unfold log_trend_forecast. rewrite Hmin. cbn [mbind result_bind].
    rewrite Hfit. cbn [mbind result_bind]. by eexists.
Qed.

Lemma last_item_returns {A} (l : list A) : l <> [] -> returns (last_item l).
Proof.
  intros Hne. unfold last_item. apply last_is_Some in Hne as [a ->]. by eexists.
Qed.

Lemma indicator_rows_elem (key : string) (observations : list observation_row) r :
  r ∈ indicator_rows key observations <-> indicator_code r = key /\ r ∈ observations.
Proof.
  unfold indicator_rows, sort_by_date, rows_where.
  rewrite merge_sort_Permutation, list_elem_of_filter. done.
Qed.

Lemma indicator_rows_length (key : string) (observations : list observation_row) :
  length (indicator_rows key observations)
  = length (rows_where indicator_code key observations).
Proof.
  unfold indicator_rows, sort_by_date. apply Permutation_length, merge_sort_Permutation.
Qed.

(** The entry of one indicator is built whenever its series is not empty
    and holds a year other than 0; it carries the two fits of that series. *)
Lemma indicator_entry_returns (name key : string) (goal : R)
    (years : list Z) (values : list R) (forecasts : list Z) (y : Z) :
  y ∈ years -> y <> 0%Z -> length years = length values ->
  exists entry,
    indicator_entry name key goal years values forecasts = Ok entry
    /\ code entry = key
    /\ historical_years entry = years
    /\ historical_values entry = values
    /\ forecast_years entry = forecasts
    /\ linear_trend_forecast years values forecasts
       = Ok (linear_forecast entry, linear_lower entry, linear_upper entry)
    /\ log_trend_forecast years values forecasts
       = Ok (log_forecast entry, log_lower entry, log_upper entry).
Proof.
  intros Hin Hy Hlen.
  assert (Hne : years <> []) by (intros ->; by apply elem_of_nil in Hin).
  assert (Hne' : values <> []) by (destruct values; [by destruct years|done]).
  destruct (linear_trend_forecast_returns years values forecasts y Hin Hy Hlen)
    as [[[lin lo] up] Hlin].
  destruct (log_trend_forecast_returns years values forecasts Hne Hlen)
    as [[[lg llo] lup] Hlog].
  destruct (last_item_returns values Hne') as [v Hv].
  destruct (last_item_returns years Hne) as [cy Hcy].
  unfold indicator_entry. rewrite Hlin, Hlog. cbn [mbind result_bind].
  rewrite Hv, Hcy. cbn [mbind result_bind].
  eexists. split; [reflexivity|]. cbn. by repeat split.
Qed.

(** C8, as the code has it.  When the dataset holds fewer than 2
    observation rows of USG_DIGITAL_PAYMENT and at least one observation row
    of ACC_OWNERSHIP (dated in a year other than 0), the aggregator signals
    no error and returns a mapping whose only key is ['access'], holding the
    linear and logarithmic forecasts of the ownership series. *)
Theorem forecast_access_usage_partial
    (df : list observation_row) (forecasts : list Z) (row : observation_row) :
  let observations := rows_where record_type "observation" df in
  (length (rows_where indicator_code "USG_DIGITAL_PAYMENT" observations) < 2)%nat ->
  row ∈ df ->
  record_type row = "observation"%string ->
  indicator_code row = "ACC_OWNERSHIP"%string ->
  ts_year (observation_date row) <> 0%Z ->
  exists access,
    forecast_access_usage df forecasts = Ok {[ "access"%string := access ]}
    /\ dom ({[ "access"%string := access ]} : gmap string indicator_forecast)
       = {[ "access"%string ]}
    /\ code access = "ACC_OWNERSHIP"%string
    /\ forecast_years access = forecasts
    /\ linear_trend_forecast (historical_years access) (historical_values access) forecasts
       = Ok (linear_forecast access, linear_lower access, linear_upper access)
    /\ log_trend_forecast (historical_years access) (historical_values access) forecasts
       = Ok (log_forecast access, log_lower access, log_upper access).
Proof.
  intros observations Husg Hrow Htype Hcode Hyear.
  set (acc_data := indicator_rows "ACC_OWNERSHIP" observations).
  assert (Hacc : row ∈ acc_data).
  { apply indicator_rows_elem. split; [done|].
    unfold observations, rows_where. by apply list_elem_of_filter. }
  destruct (indicator_entry_returns "Account Ownership Rate" "ACC_OWNERSHIP" 60
              (row_years acc_data) (row_values acc_data) forecasts
              (ts_year (observation_date row)))
    as (access & Hentry & Hc & Hhy & Hhv & Hfy & Hlin & Hlog).
  { unfold row_years.
    by apply (list_elem_of_fmap_2 (fun r => ts_year (observation_date r))). }
  { done. }
  { unfold row_years, row_values. by rewrite !length_fmap. }
  exists access. split; [|split; [apply dom_singleton_L|]].
  - unfold forecast_access_usage. fold observations. fold acc_data.
    rewrite Hentry. cbn [mbind result_bind].
    destruct (decide (2 <= length (indicator_rows "USG_DIGITAL_PAYMENT" observations))%nat)
      as [Hge|_].
    { rewrite indicator_rows_length in Hge. lia. }
    unfold mret, result_ret. by rewrite insert_empty.
  - rewrite Hhy, Hhv. done.
Qed.

Lemma forecast_access_usage_partial_witness :
  returns (forecast_access_usage
             [ {| record_type := "observation"; indicator_code := "ACC_OWNERSHIP";
                  observation_date := {| ts_year := 2021; ts_month := 12; ts_day := 31 |};
                  value_numeric := 46 |} ]
             default_forecast_years).
Proof.
  destruct (forecast_access_usage_partial
              [ {| record_type := "observation"; indicator_code := "ACC_OWNERSHIP";
                   observation_date := {| ts_year := 2021; ts_month := 12; ts_day := 31 |};
                   value_numeric := 46 |} ]
              default_forecast_years
              {| record_type := "observation"; indicator_code := "ACC_OWNERSHIP";
                 observation_date := {| ts_year := 2021; ts_month := 12; ts_day := 31 |};
                 value_numeric := 46 |}
              ltac:(vm_compute; lia) ltac:(left) eq_refl eq_refl ltac:(discriminate))
    as (access & Hres & _).
  eexists. exact Hres.
Defined.

(** C8 as stated fails: a dataset without any ACC_OWNERSHIP observation has
    fewer than 2 USG_DIGITAL_PAYMENT observations, and the aggregator raises
    the TypeError of [polyfit] on the empty ownership series. *)
Lemma forecast_access_usage_raises :
  (length (rows_where indicator_code "USG_DIGITAL_PAYMENT"
             (rows_where record_type "observation" [])) < 2)%nat
  /\ forecast_access_usage [] default_forecast_years = Raise TypeError.
Proof. split; [cbn; lia|reflexivity]. Qed.

(** * Further properties of the forecasting module *)

(** ** Scenario forecaster: ceiling, closed forms, ordering *)

Lemma yearly_values_capped value g years :
  Forall (fun v => v <= 100) (yearly_values value g years).
Proof.
  revert value. induction years as [|y rest IH]; intros value; cbn; constructor.
  - apply Rmin_r.
  - apply IH.
Qed.

(** Every entry written by the scenario loop is the value sequence of one of
    the scenarios. *)
Lemma scenario_loop_entries current_value (years : list Z)
    (scenarios : list (string * R)) (results : gmap string pylist) name entry :
  foldl (scenario_step current_value years) results scenarios !! name = Some entry ->
  results !! name = Some entry
  \/ exists g, (name, g) ∈ scenarios
               /\ entry = FloatList (yearly_values current_value g years).
Proof.
  revert results. induction scenarios as [|[n g] rest IH]; intros results Hlook.
  - by left.
  - cbn [foldl scenario_step] in Hlook. apply IH in Hlook as [Hlook|(g' & Hin & ->)].
    + destruct (decide (n = name)) as [->|Hne].
      * rewrite lookup_insert_eq in Hlook. injection Hlook as <-.
        right. exists g. split; [left|done].
      * rewrite lookup_insert_ne in Hlook by done. by left.
    + right. exists g'. split; [by right|done].
Qed.

Lemma scenario_forecast_lookup
    (current_value target_value : R) (target_year current_year : Z)
    (scenarios : list (string * R)) name g :
  dict_items scenarios -> (name, g) ∈ scenarios ->
  scenario_forecast current_value target_value target_year current_year (Some scenarios)
    !! name
  = Some (FloatList (yearly_values current_value g
                       (py_range (current_year + 1) (target_year + 1)))).
Proof. intros Hdict Hin. by apply scenario_loop_item. Qed.

(** X1. No value of any scenario sequence exceeds 100, whatever the current
    value, the growth rates and the horizon, for custom and for default
    scenarios. *)
Theorem scenario_forecast_ceiling
    (current_value target_value : R) (target_year current_year : Z)
    (scenarios : option (list (string * R))) name values :
  scenario_forecast current_value target_value target_year current_year scenarios !! name
  = Some (FloatList values) ->
  Forall (fun v => v <= 100) values.
Proof.
  unfold scenario_forecast. intros Hlook.
  apply scenario_loop_entries in Hlook as [Hlook|(g & _ & Heq)].
  - destruct (decide (name = "years"%string)) as [->|Hne].
    + by rewrite lookup_singleton_eq in Hlook.
    + by rewrite lookup_singleton_ne in Hlook.
  - injection Heq as ->. apply yearly_values_capped.
Qed.

Lemma scenario_forecast_ceiling_witness :
  Forall (fun v => v <= 100) [100; 100].
Proof.
  apply (scenario_forecast_ceiling 98 60 2026 2024
           (Some [("optimistic"%string, 4)]) "optimistic"%string).
  unfold scenario_forecast, default, from_option, Datatypes.id. cbn [foldl scenario_step].
  rewrite lookup_insert_eq. do 2 f_equal.
  change (py_range (2024 + 1) (2026 + 1)) with [2025; 2026]%Z.
  cbn. repeat f_equal; eval_Rmin.
Defined.

Lemma yearly_values_growing value g years (i : nat) v :
  0 <= g ->
  yearly_values value g years !! i = Some v ->
  v = Rmin (value + INR (S i) * g) 100.
Proof.
  intros Hg. revert value i v.
  induction years as [|y rest IH]; intros value i v; [done|].
  destruct i as [|i]; cbn [yearly_values lookup list_lookup].
  - intros [= <-]. f_equal. cbn. lra.
  - intros Hlook. rewrite (IH _ _ _ Hlook).
    pose proof (pos_INR (S i)) as Hi. rewrite (S_INR (S i)).
    assert (0 <= INR (S i) * g) by (by apply Rmult_le_pos).
    unfold Rmin. repeat (destruct (Rle_dec _ _)); lra.
Qed.

Lemma yearly_values_declining value g years (i : nat) v :
  g <= 0 -> value <= 100 ->
  yearly_values value g years !! i = Some v ->
  v = value + INR (S i) * g.
Proof.
  intros Hg. revert value i v.
  induction years as [|y rest IH]; intros value i v Hv; [done|].
  assert (Hstep : Rmin (value + g) 100 = value + g) by (apply Rmin_left; lra).
  destruct i as [|i]; cbn [yearly_values lookup list_lookup].
  - intros [= <-]. rewrite Hstep. cbn. lra.
  - intros Hlook. apply IH in Hlook; [|rewrite Hstep; lra].
    rewrite Hlook, Hstep, (S_INR (S i)). lra.
Qed.

(** X2. In exact arithmetic, with a growth rate that is not negative, the
    value of a scenario for the [i]-th forecast year (counting from 0) is
    [min(current_value + (i + 1) * growth, 100)]: the running clamp is the
    clamp of the unclamped sum.  The numbers of this development are exact
    reals; the repeated binary64 addition of the code can differ from the
    product in the last digits. *)
Theorem scenario_forecast_growth_closed_form
    (current_value target_value : R) (target_year current_year : Z)
    (scenarios : list (string * R)) name g :
  dict_items scenarios -> (name, g) ∈ scenarios -> 0 <= g ->
  exists values,
    scenario_forecast current_value target_value target_year current_year (Some scenarios)
      !! name = Some (FloatList values)
    /\ length values = Z.to_nat (target_year - current_year)
    /\ forall (i : nat) v, values !! i = Some v ->
         v = Rmin (current_value + INR (S i) * g) 100.
Proof.
  intros Hdict Hin Hg. eexists. split; [by apply scenario_forecast_lookup|]. split.
  - rewrite yearly_values_length, py_range_length. f_equal. lia.
  - intros i v. by apply yearly_values_growing.
Qed.

Lemma scenario_forecast_growth_closed_form_witness :
  exists values,
    scenario_forecast 49 60 2027 2024 (Some [("base"%string, 2.5)]) !! "base"%string
    = Some (FloatList values)
    /\ length values = 3%nat.
Proof.
  assert (Hdict : dict_items [("base"%string, 2.5)]).
  { unfold dict_items. cbn. apply NoDup_singleton. }
  destruct (scenario_forecast_growth_closed_form 49 60 2027 2024
              [("base"%string, 2.5)] "base"%string 2.5 Hdict ltac:(left) ltac:(lra))
    as (values & Hres & Hlen & _).
  exists values. split; [exact Hres|exact Hlen].
Defined.

Lemma yearly_values_unclamped value g years (i : nat) previous v :
  g <= 0 -> value <= 100 ->
  (value :: yearly_values value g years) !! i = Some previous ->
  yearly_values value g years !! i = Some v ->
  v = previous + g.
Proof.
  intros Hg. revert value i.
  induction years as [|y rest IH]; intros value i Hv; [done|].
  assert (Hstep : Rmin (value + g) 100 = value + g) by (apply Rmin_left; lra).
  cbn [yearly_values]. destruct i as [|i]; cbn [lookup list_lookup].
  - intros [= <-] [= <-]. exact Hstep.
  - apply IH. rewrite Hstep. lra.
Qed.

(** X3. There is no floor: with a growth rate that is not positive and a
    current value of at most 100 nothing is clamped, every value is the one
    before it (the current value in the first year) plus the growth rate.
    In exact arithmetic the [i]-th value is therefore
    [current_value + (i + 1) * growth], and it falls below 0 as soon as that
    sum does; the repeated binary64 addition of the code can differ from the
    product in the last digits. *)
Theorem scenario_forecast_decline_unclamped
    (current_value target_value : R) (target_year current_year : Z)
    (scenarios : list (string * R)) name g :
  dict_items scenarios -> (name, g) ∈ scenarios -> g <= 0 -> current_value <= 100 ->
  exists values,
    scenario_forecast current_value target_value target_year current_year (Some scenarios)
      !! name = Some (FloatList values)
    /\ (forall (i : nat) previous v,
          (current_value :: values) !! i = Some previous -> values !! i = Some v ->
          v = previous + g)
    /\ forall (i : nat) v, values !! i = Some v ->
         v = current_value + INR (S i) * g
         /\ (current_value + INR (S i) * g < 0 -> v < 0).
Proof.
  intros Hdict Hin Hg Hv. eexists. split; [by apply scenario_forecast_lookup|]. split.
  - intros i previous v. by apply yearly_values_unclamped.
  - intros i v Hlook. apply yearly_values_declining in Hlook; [|done|done]. split; lra.
Qed.

Lemma scenario_forecast_decline_unclamped_witness :
  exists values,
    scenario_forecast 1 60 2026 2024 (Some [("crash"%string, -2)]) !! "crash"%string
    = Some (FloatList values)
    /\ forall v, values !! 1%nat = Some v -> v < 0.
Proof.
  assert (Hdict : dict_items [("crash"%string, -2)]).
  { unfold dict_items. cbn. apply NoDup_singleton. }
  destruct (scenario_forecast_decline_unclamped 1 60 2026 2024
              [("crash"%string, -2)] "crash"%string (-2) Hdict ltac:(left)
              ltac:(lra) ltac:(lra))
    as (values & Hres & _ & Hval).
  exists values. split; [exact Hres|].
  intros v Hv. destruct (Hval 1%nat v Hv) as [_ Hneg]. apply Hneg. cbn. lra.
Defined.

Lemma yearly_values_mono value1 value2 g1 g2 years (i : nat) a b :
  value1 <= value2 -> g1 <= g2 ->
  yearly_values value1 g1 years !! i = Some a ->
  yearly_values value2 g2 years !! i = Some b ->
  a <= b.
Proof.
  intros Hv Hg. revert value1 value2 Hv i a b.
  induction years as [|y rest IH]; intros value1 value2 Hv i a b; [done|].
  assert (Hstep : Rmin (value1 + g1) 100 <= Rmin (value2 + g2) 100).
  { unfold Rmin. repeat (destruct (Rle_dec _ _)); lra. }
  destruct i as [|i]; cbn [yearly_values lookup list_lookup].
  - by intros [= <-] [= <-].
  - by apply IH.
Qed.

(** X4. Scenarios are ordered by their growth rates: of two scenarios of the
    same call, the one with the larger annual growth has the larger (or
    equal) value in every forecast year. *)
Theorem scenario_forecast_monotone_in_growth
    (current_value target_value : R) (target_year current_year : Z)
    (scenarios : list (string * R)) name1 g1 name2 g2 :
  dict_items scenarios ->
  (name1, g1) ∈ scenarios -> (name2, g2) ∈ scenarios -> g1 <= g2 ->
  let results :=
    scenario_forecast current_value target_value target_year current_year (Some scenarios) in
  exists values1 values2,
    results !! name1 = Some (FloatList values1)
    /\ results !! name2 = Some (FloatList values2)
    /\ length values1 = length values2
    /\ forall (i : nat) a b, values1 !! i = Some a -> values2 !! i = Some b -> a <= b.
Proof.
  intros Hdict H1 H2 Hg results. do 2 eexists.
  split; [by apply scenario_forecast_lookup|].
  split; [by apply scenario_forecast_lookup|]. split.
  - by rewrite !yearly_values_length.
  - intros i a b. by apply yearly_values_mono.
Qed.

Lemma scenario_forecast_monotone_in_growth_witness :
  exists values1 values2,
    scenario_forecast 49 60 2027 2024
      (Some [("slow"%string, 1); ("fast"%string, 4)]) !! "slow"%string
    = Some (FloatList values1)
    /\ scenario_forecast 49 60 2027 2024
         (Some [("slow"%string, 1); ("fast"%string, 4)]) !! "fast"%string
       = Some (FloatList values2)
    /\ forall (i : nat) a b, values1 !! i = Some a -> values2 !! i = Some b -> a <= b.
Proof.
  assert (Hdict : dict_items [("slow"%string, 1); ("fast"%string, 4)]).
  { unfold dict_items. cbn. apply NoDup_cons. split; [|apply NoDup_singleton].
    intros Hin. apply list_elem_of_singleton in Hin. discriminate. }
  destruct (scenario_forecast_monotone_in_growth 49 60 2027 2024
              [("slow"%string, 1); ("fast"%string, 4)]
              "slow"%string 1 "fast"%string 4 Hdict
              ltac:(left) ltac:(right; left) ltac:(lra))
    as (values1 & values2 & H1 & H2 & _ & Hle).
  exists values1, values2. split; [exact H1|]. split; [exact H2|exact Hle].
Defined.

Lemma scenario_loop_dom current_value (years : list Z)
    (scenarios : list (string * R)) (results : gmap string pylist) :
  dom (foldl (scenario_step current_value years) results scenarios)
  = dom results ∪ list_to_set (scenarios.*1).
Proof.
  revert results. induction scenarios as [|[n g] rest IH]; intros results.
  - cbn. set_solver.
  - cbn [foldl scenario_step]. rewrite IH, dom_insert_L. cbn. set_solver.
Qed.

Lemma default_scenarios_dict : dict_items default_scenarios.
Proof.
  unfold dict_items, default_scenarios. cbn.
  repeat (apply NoDup_cons; split); [| | |apply NoDup_nil_2].
  all: intros Hin; repeat (apply elem_of_cons in Hin as [Hin|Hin]; [discriminate|]);
    by apply elem_of_nil in Hin.
Qed.

(** X5. Called without custom scenarios, the forecaster returns exactly the
    keys ['years'], ['optimistic'], ['base'] and ['pessimistic'], the years
    entry is the list of forecast years, and in every forecast year
    pessimistic <= base <= optimistic. *)
Theorem scenario_forecast_defaults
    (current_value target_value : R) (target_year current_year : Z) :
  let results :=
    scenario_forecast current_value target_value target_year current_year None in
  dom results = {[ "years"; "optimistic"; "base"; "pessimistic" ]}%string
  /\ results !! "years"%string
     = Some (IntList (py_range (current_year + 1) (target_year + 1)))
  /\ exists optimistic base pessimistic,
       results !! "optimistic"%string = Some (FloatList optimistic)
       /\ results !! "base"%string = Some (FloatList base)
       /\ results !! "pessimistic"%string = Some (FloatList pessimistic)
       /\ forall (i : nat) o b p,
            optimistic !! i = Some o -> base !! i = Some b -> pessimistic !! i = Some p ->
            p <= b <= o.
Proof.
  intros results. split; [|split].
  - unfold results, scenario_forecast. rewrite scenario_loop_dom, dom_singleton_L.
    cbn. set_solver.
  - unfold results, scenario_forecast. rewrite scenario_loop_other.
    + apply lookup_singleton_eq.
    + cbn. intros Hin.
      repeat (apply elem_of_cons in Hin as [Hin|Hin]; [discriminate|]).
      by apply elem_of_nil in Hin.
  - pose proof default_scenarios_dict as Hdict.
    exists (yearly_values current_value 4 (py_range (current_year + 1) (target_year + 1))),
      (yearly_values current_value 2.5 (py_range (current_year + 1) (target_year + 1))),
      (yearly_values current_value 1 (py_range (current_year + 1) (target_year + 1))).
    split; [|split; [|split]].
    + apply scenario_loop_item; [done|]. left.
    + apply scenario_loop_item; [done|]. right. left.
    + apply scenario_loop_item; [done|]. right. right. left.
    + intros i o b p Ho Hb Hp. split.
      * eapply (yearly_values_mono current_value current_value 1 2.5);
          [lra|lra|exact Hp|exact Hb].
      * eapply (yearly_values_mono current_value current_value 2.5 4);
          [lra|lra|exact Hb|exact Ho].
Qed.

(** ** Trend forecasters: shape of the result and failures *)

Lemma polyfit1_type_error (x y : list R) :
  polyfit1 x y = Raise TypeError <-> x = [] \/ length x <> length y.
Proof.
  unfold polyfit1. destruct x as [|c rest]; [by split; [left|]|].
  destruct (Nat.eqb_spec (length (c :: rest)) (length y)) as [Heq|Hne]; cbn [negb].
  - split; [|by intros [?|?]].
    destruct (Req_dec_T _ 0); [done|]. by destruct (Req_dec_T _ 0).
  - split; [by right|done].
Qed.

(** X6. Whenever a trend forecaster returns, its three outputs have one entry
    per forecast year: an empty list of forecast years gives three empty
    outputs. *)
Theorem trend_forecast_output_lengths
    (years : list Z) (values : list R) (forecast_years : list Z)
    (forecast lower upper : list xreal) :
  linear_trend_forecast years values forecast_years = Ok (forecast, lower, upper)
  \/ log_trend_forecast years values forecast_years = Ok (forecast, lower, upper) ->
  length forecast = length forecast_years
  /\ length lower = length forecast_years
  /\ length upper = length forecast_years.
Proof.
  intros [Hres|Hres].
  - unfold linear_trend_forecast in Hres.
    destruct (polyfit1 _ values) as [[slope intercept]|e]; [|done].
    cbn [mbind result_bind] in Hres. injection Hres as <- <- <-.
    rewrite !length_zip_with, !length_fmap. lia.
  - unfold log_trend_forecast in Hres.
    destruct (Np.min years) as [base|e]; [|done]. cbn [mbind result_bind] in Hres.
    destruct (polyfit1 _ values) as [[slope intercept]|e]; [|done].
    cbn [mbind result_bind] in Hres. injection Hres as <- <- <-.
    by rewrite !length_fmap.
Qed.

Lemma trend_forecast_output_lengths_witness :
  linear_trend_forecast [2020]%Z [10] [2021]%Z
  = Ok ([Fin (10 / (2 * 2020) * 2021 + 10 / 2)], [NaN], [NaN])
  /\ length [NaN] = 1%nat.
Proof.
  assert (Hres : linear_trend_forecast [2020]%Z [10] [2021]%Z
                 = Ok ([Fin (10 / (2 * 2020) * 2021 + 10 / 2)], [NaN], [NaN])).
  { unfold linear_trend_forecast. cbn [fmap list_fmap].
    rewrite (polyfit1_rank1 2020); [|done|by repeat constructor|lra|done].
    cbn [mbind result_bind zip_with fmap list_fmap length].
    rewrite std_singleton, sum_sq_dev_singleton, !mean_singleton.
    unfold xdiv. destruct (Req_dec_T 0 0) as [_|?]; [|done].
    unfold sign_inf. destruct (Rlt_dec 0 ((2021 - 2020) ^ 2)) as [_|Hn].
    2:{ exfalso. apply Hn. nra. }
    cbn [xadd xsqrt xmul]. unfold sign_inf.
    destruct (Rlt_dec 0 (1.96 * 0)) as [?|_]; [lra|].
    destruct (Rlt_dec (1.96 * 0) 0) as [?|_]; [lra|].
    reflexivity. }
  split; [exact Hres|].
  destruct (trend_forecast_output_lengths _ _ _ _ _ _ (or_introl Hres)) as (_ & Hlen & _).
  exact Hlen.
Defined.

(** X7. The failures of the trend forecasters.  The linear forecaster raises
    TypeError exactly when there is no historical year or the numbers of
    years and values differ.  The logarithmic forecaster raises ValueError
    exactly on an empty list of years, TypeError exactly on a non-empty one
    with a different number of values, and returns in all other cases. *)
Theorem trend_forecast_failures
    (years : list Z) (values : list R) (forecast_years : list Z) :
  (linear_trend_forecast years values forecast_years = Raise TypeError
   <-> years = [] \/ length years <> length values)
  /\ (log_trend_forecast years values forecast_years = Raise ValueError <-> years = [])
  /\ (log_trend_forecast years values forecast_years = Raise TypeError
      <-> years <> [] /\ length years <> length values)
  /\ (returns (log_trend_forecast years values forecast_years)
      <-> years <> [] /\ length years = length values).
Proof.
  assert (Hlin : forall e, linear_trend_forecast years values forecast_years = Raise e
                           <-> polyfit1 (IZR <$> years) values = Raise e).
  { intros e. unfold linear_trend_forecast.
    destruct (polyfit1 _ values) as [[slope intercept]|e']; cbn [mbind result_bind];
      [|split; intros [= ->]; reflexivity].
    unfold mret, result_ret. split; intros H; discriminate H. }
  split.
  { rewrite Hlin, polyfit1_type_error, length_fmap. split.
    - intros [Hnil|Hne]; [left; by apply fmap_nil_inv in Hnil|by right].
    - intros [->|Hne]; [by left|by right]. }
  destruct years as [|y0 rest] eqn:Ey.
  { cbn. split; [done|]. split.
    - split; [discriminate|]. by intros [Hne _].
    - split; [intros [r Hr]; discriminate|]. by intros [Hne _]. }
  rewrite <- Ey.
  assert (Hne : years <> []) by (by rewrite Ey).
  destruct (np_min_nonempty years Hne) as [base Hmin].
  destruct (Nat.eq_dec (length years) (length values)) as [Hlen|Hlen].
  - destruct (log_trend_forecast_returns years values forecast_years Hne Hlen) as [r Hr].
    rewrite Hr. split; [|split].
    + split; [discriminate|]. intros Hnil. by rewrite Hnil in Hne.
    + split; [discriminate|]. by intros [_ Hdiff].
    + split; [done|]. intros _. by eexists.
  - assert (Hfit : polyfit1 (log_year base <$> years) values = Raise TypeError).
    { apply polyfit1_type_error. right. by rewrite length_fmap. }
    assert (Hr : log_trend_forecast years values forecast_years = Raise TypeError).
    { unfold log_trend_forecast. rewrite Hmin. cbn [mbind result_bind]. by rewrite Hfit. }
    rewrite Hr. split; [|split].
    + split; [discriminate|]. intros Hnil. by rewrite Hnil in Hne.
    + done.
    + split; [intros [r' ?]; discriminate|]. by intros [_ Heq].
Qed.

(** ** Linear trend forecaster: exact fits, residual error, widening margin *)















Lemma prediction_margin_widens (std_error : R) (yrs : list R) (y1 y2 : R) :
  0 <= std_error -> 0 < sum_sq_dev yrs ->
  Rabs (y1 - mean yrs) <= Rabs (y2 - mean yrs) ->
  prediction_margin std_error yrs y1 <= prediction_margin std_error yrs y2.
Proof.
  intros Hs Hpos Habs. unfold prediction_margin.
  apply Rmult_le_compat_l; [lra|]. apply sqrt_le_1_alt.
  apply Rplus_le_compat_l. apply Rmult_le_compat_r.
  - left. apply Rinv_0_lt_compat. exact Hpos.
  - rewrite <- !Rsqr_pow2. by apply Rsqr_le_abs_1.
Qed.

(** X11. The interval of the linear forecaster is symmetric around the
    forecast and widens with the distance of the forecast year from the mean
    historical year.  With [std_error] the population standard deviation of
    the residuals of the least-squares line, no margin is below
    [1.96 * std_error * sqrt(1 + 1/n)], the margin of a year at the mean is
    that value, and a year at least as far from the mean gets a margin at
    least as large. *)
Theorem linear_trend_forecast_margin_widens
    (years : list Z) (values : list R) (forecast_years : list Z) :
  length years = length values ->
  two_distinct years = true ->
  let yrs := IZR <$> years in
  exists slope intercept,
    (forall a b, sse yrs values slope intercept <= sse yrs values a b)
    /\ (forall a b, sse yrs values a b = sse yrs values slope intercept ->
          a = slope /\ b = intercept)
    /\ let point := fun y => slope * IZR y + intercept in
       let residuals := zip_with Rminus values (point <$> years) in
       let std_error := population_std residuals in
       let margin := fun y => prediction_margin std_error yrs (IZR y) in
       linear_trend_forecast years values forecast_years
       = Ok ((fun y => Fin (point y)) <$> forecast_years,
             (fun y => Fin (point y - margin y)) <$> forecast_years,
             (fun y => Fin (point y + margin y)) <$> forecast_years)
       /\ (forall y, 1.96 * std_error * sqrt (1 + 1 / INR (length years)) <= margin y)
       /\ (forall y, IZR y = mean yrs ->
              margin y = 1.96 * std_error * sqrt (1 + 1 / INR (length years)))
       /\ (forall y1 y2,
              Rabs (IZR y1 - mean yrs) <= Rabs (IZR y2 - mean yrs) ->
              margin y1 <= margin y2).
Proof.
  intros Hlen Hd yrs.
  pose proof (two_distinct_spread years Hd) as Hpos. fold yrs in Hpos.
  assert (Hlen' : length yrs = length values) by (unfold yrs; by rewrite length_fmap).
  assert (Hn : length yrs = length years) by (unfold yrs; apply length_fmap).
  exists (lstsq_slope yrs values), (lstsq_intercept yrs values).
  split; [intros a b; apply lstsq_minimal; [done|lra]|].
  split.
  { intros a b. destruct (two_distinct_spec years Hd) as (p & q & Hp & Hq & Hpq).
    apply (lstsq_unique yrs values (IZR p) (IZR q)); [done| | |].
    - by apply list_elem_of_fmap_2.
    - by apply list_elem_of_fmap_2.
    - intros Heq. by apply eq_IZR in Heq. }
  cbv zeta.
  set (std_error :=
         population_std
           (zip_with Rminus values
              ((fun y => lstsq_slope yrs values * IZR y + lstsq_intercept yrs values)
                 <$> years))).
  assert (Hstd : 0 <= std_error) by apply sqrt_pos.
  split; [|split; [|split]].
  - unfold std_error. rewrite <- std_population.
    rewrite (linear_trend_forecast_valid years values forecast_years Hlen Hd).
    fold yrs.
    assert (Hfit : (fun y => lstsq_slope yrs values * y + lstsq_intercept yrs values) <$> yrs
                   = (fun y => lstsq_slope yrs values * IZR y + lstsq_intercept yrs values)
                       <$> years)
      by (unfold yrs at 3; by rewrite <- list_fmap_compose).
    rewrite Hfit. reflexivity.
  - intros y. unfold prediction_margin. apply Rmult_le_compat_l; [lra|].
    apply sqrt_le_1_alt. rewrite Hn.
    assert (0 <= (IZR y - mean yrs) ^ 2 / sum_sq_dev yrs).
    { apply Rmult_le_pos; [apply pow2_ge_0|]. left. by apply Rinv_0_lt_compat. }
    unfold sum_sq_dev in H. lra.
  - intros y Hy. unfold prediction_margin. rewrite Hn, Hy, Rminus_diag.
    do 2 f_equal. unfold Rdiv. rewrite pow_i by lia. lra.
  - intros y1 y2. by apply prediction_margin_widens.
Qed.

Lemma linear_trend_forecast_margin_widens_witness :
  returns (linear_trend_forecast [2011; 2014; 2017; 2021]%Z [14; 22; 35; 46]
             [2025; 2026; 2027]%Z).
Proof.
  destruct (linear_trend_forecast_margin_widens
              [2011; 2014; 2017; 2021]%Z [14; 22; 35; 46] [2025; 2026; 2027]%Z
              eq_refl eq_refl)
    as (slope & intercept & _ & _ & Hres & _).
  eexists. exact Hres.
Defined.

(** ** Logarithmic trend forecaster: domain of the transform, relative years *)

Lemma log1p_nan (x : R) : x < -1 -> log1p x = NaN.
Proof.
  intros Hx. unfold log1p.
  destruct (Rlt_dec (-1) x); [lra|]. destruct (Req_dec_T x (-1)); [lra|done].
Qed.

(** X12. A forecast year three or more years before every historical year
    is outside the domain of the log transform: on an otherwise valid input
    the forecaster still returns, and the forecast and both bounds of that
    year are [nan]. *)
Theorem log_trend_forecast_nan_before_history
    (years : list Z) (values : list R) (forecast_years : list Z) (i : nat) (y : Z) :
  length years = length values ->
  two_distinct years = true ->
  forecast_years !! i = Some y ->
  (forall h, h ∈ years -> (y + 3 <= h)%Z) ->
  exists forecast lower upper,
    log_trend_forecast years values forecast_years = Ok (forecast, lower, upper)
    /\ forecast !! i = Some NaN /\ lower !! i = Some NaN /\ upper !! i = Some NaN.
Proof.
  intros Hlen Hd Hy Hfar.
  destruct (np_min_nonempty years) as [base Hmin].
  { intros ->. discriminate Hd. }
  destruct (np_min_spec years base Hmin) as [Hin _].
  specialize (Hfar base Hin).
  rewrite (log_trend_forecast_valid years values forecast_years base Hlen Hd Hmin).
  do 3 eexists. split; [reflexivity|].
  rewrite !list_lookup_fmap, Hy. cbn [fmap option_fmap option_map].
  rewrite log1p_nan; [done|].
  assert (IZR (y - base + 1) <= -2) by (apply IZR_le; lia). lra.
Qed.

Lemma log_trend_forecast_nan_before_history_witness :
  exists forecast lower upper,
    log_trend_forecast [2020; 2021]%Z [10; 12] [2017]%Z = Ok (forecast, lower, upper)
    /\ forecast !! 0%nat = Some NaN.
Proof.
  destruct (log_trend_forecast_nan_before_history
              [2020; 2021]%Z [10; 12] [2017]%Z 0%nat 2017%Z eq_refl eq_refl eq_refl)
    as (forecast & lower & upper & Hres & Hf & _).
  { intros h Hh. apply elem_of_cons in Hh as [->|Hh]; [lia|].
    apply list_elem_of_singleton in Hh as ->. lia. }
  exists forecast, lower, upper. split; [exact Hres|exact Hf].
Defined.

Lemma foldr_min_shift (k z : Z) (l : list Z) :
  foldr Z.min (z + k)%Z ((fun y => (y + k)%Z) <$> l) = (foldr Z.min z l + k)%Z.
Proof.
  induction l as [|a l IH]; [done|]. cbn [fmap list_fmap foldr]. rewrite IH. lia.
Qed.

Lemma log_year_shift (k base y : Z) :
  log_year (base + k) (y + k) = log_year base y.
Proof. unfold log_year. do 3 f_equal. lia. Qed.

(** X13. The logarithmic forecaster only sees years relative to the first
    historical year: moving all historical and forecast years by the same
    number of years changes nothing in the result, errors included. *)
Theorem log_trend_forecast_shift_invariant
    (k : Z) (years : list Z) (values : list R) (forecast_years : list Z) :
  log_trend_forecast ((fun y => (y + k)%Z) <$> years) values
    ((fun y => (y + k)%Z) <$> forecast_years)
  = log_trend_forecast years values forecast_years.
Proof.
  destruct years as [|z rest]; [reflexivity|].
  unfold log_trend_forecast. cbn [fmap list_fmap Np.min mbind result_bind].
  rewrite foldr_min_shift. set (base := foldr Z.min z rest).
  rewrite log_year_shift.
  assert (Hh : log_year (base + k) <$> ((fun y => (y + k)%Z) <$> rest)
               = log_year base <$> rest).
  { rewrite <- list_fmap_compose. apply list_fmap_ext. intros _ y _. cbn.
    apply log_year_shift. }
  assert (Hf : (fun y => log1p (IZR (y - (base + k) + 1)))
                 <$> ((fun y => (y + k)%Z) <$> forecast_years)
               = (fun y => log1p (IZR (y - base + 1))) <$> forecast_years).
  { rewrite <- list_fmap_compose. apply list_fmap_ext. intros _ y _. cbn.
    do 2 f_equal. lia. }
  change (list_fmap Z R (log_year (base + k))) with (fmap (M := list) (log_year (base + k))).
  change (list_fmap Z R (log_year base)) with (fmap (M := list) (log_year base)).
  rewrite Hh, Hf. reflexivity.
Qed.

(** ** Growth-rate analyzer: failures, telescoping, repeated years *)

Lemma item_missing {A} (l : list A) (i : nat) :
  (length l <= i)%nat -> item l i = Raise IndexError.
Proof. intros Hi. unfold item. by rewrite lookup_ge_None_2. Qed.

Lemma growth_pairs_cons (a b : Z) (years : list Z) (c d : R) (values : list R) :
  growth_pairs (a :: b :: years) (c :: d :: values)
  = make_growth_row a b c d :: growth_pairs (b :: years) (d :: values).
Proof. reflexivity. Qed.

Lemma growth_pairs_lookup (years : list Z) (values : list R) (j : nat) y0 y1 v0 v1 :
  years !! j = Some y0 -> years !! S j = Some y1 ->
  values !! j = Some v0 -> values !! S j = Some v1 ->
  growth_pairs years values !! j = Some (make_growth_row y0 y1 v0 v1).
Proof.
  revert values j. induction years as [|a years IH]; intros values j; [done|].
  destruct years as [|b years]; [by destruct j as [|[|j]]|].
  destruct values as [|c [|d values]]; [done|by destruct j as [|[|j]]|].
  destruct j as [|j].
  - cbn. by intros [= ->] [= ->] [= ->] [= ->].
  - rewrite growth_pairs_cons. intros H0 H1 H2 H3. by apply (IH (d :: values) j).
Qed.

Lemma growth_pairs_length (years : list Z) (values : list R) :
  (length years <= length values)%nat ->
  length (growth_pairs years values) = (length years - 1)%nat.
Proof.
  revert values. induction years as [|a years IH]; intros values Hlen; [done|].
  destruct years as [|b years]; [by destruct values|].
  destruct values as [|c [|d values]]; [cbn in Hlen; lia|cbn in Hlen; lia|].
  rewrite growth_pairs_cons. cbn [length]. rewrite (IH (d :: values)) by (cbn in *; lia).
  cbn. lia.
Qed.

Lemma growth_loop_pairs (years : list Z) (values : list R) (k a : nat)
    (data : list growth_row) :
  (1 <= a)%nat -> (a + k <= length years)%nat -> (a + k <= length values)%nat ->
  growth_loop years values (seq a k) data
  = Ok (data ++ take k (drop (a - 1) (growth_pairs years values))).
Proof.
  revert a data. induction k as [|k IH]; intros a data Ha Hy Hv.
  - cbn. by rewrite app_nil_r.
  - destruct (lookup_lt_is_Some_2 years (a - 1)) as [y0 Hy0]; [lia|].
    destruct (lookup_lt_is_Some_2 years a) as [y1 Hy1]; [lia|].
    destruct (lookup_lt_is_Some_2 values (a - 1)) as [v0 Hv0]; [lia|].
    destruct (lookup_lt_is_Some_2 values a) as [v1 Hv1]; [lia|].
    cbn [seq growth_loop]. unfold growth_row_at.
    rewrite (item_lookup _ _ _ Hy1), (item_lookup _ _ _ Hy0),
      (item_lookup _ _ _ Hv1), (item_lookup _ _ _ Hv0).
    cbn [mbind result_bind mret result_ret].
    rewrite IH by lia. f_equal. rewrite <- app_assoc. f_equal.
    replace a with (S (a - 1)) in Hy1, Hv1 by lia.
    pose proof (growth_pairs_lookup years values (a - 1) y0 y1 v0 v1 Hy0 Hy1 Hv0 Hv1)
      as Hrow.
    rewrite (drop_S _ _ _ Hrow). cbn [take app].
    replace (S a - 1)%nat with (S (a - 1)) by lia. reflexivity.
Qed.

(** The table of the analyzer, whenever there is a value for every year. *)
Lemma calculate_growth_rates_pairs (years : list Z) (values : list R) :
  (length years <= length values)%nat ->
  calculate_growth_rates years values = Ok (growth_pairs years values).
Proof.
  intros Hlen. unfold calculate_growth_rates.
  destruct years as [|y0 years]; [reflexivity|].
  rewrite growth_loop_pairs by (cbn [length] in *; lia).
  cbn [app Nat.sub]. rewrite drop_0, take_ge; [done|].
  rewrite growth_pairs_length by done. cbn [length]. lia.
Qed.

Lemma growth_loop_index_error (years : list Z) (values : list R) (k a : nat)
    (data : list growth_row) :
  (1 <= a)%nat -> (0 < k)%nat ->
  (a + k <= length years)%nat -> (length values < a + k)%nat ->
  growth_loop years values (seq a k) data = Raise IndexError.
Proof.
  revert a data. induction k as [|k IH]; intros a data Ha Hk Hy Hv; [lia|].
  destruct (lookup_lt_is_Some_2 years (a - 1)) as [y0 Hy0]; [lia|].
  destruct (lookup_lt_is_Some_2 years a) as [y1 Hy1]; [lia|].
  cbn [seq growth_loop]. unfold growth_row_at.
  rewrite (item_lookup _ _ _ Hy1), (item_lookup _ _ _ Hy0).
  cbn [mbind result_bind].
  destruct (decide (length values <= a)%nat) as [Hshort|Hlong].
  - rewrite (item_missing values a Hshort). reflexivity.
  - destruct (lookup_lt_is_Some_2 values (a - 1)) as [v0 Hv0]; [lia|].
    destruct (lookup_lt_is_Some_2 values a) as [v1 Hv1]; [lia|].
    rewrite (item_lookup _ _ _ Hv1), (item_lookup _ _ _ Hv0).
    cbn [mbind result_bind mret result_ret]. apply IH; lia.
Qed.

(** X14. The analyzer returns exactly when there are fewer than 2 years or
    at least as many values as years; with 2 or more years and fewer values
    it raises IndexError.  Values beyond the number of years are ignored. *)
Theorem calculate_growth_rates_failures (years : list Z) (values : list R) :
  (returns (calculate_growth_rates years values)
   <-> (length years < 2)%nat \/ (length years <= length values)%nat)
  /\ ((2 <= length years)%nat -> (length values < length years)%nat ->
      calculate_growth_rates years values = Raise IndexError)
  /\ ((length years <= length values)%nat ->
      calculate_growth_rates years values
      = calculate_growth_rates years (take (length years) values)).
Proof.
  assert (Hraise : (2 <= length years)%nat -> (length values < length years)%nat ->
                   calculate_growth_rates years values = Raise IndexError).
  { intros Hn Hv. unfold calculate_growth_rates. apply growth_loop_index_error; lia. }
  split; [|split; [exact Hraise|]].
  - split.
    + intros [rows Hrows].
      destruct (decide (length years < 2)%nat) as [?|Hn]; [by left|]. right.
      destruct (decide (length years <= length values)%nat) as [?|Hv]; [done|].
      rewrite Hraise in Hrows by lia. discriminate.
    + intros [Hshort|Hlen].
      * exists []. by destruct years as [|y [|z rest]]; [| |cbn in Hshort; lia].
      * eexists. by apply calculate_growth_rates_pairs.
  - intros Hlen. rewrite !calculate_growth_rates_pairs; [|by rewrite length_take; lia|done].
    f_equal. clear Hraise. revert values Hlen.
    induction years as [|a years IH]; intros values Hlen; [done|].
    destruct years as [|b years]; [by destruct values|].
    destruct values as [|c [|d values]]; [cbn in Hlen; lia|cbn in Hlen; lia|].
    cbn [length take]. rewrite !growth_pairs_cons. f_equal.
    apply (IH (d :: values)). cbn in *. lia.
Qed.

Lemma growth_pairs_telescope (years : list Z) (values : list R) y0 yn v0 vn :
  length years = length values ->
  head years = Some y0 -> last years = Some yn ->
  head values = Some v0 -> last values = Some vn ->
  sum (total_growth_pp <$> growth_pairs years values) = vn - v0
  /\ zsum (period_years <$> growth_pairs years values) = (yn - y0)%Z.
Proof.
  revert values y0 v0. induction years as [|a years IH]; intros values y0 v0 Hlen; [done|].
  destruct values as [|c values]; [done|].
  destruct years as [|b years].
  - destruct values; [|done]. cbn. intros [= <-] [= <-] [= <-] [= <-]. split; [lra|lia].
  - destruct values as [|d values]; [done|].
    rewrite growth_pairs_cons. cbn [head]. intros [= <-] Hyn [= <-] Hvn.
    destruct (IH (d :: values) b d) as [Hv Hy];
      [cbn in Hlen |- *; lia|reflexivity|exact Hyn|reflexivity|exact Hvn|].
    cbn [fmap list_fmap]. rewrite sum_cons. unfold zsum in *. cbn [foldr].
    change (list_fmap growth_row R total_growth_pp) with (fmap (M := list) total_growth_pp).
    change (list_fmap growth_row Z period_years) with (fmap (M := list) period_years).
    rewrite Hv, Hy. cbn. split; [lra|lia].
Qed.

(** X15. The rows telescope: over a series with as many values as years,
    the period lengths, which the code computes on integers, add up to the
    last year minus the first, whatever the order of the years; in exact
    arithmetic the total growth of all rows adds up to the last value minus
    the first.  The numbers of this development are exact reals; each
    difference stored by the code is rounded to binary64, so their sum can
    differ from the overall difference in the last digits. *)
Theorem calculate_growth_rates_telescope (years : list Z) (values : list R) y0 yn v0 vn :
  length years = length values ->
  head years = Some y0 -> last years = Some yn ->
  head values = Some v0 -> last values = Some vn ->
  exists rows,
    calculate_growth_rates years values = Ok rows
    /\ sum (total_growth_pp <$> rows) = vn - v0
    /\ zsum (period_years <$> rows) = (yn - y0)%Z.
Proof.
  intros Hlen Hy0 Hyn Hv0 Hvn. exists (growth_pairs years values).
  split; [apply calculate_growth_rates_pairs; lia|].
  by apply growth_pairs_telescope.
Qed.

Lemma calculate_growth_rates_telescope_witness :
  exists rows,
    calculate_growth_rates [2011; 2014; 2017; 2021]%Z [14; 22; 35; 46] = Ok rows
    /\ sum (total_growth_pp <$> rows) = 46 - 14
    /\ zsum (period_years <$> rows) = (2021 - 2011)%Z.
Proof.
  exact (calculate_growth_rates_telescope
           [2011; 2014; 2017; 2021]%Z [14; 22; 35; 46] 2011%Z 2021%Z 14 46
           eq_refl eq_refl eq_refl eq_refl eq_refl).
Defined.

(** X16. Two consecutive observations of the same year do not stop the
    analyzer: the row has a period of 0 years and an annual growth that is
    [inf], [-inf] or [nan] according to the sign of the change in value. *)
Theorem calculate_growth_rates_repeated_year
    (years : list Z) (values : list R) (i : nat) y v0 v1 :
  (length years <= length values)%nat ->
  years !! i = Some y -> years !! S i = Some y ->
  values !! i = Some v0 -> values !! S i = Some v1 ->
  exists rows row,
    calculate_growth_rates years values = Ok rows
    /\ rows !! i = Some row
    /\ period_years row = 0%Z
    /\ total_growth_pp row = v1 - v0
    /\ ~ finite (annual_growth_pp row)
    /\ (v0 < v1 -> annual_growth_pp row = PInf)
    /\ (v1 < v0 -> annual_growth_pp row = NInf)
    /\ (v0 = v1 -> annual_growth_pp row = NaN).
Proof.
  intros Hlen Hy0 Hy1 Hv0 Hv1.
  exists (growth_pairs years values), (make_growth_row y y v0 v1).
  split; [by apply calculate_growth_rates_pairs|].
  split; [by apply growth_pairs_lookup|].
  cbn. rewrite Z.sub_diag. split; [done|]. split; [done|].
  unfold xdiv. destruct (Req_dec_T 0 0) as [_|?]; [|done]. unfold sign_inf.
  destruct (Rlt_dec 0 (v1 - v0)); [|destruct (Rlt_dec (v1 - v0) 0)].
  - split; [by intros [t ?]|]. split; [done|]. split; intros; lra.
  - split; [by intros [t ?]|]. split; [intros; lra|]. split; [done|]. intros; lra.
  - split; [by intros [t ?]|]. split; [intros; lra|]. split; [intros; lra|done].
Qed.

Lemma calculate_growth_rates_repeated_year_witness :
  exists rows row,
    calculate_growth_rates [2021; 2021]%Z [44; 46] = Ok rows
    /\ rows !! 0%nat = Some row
    /\ annual_growth_pp row = PInf.
Proof.
  destruct (calculate_growth_rates_repeated_year [2021; 2021]%Z [44; 46] 0%nat 2021%Z 44 46
              ltac:(cbn; lia) eq_refl eq_refl eq_refl eq_refl)
    as (rows & row & Hres & Hrow & _ & _ & _ & Hpos & _).
  exists rows, row. split; [exact Hres|]. split; [exact Hrow|]. apply Hpos. lra.
Defined.

(** ** Indicator forecast aggregator: keys of the result, rows it reads *)

Lemma indicator_entry_inv (name key : string) (goal : R)
    (years : list Z) (values : list R) (forecasts : list Z) entry :
  indicator_entry name key goal years values forecasts = Ok entry ->
  indicator entry = name /\ code entry = key
  /\ forecast_years entry = forecasts
  /\ target entry = goal /\ target_year entry = 2025%Z
  /\ linear_trend_forecast years values forecasts
     = Ok (linear_forecast entry, linear_lower entry, linear_upper entry)
  /\ log_trend_forecast years values forecasts
     = Ok (log_forecast entry, log_lower entry, log_upper entry).
Proof.
  unfold indicator_entry.
  destruct (linear_trend_forecast years values forecasts) as [[[lin lo] up]|e]; [|done].
  destruct (log_trend_forecast years values forecasts) as [[[lg llo] lup]|e]; [|done].
  cbn [mbind result_bind].
  destruct (last_item values) as [v|e]; [|done].
  destruct (last_item years) as [cy|e]; [|done].
  cbn [mbind result_bind]. intros [= <-]. by repeat split.
Qed.

(** What a returned result is made of. *)
Lemma forecast_access_usage_inv
    (df : list observation_row) (forecasts : list Z)
    (results : gmap string indicator_forecast) :
  forecast_access_usage df forecasts = Ok results ->
  let observations := rows_where record_type "observation" df in
  let acc_data := indicator_rows "ACC_OWNERSHIP" observations in
  let usg_data := indicator_rows "USG_DIGITAL_PAYMENT" observations in
  exists access,
    indicator_entry "Account Ownership Rate" "ACC_OWNERSHIP" 60
      (row_years acc_data) (row_values acc_data) forecasts = Ok access
    /\ (((length usg_data < 2)%nat /\ results = {[ "access"%string := access ]})
        \/ ((2 <= length usg_data)%nat
            /\ exists usage,
                 indicator_entry "Digital Payment Adoption" "USG_DIGITAL_PAYMENT" 50
                   (row_years usg_data) (row_values usg_data) forecasts = Ok usage
                 /\ results = <[ "usage"%string := usage ]> {[ "access"%string := access ]})).
Proof.
  intros Hres observations acc_data usg_data. unfold forecast_access_usage in Hres.
  fold observations in Hres. fold acc_data in Hres. fold usg_data in Hres.
  destruct (indicator_entry "Account Ownership Rate" _ _ _ _ _) as [access|e]; [|done].
  cbn [mbind result_bind] in Hres. exists access. split; [done|].
  destruct (decide (2 <= length usg_data)%nat) as [Hge|Hlt].
  - right. split; [done|].
    destruct (indicator_entry "Digital Payment Adoption" _ _ _ _ _) as [usage|e]; [|done].
    cbn [mbind result_bind] in Hres. injection Hres as <-.
    exists usage. split; [done|]. by rewrite insert_empty.
  - left. split; [lia|]. injection Hres as <-. by rewrite insert_empty.
Qed.

(** X17. When the dataset holds at least 2 observation rows of
    USG_DIGITAL_PAYMENT and each of the two indicators has an observation in
    a year other than 0, the aggregator returns a mapping with exactly the
    keys ['access'] and ['usage'].  Each entry has its own code and target
    (60 and 50), its historical years and values are the observations of
    its own indicator in date order, and its linear and logarithmic
    forecasts and bounds are what the two forecasters return on that
    series. *)
Theorem forecast_access_usage_complete
    (df : list observation_row) (forecasts : list Z) (acc usg : observation_row) :
  let observations := rows_where record_type "observation" df in
  (2 <= length (rows_where indicator_code "USG_DIGITAL_PAYMENT" observations))%nat ->
  acc ∈ df -> record_type acc = "observation"%string ->
  indicator_code acc = "ACC_OWNERSHIP"%string -> ts_year (observation_date acc) <> 0%Z ->
  usg ∈ df -> record_type usg = "observation"%string ->
  indicator_code usg = "USG_DIGITAL_PAYMENT"%string -> ts_year (observation_date usg) <> 0%Z ->
  exists results access usage,
    forecast_access_usage df forecasts = Ok results
    /\ dom results = {[ "access"; "usage" ]}%string
    /\ results !! "access"%string = Some access
    /\ results !! "usage"%string = Some usage
    /\ code access = "ACC_OWNERSHIP"%string /\ target access = 60
    /\ code usage = "USG_DIGITAL_PAYMENT"%string /\ target usage = 50
    /\ historical_years access = row_years (indicator_rows "ACC_OWNERSHIP" observations)
    /\ historical_values access = row_values (indicator_rows "ACC_OWNERSHIP" observations)
    /\ historical_years usage
       = row_years (indicator_rows "USG_DIGITAL_PAYMENT" observations)
    /\ historical_values usage
       = row_values (indicator_rows "USG_DIGITAL_PAYMENT" observations)
    /\ linear_trend_forecast (historical_years access) (historical_values access) forecasts
       = Ok (linear_forecast access, linear_lower access, linear_upper access)
    /\ log_trend_forecast (historical_years access) (historical_values access) forecasts
       = Ok (log_forecast access, log_lower access, log_upper access)
    /\ linear_trend_forecast (historical_years usage) (historical_values usage) forecasts
       = Ok (linear_forecast usage, linear_lower usage, linear_upper usage)
    /\ log_trend_forecast (historical_years usage) (historical_values usage) forecasts
       = Ok (log_forecast usage, log_lower usage, log_upper usage).
Proof.
  intros observations Hcount Hacc Hat Hac Hay Husg Hut Huc Huy.
  set (acc_data := indicator_rows "ACC_OWNERSHIP" observations).
  set (usg_data := indicator_rows "USG_DIGITAL_PAYMENT" observations).
  assert (Hobs : forall r, r ∈ df -> record_type r = "observation"%string ->
                           r ∈ observations).
  { intros r Hr Ht. unfold observations, rows_where. by apply list_elem_of_filter. }
  destruct (indicator_entry_returns "Account Ownership Rate" "ACC_OWNERSHIP" 60
              (row_years acc_data) (row_values acc_data) forecasts
              (ts_year (observation_date acc)))
    as (access & Ha & Hca & Hay' & Hav' & _ & Halin & Halog).
  { apply (list_elem_of_fmap_2 (fun r => ts_year (observation_date r))).
    apply indicator_rows_elem. split; [done|by apply Hobs]. }
  { done. }
  { unfold row_years, row_values. by rewrite !length_fmap. }
  destruct (indicator_entry_returns "Digital Payment Adoption" "USG_DIGITAL_PAYMENT" 50
              (row_years usg_data) (row_values usg_data) forecasts
              (ts_year (observation_date usg)))
    as (usage & Hu & Hcu & Hhy & Hhv & _ & Hlin & Hlog).
  { apply (list_elem_of_fmap_2 (fun r => ts_year (observation_date r))).
    apply indicator_rows_elem. split; [done|by apply Hobs]. }
  { done. }
  { unfold row_years, row_values. by rewrite !length_fmap. }
  exists (<[ "usage"%string := usage ]> {[ "access"%string := access ]}), access, usage.
  split.
  { unfold forecast_access_usage. fold observations. fold acc_data. fold usg_data.
    rewrite Ha. cbn [mbind result_bind].
    destruct (decide (2 <= length usg_data)%nat) as [_|Hlt].
    - rewrite Hu. cbn [mbind result_bind]. unfold mret, result_ret.
      by rewrite insert_empty.
    - exfalso. apply Hlt. unfold usg_data. by rewrite indicator_rows_length. }
  split; [rewrite dom_insert_L, dom_singleton_L; set_solver|].
  split; [by rewrite lookup_insert_ne, lookup_singleton_eq|].
  split; [by rewrite lookup_insert_eq|].
  destruct (indicator_entry_inv _ _ _ _ _ _ _ Ha) as (_ & _ & _ & Hta & _).
  destruct (indicator_entry_inv _ _ _ _ _ _ _ Hu) as (_ & _ & _ & Htu & _).
  rewrite Hhy, Hhv, Hay', Hav'. by repeat split.
Qed.

Lemma forecast_access_usage_complete_witness :
  returns (forecast_access_usage
             [ {| record_type := "observation"; indicator_code := "ACC_OWNERSHIP";
                  observation_date := {| ts_year := 2021; ts_month := 12; ts_day := 31 |};
                  value_numeric := 46 |};
               {| record_type := "observation"; indicator_code := "USG_DIGITAL_PAYMENT";
                  observation_date := {| ts_year := 2021; ts_month := 12; ts_day := 31 |};
                  value_numeric := 20 |};
               {| record_type := "observation"; indicator_code := "USG_DIGITAL_PAYMENT";
                  observation_date := {| ts_year := 2024; ts_month := 12; ts_day := 31 |};
                  value_numeric := 35 |} ]
             default_forecast_years).
Proof.
  destruct (forecast_access_usage_complete
              [ {| record_type := "observation"; indicator_code := "ACC_OWNERSHIP";
                   observation_date := {| ts_year := 2021; ts_month := 12; ts_day := 31 |};
                   value_numeric := 46 |};
                {| record_type := "observation"; indicator_code := "USG_DIGITAL_PAYMENT";
                   observation_date := {| ts_year := 2021; ts_month := 12; ts_day := 31 |};
                   value_numeric := 20 |};
                {| record_type := "observation"; indicator_code := "USG_DIGITAL_PAYMENT";
                   observation_date := {| ts_year := 2024; ts_month := 12; ts_day := 31 |};
                   value_numeric := 35 |} ]
              default_forecast_years
              {| record_type := "observation"; indicator_code := "ACC_OWNERSHIP";
                 observation_date := {| ts_year := 2021; ts_month := 12; ts_day := 31 |};
                 value_numeric := 46 |}
              {| record_type := "observation"; indicator_code := "USG_DIGITAL_PAYMENT";
                 observation_date := {| ts_year := 2021; ts_month := 12; ts_day := 31 |};
                 value_numeric := 20 |}
              ltac:(vm_compute; lia) ltac:(left) eq_refl eq_refl ltac:(discriminate)
              ltac:(right; left) eq_refl eq_refl ltac:(discriminate))
    as (results & access & usage & Hres & _).
  eexists. exact Hres.
Defined.

Lemma linear_trend_forecast_lengths
    (years : list Z) (values : list R) (forecasts : list Z) (forecast lower upper : list xreal) :
  linear_trend_forecast years values forecasts = Ok (forecast, lower, upper) ->
  length forecast = length forecasts /\ length lower = length forecasts
  /\ length upper = length forecasts.
Proof.
  unfold linear_trend_forecast.
  destruct (polyfit1 _ values) as [[slope intercept]|e]; [|done].
  cbn [mbind result_bind]. intros [= <- <- <-].
  rewrite !length_zip_with, !length_fmap. lia.
Qed.

Lemma log_trend_forecast_lengths
    (years : list Z) (values : list R) (forecasts : list Z) (forecast lower upper : list xreal) :
  log_trend_forecast years values forecasts = Ok (forecast, lower, upper) ->
  length forecast = length forecasts /\ length lower = length forecasts
  /\ length upper = length forecasts.
Proof.
  unfold log_trend_forecast.
  destruct (Np.min years) as [base|e]; [|done]. cbn [mbind result_bind].
  destruct (polyfit1 _ values) as [[slope intercept]|e]; [|done].
  cbn [mbind result_bind]. intros [= <- <- <-]. by rewrite !length_fmap.
Qed.

Lemma indicator_entry_for (name key : string) (goal : R)
    (years : list Z) (values : list R) (forecasts : list Z) entry :
  indicator_entry name key goal years values forecasts = Ok entry ->
  entry_for forecasts entry.
Proof.
  intros Hentry.
  destruct (indicator_entry_inv _ _ _ _ _ _ _ Hentry) as (_ & _ & Hfy & _ & Hty & Hlin & Hlog).
  apply linear_trend_forecast_lengths in Hlin as (? & ? & ?).
  apply log_trend_forecast_lengths in Hlog as (? & ? & ?).
  by repeat split.
Qed.

(** X18. Whatever the dataset, a result that is returned has the key
    ['access'], has the key ['usage'] exactly when there are at least 2
    observation rows of USG_DIGITAL_PAYMENT, and has no other key; each entry
    carries the requested forecast years and one linear and one logarithmic
    forecast, lower and upper bound per forecast year. *)
Theorem forecast_access_usage_keys
    (df : list observation_row) (forecasts : list Z)
    (results : gmap string indicator_forecast) :
  forecast_access_usage df forecasts = Ok results ->
  "access"%string ∈ dom results
  /\ dom results ⊆ {[ "access"; "usage" ]}%string
  /\ ("usage"%string ∈ dom results
      <-> (2 <= length (rows_where indicator_code "USG_DIGITAL_PAYMENT"
                          (rows_where record_type "observation" df)))%nat)
  /\ forall key entry, results !! key = Some entry -> entry_for forecasts entry.
Proof.
  intros Hres. destruct (forecast_access_usage_inv df forecasts results Hres)
    as (access & Ha & [[Hlt ->]|(Hge & usage & Hu & ->)]);
    rewrite indicator_rows_length in *.
  - rewrite dom_singleton_L. split; [set_solver|]. split; [set_solver|]. split.
    + split; [|lia]. intros Hin. apply elem_of_singleton in Hin. discriminate.
    + intros key entry Hlook. apply lookup_singleton_Some in Hlook as [_ <-].
      by eapply indicator_entry_for.
  - rewrite dom_insert_L, dom_singleton_L. split; [set_solver|]. split; [set_solver|]. split.
    + split; [done|]. intros _. set_solver.
    + intros key entry Hlook. apply lookup_insert_Some in Hlook as [[_ <-]|[_ Hlook]].
      * by eapply indicator_entry_for.
      * apply lookup_singleton_Some in Hlook as [_ <-]. by eapply indicator_entry_for.
Qed.

Lemma forecast_access_usage_keys_witness :
  exists results,
    forecast_access_usage
      [ {| record_type := "observation"; indicator_code := "ACC_OWNERSHIP";
           observation_date := {| ts_year := 2021; ts_month := 12; ts_day := 31 |};
           value_numeric := 46 |} ]
      default_forecast_years = Ok results
    /\ "access"%string ∈ dom results.
Proof.
  destruct (linear_trend_forecast_returns [2021]%Z [46] default_forecast_years 2021%Z
              ltac:(left) ltac:(discriminate) eq_refl) as [[[lin lo] up] Hlin].
  destruct (log_trend_forecast_returns [2021]%Z [46] default_forecast_years
              ltac:(discriminate) eq_refl) as [[[lg llo] lup] Hlog].
  eexists. split.
  - unfold forecast_access_usage.
    change (indicator_rows "ACC_OWNERSHIP" _) with
      [ {| record_type := "observation"; indicator_code := "ACC_OWNERSHIP";
           observation_date := {| ts_year := 2021; ts_month := 12; ts_day := 31 |};
           value_numeric := 46 |} ].
    change (indicator_rows "USG_DIGITAL_PAYMENT" _) with (@nil observation_row).
    unfold indicator_entry, row_years, row_values. cbn [fmap list_fmap ts_year
      observation_date value_numeric].
    rewrite Hlin, Hlog. reflexivity.
  - match goal with
    | |- _ ∈ dom ?m =>
        assert (Hm : forecast_access_usage
                       [ {| record_type := "observation"; indicator_code := "ACC_OWNERSHIP";
                            observation_date :=
                              {| ts_year := 2021; ts_month := 12; ts_day := 31 |};
                            value_numeric := 46 |} ]
                       default_forecast_years = Ok m)
    end.
    { unfold forecast_access_usage.
      change (indicator_rows "ACC_OWNERSHIP" _) with
        [ {| record_type := "observation"; indicator_code := "ACC_OWNERSHIP";
             observation_date := {| ts_year := 2021; ts_month := 12; ts_day := 31 |};
             value_numeric := 46 |} ].
      change (indicator_rows "USG_DIGITAL_PAYMENT" _) with (@nil observation_row).
      unfold indicator_entry, row_years, row_values. cbn [fmap list_fmap ts_year
        observation_date value_numeric].
      rewrite Hlin, Hlog. reflexivity. }
    exact (proj1 (forecast_access_usage_keys _ _ _ Hm)).
Defined.

Lemma filter_relevant_rows (key : string) (df : list observation_row) :
  key = "ACC_OWNERSHIP"%string \/ key = "USG_DIGITAL_PAYMENT"%string ->
  rows_where indicator_code key (rows_where record_type "observation" (filter relevant_row df))
  = rows_where indicator_code key (rows_where record_type "observation" df).
Proof.
  intros Hkey. unfold rows_where. rewrite !list_filter_filter.
  apply list_filter_iff. intros r. unfold relevant_row. split.
  - intros (Hc & Ht & _). done.
  - intros (Hc & Ht). repeat split; try done. rewrite Hc. destruct Hkey; [by left|by right].
Qed.

(** X19. Only observation rows of ACC_OWNERSHIP and USG_DIGITAL_PAYMENT are
    read: removing every other row of the dataset (events, targets, impact
    links, other indicators) changes neither the result nor the error. *)
Theorem forecast_access_usage_reads_relevant_rows
    (df : list observation_row) (forecasts : list Z) :
  forecast_access_usage (filter relevant_row df) forecasts
  = forecast_access_usage df forecasts.
Proof.
  unfold forecast_access_usage, indicator_rows.
  rewrite !filter_relevant_rows by (by left + by right). reflexivity.
Qed.

(** ** Forecast table *)

Lemma forecast_table_row_ok (fmt1 : xreal -> string) (fmt0 : R -> string)
    (data : indicator_forecast) (i : nat) (year : Z) :
  (i < length (linear_forecast data))%nat -> (i < length (linear_lower data))%nat ->
  (i < length (linear_upper data))%nat -> (i < length (log_forecast data))%nat ->
  exists row,
    forecast_table_row fmt1 fmt0 data i year = Ok row
    /\ col_indicator row = indicator data /\ col_year row = year
    /\ col_target row = if decide (year = target_year data)
                        then fmt0 (target data) +:+ "%" else "-".
Proof.
  intros H1 H2 H3 H4.
  destruct (lookup_lt_is_Some_2 _ _ H1) as [a Ha].
  destruct (lookup_lt_is_Some_2 _ _ H2) as [b Hb].
  destruct (lookup_lt_is_Some_2 _ _ H3) as [c Hc].
  destruct (lookup_lt_is_Some_2 _ _ H4) as [d Hd].
  unfold forecast_table_row.
  rewrite (item_lookup _ _ _ Ha), (item_lookup _ _ _ Hb),
    (item_lookup _ _ _ Hc), (item_lookup _ _ _ Hd).
  cbn [mbind result_bind]. eexists. split; [reflexivity|]. by repeat split.
Qed.


Lemma table_year_loop_ok (fmt1 : xreal -> string) (fmt0 : R -> string)
    (data : indicator_forecast) (years : list Z) (i : nat) (rows : list table_row) :
  (i + length years <= length (linear_forecast data))%nat ->
  (i + length years <= length (linear_lower data))%nat ->
  (i + length years <= length (linear_upper data))%nat ->
  (i + length years <= length (log_forecast data))%nat ->
  exists added,
    table_year_loop fmt1 fmt0 data i years rows = Ok (rows ++ added)
    /\ length added = length years
    /\ Forall (fun row =>
                 col_indicator row = indicator data /\ col_year row ∈ years
                 /\ col_target row = if decide (col_year row = target_year data)
                                     then fmt0 (target data) +:+ "%" else "-") added.
Proof.
  revert i rows. induction years as [|year rest IH]; intros i rows H1 H2 H3 H4.
  - exists []. cbn. by rewrite app_nil_r.
  - cbn [length] in *.
    destruct (forecast_table_row_ok fmt1 fmt0 data i year)
      as (row & Hrow & Hind & Hyear & Htarget); [lia..|].
    destruct (IH (S i) (rows ++ [row])) as (added & Hrun & Hlen & Hall); [lia..|].
    exists (row :: added). split; [|split].
    + cbn [table_year_loop]. rewrite Hrow. cbn [mbind result_bind]. rewrite Hrun.
      by rewrite <- app_assoc.
    + cbn. by rewrite Hlen.
    + constructor.
      * rewrite Hyear. split; [done|]. split; [left|done].
      * eapply Forall_impl; [exact Hall|]. cbn. intros r (? & ? & ?).
        split; [done|]. split; [by right|done].
Qed.



Lemma table_loop_ok (fmt1 : xreal -> string) (fmt0 : R -> string)
    (items : list (string * indicator_forecast)) (rows : list table_row) :
  Forall (fun item => table_ready item.2) items ->
  exists added,
    table_loop fmt1 fmt0 items rows = Ok (rows ++ added)
    /\ length added = sum_list ((fun item => length (forecast_years item.2)) <$> items)
    /\ Forall (fun row => exists item, item ∈ items /\ row_of_entry fmt0 item.2 row) added.
Proof.
  revert rows. induction items as [|[key data] rest IH]; intros rows Hready.
  - exists []. cbn. by rewrite app_nil_r.
  - apply Forall_cons in Hready as [(H1 & H2 & H3 & H4) Hrest]. cbn [snd] in *.
    destruct (table_year_loop_ok fmt1 fmt0 data (forecast_years data) 0 rows)
      as (added1 & Hrun1 & Hlen1 & Hall1); [cbn; lia..|].
    destruct (IH (rows ++ added1) Hrest) as (added2 & Hrun2 & Hlen2 & Hall2).
    exists (added1 ++ added2). split; [|split].
    + cbn [table_loop]. rewrite Hrun1. cbn [mbind result_bind]. rewrite Hrun2.
      by rewrite <- app_assoc.
    + rewrite length_app, Hlen1, Hlen2. reflexivity.
    + apply Forall_app. split.
      * eapply Forall_impl; [exact Hall1|]. cbn. intros r Hr.
        exists (key, data). split; [left|exact Hr].
      * eapply Forall_impl; [exact Hall2|]. cbn. intros r (item & Hin & Hr).
        exists item. split; [by right|exact Hr].
Qed.



Lemma forecast_access_usage_entries
    (df : list observation_row) (forecasts : list Z)
    (results : gmap string indicator_forecast) key entry :
  forecast_access_usage df forecasts = Ok results ->
  results !! key = Some entry -> entry_for forecasts entry.
Proof.
  intros Hres Hlook. destruct (forecast_access_usage_inv df forecasts results Hres)
    as (access & Ha & [[_ ->]|(_ & usage & Hu & ->)]).
  - apply lookup_singleton_Some in Hlook as [_ <-]. by eapply indicator_entry_for.
  - apply lookup_insert_Some in Hlook as [[_ <-]|[_ Hlook]].
    + by eapply indicator_entry_for.
    + apply lookup_singleton_Some in Hlook as [_ <-]. by eapply indicator_entry_for.
Qed.

Lemma entry_for_ready (forecasts : list Z) (entry : indicator_forecast) :
  entry_for forecasts entry -> table_ready entry.
Proof.
  intros (Hfy & _ & H1 & H2 & H3 & H4 & _). unfold table_ready. rewrite Hfy. lia.
Qed.

Lemma sum_list_const {A} (f : A -> nat) (n : nat) (l : list A) :
  Forall (fun a => f a = n) l -> sum_list (f <$> l) = (length l * n)%nat.
Proof. induction 1 as [|a l Ha _ IH]; cbn; [done|]. rewrite Ha, IH. lia. Qed.

(** X21. The aggregator's result can always be tabulated: whatever the
    insertion order of its items, [create_forecast_table] raises nothing on
    it and returns one row per indicator and forecast year, each for one of
    the requested years; only the rows of the year 2025 show a target, so no
    row does when 2025 is not among the forecast years. *)
Theorem create_forecast_table_of_forecasts
    (fmt1 : xreal -> string) (fmt0 : R -> string)
    (df : list observation_row) (forecasts : list Z)
    (results : gmap string indicator_forecast)
    (items : list (string * indicator_forecast)) :
  forecast_access_usage df forecasts = Ok results ->
  dict_items items ->
  list_to_map items = results ->
  exists table,
    create_forecast_table fmt1 fmt0 items = Ok table
    /\ length table = (size results * length forecasts)%nat
    /\ Forall (fun row => col_year row ∈ forecasts
                          /\ (col_year row <> 2025%Z -> col_target row = "-"%string)) table
    /\ (2025%Z ∉ forecasts -> Forall (fun row => col_target row = "-"%string) table).
Proof.
  intros Hres Hdict Hmap.
  assert (Hentries : Forall (fun item => entry_for forecasts item.2) items).
  { apply Forall_forall. intros [key entry] Hin. cbn.
    apply (forecast_access_usage_entries df forecasts results key entry Hres).
    rewrite <- Hmap. by apply elem_of_list_to_map_1. }
  assert (Hready : Forall (fun item => table_ready item.2) items).
  { eapply Forall_impl; [exact Hentries|]. intros item. apply entry_for_ready. }
  destruct (table_loop_ok fmt1 fmt0 items [] Hready) as (table & Htable & Hlen & Hrows).
  assert (Hyears : Forall (fun row => col_year row ∈ forecasts
                             /\ (col_year row <> 2025%Z -> col_target row = "-"%string))
                     table).
  { eapply Forall_impl; [exact Hrows|]. cbn.
    intros row (item & Hin & _ & Hyear & Htarget).
    rewrite Forall_forall in Hentries.
    destruct (Hentries item Hin) as (Hfy & Hty & _).
    rewrite Hfy in Hyear. rewrite Hty in Htarget. split; [done|].
    intros Hne. by destruct (decide (col_year row = 2025%Z)). }
  exists table. split; [exact Htable|]. split; [|split; [exact Hyears|]].
  - rewrite Hlen, <- Hmap, map_size_list_to_map by done.
    apply sum_list_const. eapply Forall_impl; [exact Hentries|].
    cbn. intros item (Hfy & _). by rewrite Hfy.
  - intros Hout. eapply Forall_impl; [exact Hyears|]. cbn. intros row [Hin Htarget].
    apply Htarget. intros Heq. apply Hout. by rewrite <- Heq.
Qed.

Lemma create_forecast_table_of_forecasts_witness :
  exists items table,
    create_forecast_table (fun _ => ""%string) (fun _ => ""%string) items = Ok table
    /\ length table = 3%nat.
Proof.
  set (df := [ {| record_type := "observation"; indicator_code := "ACC_OWNERSHIP";
                  observation_date := {| ts_year := 2021; ts_month := 12; ts_day := 31 |};
                  value_numeric := 46 |} ]).
  destruct (linear_trend_forecast_returns [2021]%Z [46] default_forecast_years 2021%Z
              ltac:(left) ltac:(discriminate) eq_refl) as [[[lin lo] up] Hlin].
  destruct (log_trend_forecast_returns [2021]%Z [46] default_forecast_years
              ltac:(discriminate) eq_refl) as [[[lg llo] lup] Hlog].
  assert (Hres : exists access,
             forecast_access_usage df default_forecast_years
             = Ok (list_to_map [("access"%string, access)])).
  { eexists. unfold forecast_access_usage, df.
    change (indicator_rows "ACC_OWNERSHIP" _) with
      [ {| record_type := "observation"; indicator_code := "ACC_OWNERSHIP";
           observation_date := {| ts_year := 2021; ts_month := 12; ts_day := 31 |};
           value_numeric := 46 |} ].
    change (indicator_rows "USG_DIGITAL_PAYMENT" _) with (@nil observation_row).
    unfold indicator_entry, row_years, row_values. cbn [fmap list_fmap ts_year
      observation_date value_numeric].
    rewrite Hlin, Hlog. reflexivity. }
  destruct Hres as [access Hres].
  destruct (create_forecast_table_of_forecasts (fun _ => ""%string) (fun _ => ""%string)
              df default_forecast_years _ [("access"%string, access)] Hres)
    as (table & Htable & Hlen & _).
  { unfold dict_items. cbn. apply NoDup_singleton. }
  { reflexivity. }
  exists [("access"%string, access)], table. split; [exact Htable|].
  rewrite Hlen. cbn [list_to_map foldr uncurry]. rewrite insert_empty, map_size_singleton.
  reflexivity.
Defined.

(** * Properties of the data loader *)

Section DataLoader.
Context `{UnifiedColumns row}.

Lemma with_record_type_loaded (key : string) (df : frame row) (part : frame row) :
  with_record_type key df = Loaded part ->
  has_record_type df = true
  /\ has_record_type part = true
  /\ frame_rows part = filter (fun r => record_type_cell r = Some key) (frame_rows df).
Proof.
  unfold with_record_type. destruct (has_record_type df); [|done].
  intros [= <-]. done.
Qed.

Lemma split_loop_spec (df : frame row) (record_types : list string)
    (result : gmap string (frame row)) :
  has_record_type df = true ->
  exists parts,
    split_loop df record_types result = Loaded parts
    /\ dom parts = dom result ∪ list_to_set record_types
    /\ forall key part, parts !! key = Some part ->
         (key ∈ record_types /\ with_record_type key df = Loaded part)
         \/ (key ∉ record_types /\ result !! key = Some part).
Proof.
  intros Hcol. revert result. induction record_types as [|t rest IH]; intros result.
  - exists result. split; [done|]. split; [set_solver|].
    intros key part Hlook. right. split; [apply not_elem_of_nil|done].
  - cbn [split_loop]. unfold with_record_type at 1. rewrite Hcol. cbn [mbind keyed_bind].
    edestruct IH as (parts & Hrun & Hdom & Hparts). exists parts.
    split; [exact Hrun|]. split.
    + rewrite Hdom, dom_insert_L. cbn. set_solver.
    + intros key part Hlook. destruct (Hparts key part Hlook) as [[Hin Hw]|[Hout Hres]].
      * left. split; [by right|done].
      * destruct (decide (t = key)) as [->|Hne].
        -- rewrite lookup_insert_eq in Hres. injection Hres as <-.
           left. split; [left|]. unfold with_record_type. by rewrite Hcol.
        -- rewrite lookup_insert_ne in Hres by done. right. split; [|done].
           intros Hin. apply elem_of_cons in Hin as [->|Hin]; [done|contradiction].
Qed.

Lemma record_type_partition_length (rows : list row) :
  (length (filter (fun r => record_type_cell r = Some "observation"%string) rows)
   + length (filter (fun r => record_type_cell r = Some "event"%string) rows)
   + length (filter (fun r => record_type_cell r = Some "impact_link"%string) rows)
   + length (filter (fun r => record_type_cell r = Some "target"%string) rows)
   + length (filter (fun r => record_type_cell r ∉ Some <$> the_record_types) rows)
   = length rows)%nat.
Proof.
  induction rows as [|r rows IH]; [done|].
  rewrite !filter_cons.
  destruct (decide (record_type_cell r ∈ Some <$> the_record_types)) as [Hknown|Hother].
  - unfold the_record_types in Hknown. cbn [fmap list_fmap] in Hknown.
    repeat (apply elem_of_cons in Hknown as [Hknown|Hknown]);
      [..|by apply elem_of_nil in Hknown];
      rewrite Hknown;
      repeat case_decide; try discriminate; try contradiction;
      try (exfalso; unfold the_record_types in *; set_solver);
      cbn [length]; lia.
  - assert (Ho : record_type_cell r <> Some "observation"%string)
      by (intros E; apply Hother; rewrite E; unfold the_record_types; set_solver).
    assert (He : record_type_cell r <> Some "event"%string)
      by (intros E; apply Hother; rewrite E; unfold the_record_types; set_solver).
    assert (Hi : record_type_cell r <> Some "impact_link"%string)
      by (intros E; apply Hother; rewrite E; unfold the_record_types; set_solver).
    assert (Ht : record_type_cell r <> Some "target"%string)
      by (intros E; apply Hother; rewrite E; unfold the_record_types; set_solver).
    repeat case_decide; try contradiction. cbn [length]. lia.
Qed.

(** X22. [split_by_record_type] raises KeyError on a frame without a
    [record_type] column.  Otherwise it returns exactly the four keys
    ['observation'], ['event'], ['impact_link'] and ['target']; each part
    holds, in their original order, the rows of that record type and is what
    the getter of that type returns; a row is in at most one part; rows with
    another or an empty record type are in no part, so the four parts and
    those rows add up to the frame. *)
Theorem split_by_record_type_partition (df : frame row) :
  (has_record_type df = false -> split_by_record_type df = KeyError "record_type")
  /\ (has_record_type df = true ->
      exists parts observations events impact_links targets,
        split_by_record_type df = Loaded parts
        /\ dom parts = {[ "observation"; "event"; "impact_link"; "target" ]}%string
        /\ parts !! "observation"%string = Some observations
        /\ parts !! "event"%string = Some events
        /\ parts !! "impact_link"%string = Some impact_links
        /\ parts !! "target"%string = Some targets
        /\ get_observations df = Loaded observations
        /\ get_events df = Loaded events
        /\ get_impact_links df = Loaded impact_links
        /\ get_targets df = Loaded targets
        /\ (forall key part r,
              parts !! key = Some part ->
              (r ∈ frame_rows part <-> r ∈ frame_rows df /\ record_type_cell r = Some key))
        /\ (length (frame_rows observations) + length (frame_rows events)
            + length (frame_rows impact_links) + length (frame_rows targets)
            + length (filter (fun r => record_type_cell r ∉ Some <$> the_record_types)
                        (frame_rows df))
            = length (frame_rows df))%nat).
Proof.
  split.
  { intros Hcol. unfold split_by_record_type, the_record_types. cbn [split_loop].
    unfold with_record_type. by rewrite Hcol. }
  intros Hcol.
  destruct (split_loop_spec df the_record_types ∅ Hcol) as (parts & Hrun & Hdom & Hparts).
  assert (Hget : forall key, key ∈ the_record_types ->
                   exists part, parts !! key = Some part
                                /\ with_record_type key df = Loaded part).
  { intros key Hkey.
    assert (Hin : key ∈ dom parts) by (rewrite Hdom; set_solver).
    apply elem_of_dom in Hin as [part Hpart]. exists part. split; [done|].
    destruct (Hparts key part Hpart) as [[_ Hw]|[Hout _]]; [done|contradiction]. }
  destruct (Hget "observation"%string ltac:(set_solver)) as (o & Ho & Hwo).
  destruct (Hget "event"%string ltac:(set_solver)) as (e & He & Hwe).
  destruct (Hget "impact_link"%string ltac:(set_solver)) as (i & Hi & Hwi).
  destruct (Hget "target"%string ltac:(set_solver)) as (t & Ht & Hwt).
  exists parts, o, e, i, t. split; [exact Hrun|]. split.
  { rewrite Hdom. cbn. set_solver. }
  do 8 (split; [done|]). split.
  - intros key part r Hpart.
    destruct (Hparts key part Hpart) as [[_ Hw]|[_ Hempty]]; [|done].
    apply with_record_type_loaded in Hw as (_ & _ & ->).
    rewrite list_elem_of_filter. tauto.
  - apply with_record_type_loaded in Hwo as (_ & _ & ->).
    apply with_record_type_loaded in Hwe as (_ & _ & ->).
    apply with_record_type_loaded in Hwi as (_ & _ & ->).
    apply with_record_type_loaded in Hwt as (_ & _ & ->).
    apply record_type_partition_length.
Qed.

End DataLoader.

(** ** Order of dates *)

Lemma ts_leb_total (a b : timestamp) : ts_leb a b = true \/ ts_leb b a = true.
Proof.
  unfold ts_leb. repeat first [rewrite orb_true_iff | rewrite andb_true_iff].
  rewrite ?Z.ltb_lt, ?Z.eqb_eq, ?Z.leb_le. lia.
Qed.

Lemma ts_leb_trans (a b c : timestamp) :
  ts_leb a b = true -> ts_leb b c = true -> ts_leb a c = true.
Proof.
  unfold ts_leb. repeat first [rewrite orb_true_iff | rewrite andb_true_iff].
  rewrite ?Z.ltb_lt, ?Z.eqb_eq, ?Z.leb_le. lia.
Qed.

Lemma ts_leb_year (a b : timestamp) : ts_leb a b = true -> (ts_year a <= ts_year b)%Z.
Proof.
  unfold ts_leb. repeat first [rewrite orb_true_iff | rewrite andb_true_iff].
  rewrite ?Z.ltb_lt, ?Z.eqb_eq, ?Z.leb_le. lia.
Qed.

Lemma date_leb_total (a b : option timestamp) : date_leb a b = true \/ date_leb b a = true.
Proof. destruct a, b; cbn; auto using ts_leb_total. Qed.

Lemma date_leb_trans (a b c : option timestamp) :
  date_leb a b = true -> date_leb b c = true -> date_leb a c = true.
Proof. destruct a, b, c; cbn; eauto using ts_leb_trans; done. Qed.

Lemma filter_none {A} (P : A -> Prop) `{forall x, Decision (P x)} (l : list A) :
  (forall x, x ∈ l -> ~ P x) -> filter P l = [].
Proof.
  induction l as [|a l IH]; intros Hnone; [done|].
  rewrite filter_cons_False by (apply Hnone; left).
  apply IH. intros x Hx. apply Hnone. by right.
Qed.

Section TimeSeries.
Context `{UnifiedColumns row}.

#[local] Instance by_date_total :
  Total (fun a b : row => Is_true (date_leb (observation_date_cell a) (observation_date_cell b))).
Proof.
  intros a b.
  destruct (date_leb_total (observation_date_cell a) (observation_date_cell b)) as [E|E];
    [left|right]; by apply Is_true_true.
Qed.

#[local] Instance by_date_trans :
  Transitive (fun a b : row => Is_true (date_leb (observation_date_cell a)
                                                 (observation_date_cell b))).
Proof.
  intros a b c Hab Hbc. apply Is_true_true. apply Is_true_true in Hab, Hbc.
  by eapply date_leb_trans.
Qed.

Lemma indicator_time_series_rows_selected (df : frame row) (code : string) :
  indicator_time_series_rows df code
  ≡ₚ filter (fun r => (has_record_type df = true ->
                       record_type_cell r = Some "observation"%string)
                      /\ indicator_code_cell r = Some code) (frame_rows df).
Proof.
  unfold indicator_time_series_rows. rewrite merge_sort_Permutation.
  destruct (has_record_type df).
  - rewrite list_filter_filter. apply reflexive_eq. apply list_filter_iff.
    intros r. split; [intros [? ?]; by split|]. intros [Ho ?]. split; [done|by apply Ho].
  - apply reflexive_eq. apply list_filter_iff.
    intros r. split; [by intros ?; split|]. by intros [_ ?].
Qed.

(** X23. The time series of an indicator is sorted by observation date,
    rows without a date last; it consists of the rows of the frame with that
    indicator code, restricted to observations exactly when the frame has a
    [record_type] column, so a frame without that column is accepted as it
    is; a code that occurs in no row gives an empty series, not an error. *)
Theorem get_indicator_time_series_sorted (df : frame row) (code : string) :
  let series := get_indicator_time_series df code in
  let selected := fun r =>
    (has_record_type df = true -> record_type_cell r = Some "observation"%string)
    /\ indicator_code_cell r = Some code in
  StronglySorted (fun a b => Is_true (date_leb (series_observation_date a)
                                               (series_observation_date b))) series
  /\ series ≡ₚ (fun r => {| series_observation_date := observation_date_cell r;
                            series_value_numeric := value_numeric_cell r;
                            series_source_name := source_name_cell r;
                            series_confidence := confidence_cell r |})
                 <$> filter selected (frame_rows df)
  /\ length series = length (filter selected (frame_rows df))
  /\ ((forall r, r ∈ frame_rows df -> indicator_code_cell r <> Some code) -> series = []).
Proof.
  intros series selected.
  assert (Hperm : indicator_time_series_rows df code ≡ₚ filter selected (frame_rows df))
    by apply indicator_time_series_rows_selected.
  split; [|split; [|split]].
  - unfold series, get_indicator_time_series.
    eapply StronglySorted_fmap; [|apply StronglySorted_merge_sort; apply _].
    intros x y Hxy. exact Hxy.
  - unfold series, get_indicator_time_series. by rewrite Hperm.
  - unfold series, get_indicator_time_series. rewrite length_fmap.
    by apply Permutation_length.
  - intros Hnone. unfold series, get_indicator_time_series.
    assert (Hnil : filter selected (frame_rows df) = []).
    { apply filter_none. intros r Hr [_ Hc]. by apply (Hnone r). }
    rewrite Hnil in Hperm. apply Permutation_nil_r in Hperm. by rewrite Hperm.
Qed.

(** X24. The getters compose.  A frame returned by [get_observations] still
    has its [record_type] column: filtering it again by the same record
    type returns it unchanged, filtering it by another record type gives an
    empty frame, and its time series of any indicator is the one of the
    unified frame.  A frame without the column makes every getter raise
    KeyError. *)
Theorem get_observations_composes (df observations : frame row) :
  get_observations df = Loaded observations ->
  get_observations observations = Loaded observations
  /\ (forall part, get_events observations = Loaded part
                   \/ get_impact_links observations = Loaded part
                   \/ get_targets observations = Loaded part ->
                   frame_rows part = [])
  /\ (exists e i t, get_events observations = Loaded e
                    /\ get_impact_links observations = Loaded i
                    /\ get_targets observations = Loaded t)
  /\ (forall code, get_indicator_time_series observations code
                   = get_indicator_time_series df code).
Proof.
  intros Hobs. apply with_record_type_loaded in Hobs as (Hcol & Hcol' & Hrows).
  assert (Hother : forall key, key <> "observation"%string ->
            filter (fun r => record_type_cell r = Some key) (frame_rows observations) = []).
  { intros key Hkey. apply filter_none. intros r Hr Hrt. rewrite Hrows in Hr.
    apply list_elem_of_filter in Hr as [Ho _]. congruence. }
  assert (Hsame : filter (fun r => record_type_cell r = Some "observation"%string)
                    (frame_rows observations) = frame_rows observations).
  { rewrite Hrows, list_filter_filter. apply list_filter_iff. intros r. tauto. }
  split; [|split; [|split]].
  - unfold get_observations, with_record_type. rewrite Hcol', Hsame.
    destruct observations as [c rs]. cbn in *. by rewrite Hcol'.
  - unfold get_events, get_impact_links, get_targets, with_record_type.
    rewrite Hcol'. intros part [[= <-]|[[= <-]|[= <-]]]; cbn; by apply Hother.
  - unfold get_events, get_impact_links, get_targets, with_record_type.
    rewrite Hcol'. by do 3 eexists.
  - intros code. unfold get_indicator_time_series, indicator_time_series_rows.
    by rewrite Hcol, Hcol', Hsame, Hrows.
Qed.

End TimeSeries.

Lemma get_observations_composes_witness :
  get_observations
    {| has_record_type := true;
       frame_rows := [ {| record_type := "observation"; indicator_code := "ACC_OWNERSHIP";
                          observation_date :=
                            {| ts_year := 2021; ts_month := 12; ts_day := 31 |};
                          value_numeric := 46 |} ] |}
  = Loaded
      {| has_record_type := true;
         frame_rows := [ {| record_type := "observation"; indicator_code := "ACC_OWNERSHIP";
                            observation_date :=
                              {| ts_year := 2021; ts_month := 12; ts_day := 31 |};
                            value_numeric := 46 |} ] |}.
Proof.
  exact (proj1 (get_observations_composes
                  {| has_record_type := true;
                     frame_rows :=
                       [ {| record_type := "observation"; indicator_code := "ACC_OWNERSHIP";
                            observation_date :=
                              {| ts_year := 2021; ts_month := 12; ts_day := 31 |};
                            value_numeric := 46 |} ] |}
                  _ eq_refl)).
Defined.

(** ** Dataset summary *)

Lemma value_counts_lookup {row} (cell : row -> option string) (rows : list row) (v : string) :
  value_counts cell rows !! v
  = let n := length (filter (fun r => cell r = Some v) rows) in
    if decide (n = 0%nat) then None else Some n.
Proof.
  induction rows as [|r rows IH]; [done|]. cbn [value_counts foldr].
  fold (value_counts cell rows). destruct (cell r) as [w|] eqn:Ew.
  - destruct (decide (w = v)) as [->|Hne].
    + rewrite lookup_insert_eq, IH, filter_cons_True by done. cbn.
      by destruct (decide (length (filter (fun r => cell r = Some v) rows) = 0%nat))
        as [->|?].
    + rewrite lookup_insert_ne, IH, filter_cons_False by congruence. done.
  - rewrite IH, filter_cons_False by congruence. done.
Qed.

Lemma size_list_to_set_le (l : list string) :
  (size (list_to_set l : gset string) <= length l)%nat.
Proof.
  induction l as [|x l IH]; [done|]. cbn [list_to_set foldr length].
  change (foldr (fun x y => {[x]} ∪ y) ∅ l) with (list_to_set (C := gset string) l).
  rewrite size_union_alt, size_singleton.
  assert (size (list_to_set l ∖ {[x]} : gset string) <= size (list_to_set l : gset string))%nat
    by (apply subseteq_size; set_solver).
  lia.
Qed.

Lemma length_omap_le {A B} (f : A -> option B) (l : list A) :
  (length (omap f l) <= length l)%nat.
Proof. induction l as [|a l IH]; cbn; [done|]. destruct (f a); cbn; lia. Qed.

Lemma ts_leb_refl (a : timestamp) : ts_leb a a = true.
Proof. by destruct (ts_leb_total a a). Qed.

Lemma date_min_spec {row} (cell : row -> option timestamp) (rows : list row) :
  match date_min cell rows with
  | None => forall r, r ∈ rows -> cell r = None
  | Some lo =>
      (exists r, r ∈ rows /\ cell r = Some lo)
      /\ forall r d, r ∈ rows -> cell r = Some d -> ts_leb lo d = true
  end.
Proof.
  induction rows as [|r rows IH]; cbn [date_min foldr].
  - intros r Hr. by apply elem_of_nil in Hr.
  - fold (date_min cell rows). destruct (cell r) as [d|] eqn:Ed.
    + destruct (date_min cell rows) as [m|].
      * destruct IH as [(r' & Hr' & Hm) Hlow].
        destruct (ts_leb d m) eqn:Edm.
        -- split; [exists r; split; [left|done]|].
           intros x e Hx He. apply elem_of_cons in Hx as [->|Hx].
           ++ rewrite Ed in He. injection He as <-. apply ts_leb_refl.
           ++ eapply ts_leb_trans; [exact Edm|by eapply Hlow].
        -- split; [exists r'; split; [by right|done]|].
           intros x e Hx He. apply elem_of_cons in Hx as [->|Hx].
           ++ rewrite Ed in He. injection He as <-.
              destruct (ts_leb_total m d) as [?|?]; [done|congruence].
           ++ by eapply Hlow.
      * split; [exists r; split; [left|done]|].
        intros x e Hx He. apply elem_of_cons in Hx as [->|Hx].
        -- rewrite Ed in He. injection He as <-. apply ts_leb_refl.
        -- rewrite (IH x Hx) in He. discriminate.
    + destruct (date_min cell rows) as [m|].
      * destruct IH as [(r' & Hr' & Hm) Hlow].
        split; [exists r'; split; [by right|done]|].
        intros x e Hx He. apply elem_of_cons in Hx as [->|Hx]; [congruence|].
        by eapply Hlow.
      * intros x Hx. apply elem_of_cons in Hx as [->|Hx]; [done|by apply IH].
Qed.

Lemma date_max_spec {row} (cell : row -> option timestamp) (rows : list row) :
  match date_max cell rows with
  | None => forall r, r ∈ rows -> cell r = None
  | Some hi =>
      (exists r, r ∈ rows /\ cell r = Some hi)
      /\ forall r d, r ∈ rows -> cell r = Some d -> ts_leb d hi = true
  end.
Proof.
  induction rows as [|r rows IH]; cbn [date_max foldr].
  - intros r Hr. by apply elem_of_nil in Hr.
  - fold (date_max cell rows). destruct (cell r) as [d|] eqn:Ed.
    + destruct (date_max cell rows) as [m|].
      * destruct IH as [(r' & Hr' & Hm) Hhigh].
        destruct (ts_leb d m) eqn:Edm.
        -- split; [exists r'; split; [by right|done]|].
           intros x e Hx He. apply elem_of_cons in Hx as [->|Hx].
           ++ rewrite Ed in He. by injection He as <-.
           ++ by eapply Hhigh.
        -- split; [exists r; split; [left|done]|].
           intros x e Hx He. apply elem_of_cons in Hx as [->|Hx].
           ++ rewrite Ed in He. injection He as <-. apply ts_leb_refl.
           ++ eapply ts_leb_trans; [by eapply Hhigh|].
              destruct (ts_leb_total m d) as [?|?]; [done|congruence].
      * split; [exists r; split; [left|done]|].
        intros x e Hx He. apply elem_of_cons in Hx as [->|Hx].
        -- rewrite Ed in He. injection He as <-. apply ts_leb_refl.
        -- rewrite (IH x Hx) in He. discriminate.
    + destruct (date_max cell rows) as [m|].
      * destruct IH as [(r' & Hr' & Hm) Hhigh].
        split; [exists r'; split; [by right|done]|].
        intros x e Hx He. apply elem_of_cons in Hx as [->|Hx]; [congruence|].
        by eapply Hhigh.
      * intros x Hx. apply elem_of_cons in Hx as [->|Hx]; [done|by apply IH].
Qed.

Section Summary.
Context `{UnifiedColumns row}.

(** X25. [summarize_dataset] raises KeyError without a [record_type]
    column.  Otherwise [total_records] is the number of rows; the count
    stored for a record type is the number of rows the getter of that type
    returns, and a type without rows has no entry; every stored count is
    between 1 and [total_records]; [unique_indicators] is at most
    [total_records]; the date range is empty exactly when no row has a date,
    and otherwise its ends are dates of the frame that enclose every date. *)
Theorem summarize_dataset_counts (df : frame row) :
  (has_record_type df = false -> summarize_dataset df = KeyError "record_type")
  /\ (has_record_type df = true ->
      exists summary,
        summarize_dataset df = Loaded summary
        /\ total_records summary = length (frame_rows df)
        /\ (forall key part, with_record_type key df = Loaded part ->
              length (frame_rows part) = default 0%nat (record_type_counts summary !! key)
              /\ (frame_rows part = [] <-> record_type_counts summary !! key = None))
        /\ (forall key n, record_type_counts summary !! key = Some n
                          \/ pillar_counts summary !! key = Some n
                          \/ confidence_counts summary !! key = Some n ->
                          (1 <= n <= total_records summary)%nat)
        /\ (unique_indicators summary <= total_records summary)%nat
        /\ (date_range_min summary = None
            <-> forall r, r ∈ frame_rows df -> observation_date_cell r = None)
        /\ (date_range_min summary = None <-> date_range_max summary = None)
        /\ (forall lo hi, date_range_min summary = Some lo ->
                          date_range_max summary = Some hi ->
              ts_leb lo hi = true
              /\ forall r d, r ∈ frame_rows df -> observation_date_cell r = Some d ->
                   ts_leb lo d = true /\ ts_leb d hi = true)).
Proof.
  unfold summarize_dataset. split; [by intros ->|]. intros Hcol. rewrite Hcol.
  eexists. split; [reflexivity|]. cbn [total_records record_type_counts pillar_counts
    confidence_counts unique_indicators date_range_min date_range_max].
  assert (Hcount : forall (cell : row -> option string) key n,
            value_counts cell (frame_rows df) !! key = Some n ->
            (1 <= n <= length (frame_rows df))%nat).
  { intros cell key n. rewrite value_counts_lookup. cbn zeta.
    pose proof (length_filter (fun r => cell r = Some key) (frame_rows df)).
    case_decide; [done|]. intros [= <-]. lia. }
  pose proof (date_min_spec observation_date_cell (frame_rows df)) as Hmin.
  pose proof (date_max_spec observation_date_cell (frame_rows df)) as Hmax.
  split; [done|]. split; [|split; [|split; [|split; [|split]]]].
  - intros key part Hpart. apply with_record_type_loaded in Hpart as (_ & _ & ->).
    rewrite value_counts_lookup. cbn zeta.
    case_decide as Hz; cbn.
    + split; [done|]. split; [done|]. intros _. by apply length_zero_iff_nil.
    + split; [done|]. split; [|done]. intros Hnil. by rewrite Hnil in Hz.
  - intros key n [Hn|[Hn|Hn]]; by eapply Hcount.
  - unfold nunique. etrans; [apply size_list_to_set_le|apply length_omap_le].
  - destruct (date_min observation_date_cell (frame_rows df)) as [lo|].
    + split; [done|]. intros Hnone. destruct Hmin as [(r & Hr & Hd) _].
      rewrite (Hnone r Hr) in Hd. discriminate.
    + by split.
  - destruct (date_min observation_date_cell (frame_rows df)) as [lo|],
      (date_max observation_date_cell (frame_rows df)) as [hi|]; try done.
    + destruct Hmin as [(r & Hr & Hd) _]. rewrite (Hmax r Hr) in Hd. discriminate.
    + destruct Hmax as [(r & Hr & Hd) _]. rewrite (Hmin r Hr) in Hd. discriminate.
  - intros lo hi Elo Ehi. rewrite Elo in Hmin. rewrite Ehi in Hmax.
    destruct Hmin as [(r & Hr & Hd) Hlow]. destruct Hmax as [_ Hhigh].
    split; [by eapply Hhigh|]. intros x d Hx Hxd. split; [by eapply Hlow|by eapply Hhigh].
Qed.

End Summary.

(** ** The aggregator and the loader *)

Lemma indicator_entry_history (name key : string) (goal : R)
    (years : list Z) (values : list R) (forecasts : list Z) entry :
  indicator_entry name key goal years values forecasts = Ok entry ->
  code entry = key
  /\ historical_years entry = years /\ historical_values entry = values
  /\ last years = Some (current_year entry) /\ last values = Some (current_value entry).
Proof.
  unfold indicator_entry.
  destruct (linear_trend_forecast years values forecasts) as [[[lin lo] up]|e]; [|done].
  destruct (log_trend_forecast years values forecasts) as [[[lg llo] lup]|e]; [|done].
  cbn [mbind result_bind]. unfold last_item.
  destruct (last values) as [v|]; [|done]. destruct (last years) as [cy|]; [|done].
  cbn [mbind result_bind]. intros [= <-]. by repeat split.
Qed.

(** An entry of a returned result is the entry of one of the two series. *)
Lemma forecast_access_usage_series
    (df : list observation_row) (forecasts : list Z)
    (results : gmap string indicator_forecast) key entry :
  forecast_access_usage df forecasts = Ok results ->
  results !! key = Some entry ->
  let data := indicator_rows (code entry) (rows_where record_type "observation" df) in
  historical_years entry = row_years data
  /\ historical_values entry = row_values data
  /\ last (row_years data) = Some (current_year entry)
  /\ last (row_values data) = Some (current_value entry).
Proof.
  intros Hres Hlook. destruct (forecast_access_usage_inv df forecasts results Hres)
    as (access & Ha & [[_ ->]|(_ & usage & Hu & ->)]).
  - apply lookup_singleton_Some in Hlook as [_ <-].
    destruct (indicator_entry_history _ _ _ _ _ _ _ Ha) as (-> & ? & ? & ? & ?). done.
  - apply lookup_insert_Some in Hlook as [[_ <-]|[_ Hlook]].
    + destruct (indicator_entry_history _ _ _ _ _ _ _ Hu) as (-> & ? & ? & ? & ?). done.
    + apply lookup_singleton_Some in Hlook as [_ <-].
      destruct (indicator_entry_history _ _ _ _ _ _ _ Ha) as (-> & ? & ? & ? & ?). done.
Qed.

Lemma indicator_rows_time_series (df : list observation_row) (key : string) :
  indicator_time_series_rows {| has_record_type := true; frame_rows := df |} key
  = indicator_rows key (rows_where record_type "observation" df).
Proof.
  unfold indicator_time_series_rows, indicator_rows, sort_by_date, rows_where.
  cbn [has_record_type frame_rows].
  assert (Hobs : filter (fun r : observation_row =>
                           record_type_cell r = Some "observation"%string) df
                 = filter (fun r => record_type r = "observation"%string) df).
  { apply list_filter_iff. intros r. cbn. split; [by intros [= ->]|by intros ->]. }
  rewrite Hobs.
  assert (Hcode : forall l : list observation_row,
            filter (fun r => indicator_code_cell r = Some key) l
            = filter (fun r => indicator_code r = key) l).
  { intros l. apply list_filter_iff. intros r. cbn. split; [by intros [= ->]|by intros ->]. }
  rewrite Hcode. reflexivity.
Qed.

(** X26. The series that [forecast_access_usage] fits are the time series of
    the loader: for every entry of a returned result, the historical values
    and the years of the historical dates are, in the same order, those of
    [get_indicator_time_series] for the entry's indicator code on the same
    dataset. *)
Theorem forecast_access_usage_fits_time_series
    (df : list observation_row) (forecasts : list Z)
    (results : gmap string indicator_forecast) key entry :
  forecast_access_usage df forecasts = Ok results ->
  results !! key = Some entry ->
  let series :=
    get_indicator_time_series {| has_record_type := true; frame_rows := df |} (code entry) in
  series_value_numeric <$> series = Some <$> historical_values entry
  /\ (fun s => ts_year <$> series_observation_date s) <$> series
     = Some <$> historical_years entry
  /\ length series = length (historical_years entry).
Proof.
  intros Hres Hlook series.
  destruct (forecast_access_usage_series df forecasts results key entry Hres Hlook)
    as (Hy & Hv & _).
  unfold series, get_indicator_time_series. rewrite indicator_rows_time_series, Hy, Hv.
  unfold row_years, row_values. rewrite <- !list_fmap_compose, !length_fmap. done.
Qed.

#[local] Instance sort_by_date_total :
  Total (fun a b : observation_row =>
           Is_true (ts_leb (observation_date a) (observation_date b))).
Proof.
  intros a b. destruct (ts_leb_total (observation_date a) (observation_date b)) as [E|E];
    [left|right]; by apply Is_true_true.
Qed.

#[local] Instance sort_by_date_trans :
  Transitive (fun a b : observation_row =>
                Is_true (ts_leb (observation_date a) (observation_date b))).
Proof.
  intros a b c Hab Hbc. apply Is_true_true. apply Is_true_true in Hab, Hbc.
  by eapply ts_leb_trans.
Qed.

Lemma StronglySorted_last_max (l : list Z) (x y : Z) :
  StronglySorted Z.le l -> last l = Some x -> y ∈ l -> (y <= x)%Z.
Proof.
  induction 1 as [|a l Hsorted IH Hall]; intros Hlast Hy; [by apply elem_of_nil in Hy|].
  destruct l as [|b l].
  - cbn in Hlast. injection Hlast as <-. apply list_elem_of_singleton in Hy as ->. lia.
  - change (last (a :: b :: l)) with (last (b :: l)) in Hlast.
    apply elem_of_cons in Hy as [->|Hy]; [|by apply IH].
    rewrite Forall_forall in Hall. apply Hall. by eapply last_Some_elem_of.
Qed.

#[local] Instance sort_by_date_refl :
  Reflexive (fun a b : observation_row =>
               Is_true (ts_leb (observation_date a) (observation_date b))).
Proof. intros a. apply Is_true_true. apply ts_leb_refl. Qed.

Lemma StronglySorted_last {A} (R : relation A) `{!Reflexive R} (l : list A) (x y : A) :
  StronglySorted R l -> last l = Some x -> y ∈ l -> R y x.
Proof.
  induction 1 as [|a l Hsorted IH Hall]; intros Hlast Hy; [by apply elem_of_nil in Hy|].
  destruct l as [|b l].
  - cbn in Hlast. injection Hlast as <-. by apply list_elem_of_singleton in Hy as ->.
  - change (last (a :: b :: l)) with (last (b :: l)) in Hlast.
    apply elem_of_cons in Hy as [->|Hy]; [|by apply IH].
    rewrite Forall_forall in Hall. apply Hall. by eapply last_Some_elem_of.
Qed.

(** X27. Every entry of a returned result is in chronological order: its
    historical years never decrease, [current_year] is the last and the
    largest of them, and [current_value] is the last historical value.  It
    is the value of an observation of the entry's indicator that no other
    one postdates, and [current_year] is the year of that observation; among
    observations of one and the same date the choice is the sort's. *)
Theorem forecast_access_usage_chronological
    (df : list observation_row) (forecasts : list Z)
    (results : gmap string indicator_forecast) key entry :
  forecast_access_usage df forecasts = Ok results ->
  results !! key = Some entry ->
  StronglySorted Z.le (historical_years entry)
  /\ last (historical_years entry) = Some (current_year entry)
  /\ last (historical_values entry) = Some (current_value entry)
  /\ (forall y, y ∈ historical_years entry -> (y <= current_year entry)%Z)
  /\ length (historical_years entry) = length (historical_values entry)
  /\ exists latest,
       latest ∈ df
       /\ record_type latest = "observation"%string
       /\ indicator_code latest = code entry
       /\ value_numeric latest = current_value entry
       /\ ts_year (observation_date latest) = current_year entry
       /\ forall r, r ∈ df -> record_type r = "observation"%string ->
            indicator_code r = code entry ->
            ts_leb (observation_date r) (observation_date latest) = true.
Proof.
  intros Hres Hlook.
  destruct (forecast_access_usage_series df forecasts results key entry Hres Hlook)
    as (Hy & Hv & Hly & Hlv).
  assert (Hsorted : StronglySorted Z.le (historical_years entry)).
  { rewrite Hy. unfold row_years, indicator_rows, sort_by_date.
    eapply StronglySorted_fmap; [|apply StronglySorted_merge_sort; apply _].
    intros a b Hab. cbn in Hab. apply Is_true_true in Hab. by apply ts_leb_year. }
  split; [done|]. split; [by rewrite Hy|]. split; [by rewrite Hv|]. split; [|split].
  - intros y Hin. eapply StronglySorted_last_max; [done| |done]. by rewrite Hy.
  - rewrite Hy, Hv. unfold row_years, row_values. by rewrite !length_fmap.
  - set (observations := rows_where record_type "observation" df) in *.
    set (data := indicator_rows (code entry) observations) in *.
    unfold row_years in Hly. unfold row_values in Hlv.
    rewrite fmap_last in Hly. rewrite fmap_last in Hlv.
    destruct (last data) as [latest|] eqn:Hlast; [|done].
    cbn in Hly, Hlv. injection Hly as Hly. injection Hlv as Hlv.
    assert (Hmember : forall r, r ∈ data
              <-> r ∈ df /\ record_type r = "observation"%string
                  /\ indicator_code r = code entry).
    { intros r. unfold data, indicator_rows, sort_by_date, observations, rows_where.
      rewrite merge_sort_Permutation, !list_elem_of_filter. tauto. }
    exists latest. apply last_Some_elem_of in Hlast as Hin.
    apply Hmember in Hin as (Hdf & Htype & Hcode).
    do 5 (split; [done|]). intros r Hr Ht Hc.
    apply Is_true_true.
    apply (StronglySorted_last
             (fun a b => Is_true (ts_leb (observation_date a) (observation_date b)))
             data latest r); [|done|].
    + unfold data, indicator_rows, sort_by_date. apply StronglySorted_merge_sort; apply _.
    + by apply Hmember.
Qed.

Lemma unordered_observations_forecast :
  exists access,
    forecast_access_usage
      [ {| record_type := "observation"; indicator_code := "ACC_OWNERSHIP";
           observation_date := {| ts_year := 2021; ts_month := 12; ts_day := 31 |};
           value_numeric := 46 |};
        {| record_type := "observation"; indicator_code := "ACC_OWNERSHIP";
           observation_date := {| ts_year := 2014; ts_month := 12; ts_day := 31 |};
           value_numeric := 22 |};
        {| record_type := "event"; indicator_code := "ACC_OWNERSHIP";
           observation_date := {| ts_year := 2023; ts_month := 5; ts_day := 1 |};
           value_numeric := 0 |};
        {| record_type := "observation"; indicator_code := "ACC_OWNERSHIP";
           observation_date := {| ts_year := 2017; ts_month := 12; ts_day := 31 |};
           value_numeric := 35 |} ]
      default_forecast_years = Ok {[ "access"%string := access ]}
    /\ historical_years access = [2014; 2017; 2021]%Z
    /\ historical_values access = [22; 35; 46].
Proof.
  destruct (linear_trend_forecast_returns [2014; 2017; 2021]%Z [22; 35; 46]
              default_forecast_years 2021%Z
              ltac:(right; right; left) ltac:(discriminate) eq_refl) as [[[lin lo] up] Hlin].
  destruct (log_trend_forecast_returns [2014; 2017; 2021]%Z [22; 35; 46]
              default_forecast_years ltac:(discriminate) eq_refl) as [[[lg llo] lup] Hlog].
  eexists. unfold forecast_access_usage.
  change (indicator_rows "ACC_OWNERSHIP" _) with
    [ {| record_type := "observation"; indicator_code := "ACC_OWNERSHIP";
         observation_date := {| ts_year := 2014; ts_month := 12; ts_day := 31 |};
         value_numeric := 22 |};
      {| record_type := "observation"; indicator_code := "ACC_OWNERSHIP";
         observation_date := {| ts_year := 2017; ts_month := 12; ts_day := 31 |};
         value_numeric := 35 |};
      {| record_type := "observation"; indicator_code := "ACC_OWNERSHIP";
         observation_date := {| ts_year := 2021; ts_month := 12; ts_day := 31 |};
         value_numeric := 46 |} ].
  change (indicator_rows "USG_DIGITAL_PAYMENT" _) with (@nil observation_row).
  unfold indicator_entry, row_years, row_values. cbn [fmap list_fmap ts_year
    observation_date value_numeric].
  rewrite Hlin, Hlog. cbn [mbind result_bind last_item last mret result_ret decide].
  cbn. by rewrite insert_empty.
Qed.

Lemma one_observation_forecast :
  exists access,
    forecast_access_usage
      [ {| record_type := "observation"; indicator_code := "ACC_OWNERSHIP";
           observation_date := {| ts_year := 2021; ts_month := 12; ts_day := 31 |};
           value_numeric := 46 |} ]
      default_forecast_years = Ok {[ "access"%string := access ]}.
Proof.
  destruct (linear_trend_forecast_returns [2021]%Z [46] default_forecast_years 2021%Z
              ltac:(left) ltac:(discriminate) eq_refl) as [[[lin lo] up] Hlin].
  destruct (log_trend_forecast_returns [2021]%Z [46] default_forecast_years
              ltac:(discriminate) eq_refl) as [[[lg llo] lup] Hlog].
  eexists. unfold forecast_access_usage.
  change (indicator_rows "ACC_OWNERSHIP" _) with
    [ {| record_type := "observation"; indicator_code := "ACC_OWNERSHIP";
         observation_date := {| ts_year := 2021; ts_month := 12; ts_day := 31 |};
         value_numeric := 46 |} ].
  change (indicator_rows "USG_DIGITAL_PAYMENT" _) with (@nil observation_row).
  unfold indicator_entry, row_years, row_values. cbn [fmap list_fmap ts_year
    observation_date value_numeric].
  rewrite Hlin, Hlog. cbn [mbind result_bind last_item last mret result_ret decide].
  cbn. by rewrite insert_empty.
Qed.

Lemma forecast_access_usage_fits_time_series_witness :
  exists entry,
    length (get_indicator_time_series
              {| has_record_type := true;
                 frame_rows :=
                   [ {| record_type := "observation"; indicator_code := "ACC_OWNERSHIP";
                        observation_date :=
                          {| ts_year := 2021; ts_month := 12; ts_day := 31 |};
                        value_numeric := 46 |} ] |} (code entry))
    = length (historical_years entry).
Proof.
  destruct one_observation_forecast as [access Hres].
  exists access.
  exact (proj2 (proj2 (forecast_access_usage_fits_time_series _ _ _ "access"%string access
                         Hres (lookup_singleton_eq _ _)))).
Defined.

Lemma forecast_access_usage_chronological_witness :
  exists entry,
    historical_years entry = [2014; 2017; 2021]%Z
    /\ current_year entry = 2021%Z
    /\ current_value entry = 46.
Proof.
  destruct unordered_observations_forecast as (access & Hres & Hy & Hv).
  exists access. split; [exact Hy|].
  destruct (forecast_access_usage_chronological _ _ _ "access"%string access
              Hres (lookup_singleton_eq _ _)) as (_ & Hly & Hlv & _).
  rewrite Hy in Hly. rewrite Hv in Hlv. cbn in Hly, Hlv.
  injection Hly as <-. injection Hlv as <-. split; reflexivity.
Defined.

(** * Properties of the analysis runner *)

Lemma notebook_loop_spec (present : string -> bool)
    (execute : string -> RunAnalysis.process_outcome)
    (todo : list string) (results : list (string * bool))
    (trace : list RunAnalysis.run_event) :
  (forall nb, nb ∈ todo -> present nb = true ->
              execute nb <> RunAnalysis.OtherException) ->
  RunAnalysis.notebook_loop present execute todo results trace
  = (trace ++ (RunAnalysis.RanNotebook <$> filter (fun nb => present nb = true) todo),
     RunAnalysis.Completed
       (results ++ ((fun nb => (nb, present nb
                                    && bool_decide (execute nb = RunAnalysis.Exited 0)))
                      <$> todo))).
Proof.
  revert results trace. induction todo as [|nb rest IH]; intros results trace Hsafe.
  - cbn. by rewrite !app_nil_r.
  - cbn [RunAnalysis.notebook_loop fmap list_fmap]. rewrite filter_cons.
    assert (Hrest : forall nb', nb' ∈ rest -> present nb' = true ->
                      execute nb' <> RunAnalysis.OtherException).
    { intros nb' Hin. apply Hsafe. by right. }
    destruct (present nb) eqn:Hp.
    + specialize (Hsafe nb ltac:(left) Hp).
      rewrite decide_True by done. cbn [andb fmap list_fmap].
      destruct (execute nb) as [code| | |] eqn:He; cbn [RunAnalysis.run_notebook];
        [| | |done]; rewrite IH by done; rewrite <- !app_assoc; cbn [app].
      * assert (Hcode : bool_decide (RunAnalysis.Exited code = RunAnalysis.Exited 0)
                        = bool_decide (code = 0%Z)).
        { apply bool_decide_ext. split; [by intros [= ->]|by intros ->]. }
        by rewrite Hcode.
      * by rewrite bool_decide_eq_false_2.
      * by rewrite bool_decide_eq_false_2.
    + rewrite decide_False by done. cbn [andb].
      rewrite IH by done. by rewrite <- !app_assoc.
Qed.

(** X28. The runner does not stop at a failed notebook.  When no exception
    other than a timeout or a missing nbconvert escapes a notebook run and
    the report process ends with an exit status, [main] starts the existing
    notebooks in their listed order, skips the missing ones, then starts the
    report generator exactly once, whatever happened before; it returns True
    exactly when all four notebooks exist, each exits with status 0 and the
    report generator exits with status 0, and the script's exit status is 0
    exactly then. *)
Theorem runner_main_outcome (present : string -> bool)
    (execute : string -> RunAnalysis.process_outcome)
    (report : RunAnalysis.process_outcome) (returncode : Z) :
  (forall nb, nb ∈ RunAnalysis.notebooks -> present nb = true ->
              execute nb <> RunAnalysis.OtherException) ->
  report = RunAnalysis.Exited returncode ->
  exists success,
    RunAnalysis.main present execute report
    = ((RunAnalysis.RanNotebook <$> filter (fun nb => present nb = true) RunAnalysis.notebooks)
         ++ [RunAnalysis.RanReport],
       RunAnalysis.Completed success)
    /\ (success = true
        <-> (forall nb, nb ∈ RunAnalysis.notebooks ->
                        present nb = true /\ execute nb = RunAnalysis.Exited 0)
            /\ returncode = 0%Z)
    /\ (RunAnalysis.exit_status success = 0%Z <-> success = true).
Proof.
  intros Hsafe ->. unfold RunAnalysis.main.
  rewrite notebook_loop_spec by done. cbn [app RunAnalysis.generate_report].
  eexists. split; [reflexivity|]. split.
  - rewrite andb_true_iff, bool_decide_eq_true, forallb_forall.
    split.
    + intros [Hall Hcode]. split; [|done]. intros nb Hnb.
      assert (Hin : In (nb, present nb
                            && bool_decide (execute nb = RunAnalysis.Exited 0))
                      ((fun nb => (nb, present nb
                                       && bool_decide (execute nb = RunAnalysis.Exited 0)))
                         <$> RunAnalysis.notebooks)).
      { apply list_elem_of_In, list_elem_of_fmap. by exists nb. }
      apply Hall in Hin. cbn [snd] in Hin.
      apply andb_true_iff in Hin as [Hp He].
      by apply bool_decide_eq_true in He.
    + intros [Hall Hcode]. split; [|done]. intros [nb ok] Hin.
      apply list_elem_of_In, list_elem_of_fmap in Hin as (nb' & [= -> ->] & Hnb).
      destruct (Hall nb' Hnb) as [Hp He]. cbn [snd].
      rewrite Hp, He. by rewrite bool_decide_eq_true_2.
  - unfold RunAnalysis.exit_status. by destruct (_ && _).
Qed.

Lemma runner_main_outcome_witness :
  RunAnalysis.main (fun _ => true) (fun _ => RunAnalysis.TimeoutExpired)
    (RunAnalysis.Exited 0)
  = ((RunAnalysis.RanNotebook <$> RunAnalysis.notebooks) ++ [RunAnalysis.RanReport],
     RunAnalysis.Completed false).
Proof.
  destruct (runner_main_outcome (fun _ => true) (fun _ => RunAnalysis.TimeoutExpired)
              (RunAnalysis.Exited 0) 0%Z ltac:(discriminate) eq_refl)
    as (success & Hmain & Hiff & _).
  rewrite Hmain. destruct success.
  - destruct (proj1 Hiff eq_refl) as [Hall _].
    destruct (Hall "02_eda.ipynb"%string ltac:(right; left)) as [_ Hexit]. discriminate.
  - reflexivity.
Defined.

(** * Properties of the report statistics *)

Lemma conf_pct_range (round1 : R -> R) (count total : nat) :
  (forall x y, x <= y -> round1 x <= round1 y) ->
  round1 0 = 0 -> round1 100 = 100 ->
  (count <= total)%nat ->
  0 <= conf_pct round1 count total <= 100.
Proof.
  intros Hmono H0 H100 Hle. unfold conf_pct.
  destruct (Nat.ltb_spec 0 total) as [Hpos|_]; [|lra].
  assert (Ht : 0 < INR total) by (by apply lt_0_INR).
  assert (Hc : 0 <= INR count) by apply pos_INR.
  assert (Hct : INR count <= INR total) by (apply le_INR; lia).
  assert (Hx : 0 <= INR count / INR total * 100 <= 100).
  { split.
    - apply Rmult_le_pos; [|lra]. apply Rmult_le_pos; [done|].
      left. by apply Rinv_0_lt_compat.
    - assert (INR count / INR total <= 1); [|lra].
      apply (Rmult_le_reg_r (INR total)); [done|]. field_simplify; lra. }
  destruct Hx as [Hlo Hhi]. apply Hmono in Hlo, Hhi. lra.
Qed.

(** X29. The statistics that [load_data] hands to the report are
    consistent whatever the files hold, with the built-in defaults as well:
    the four record-type counts never add up to more than [total_records],
    and every confidence percentage lies between 0 and 100 (for a rounding
    that is monotone and leaves 0 and 100 alone, as Python's [round] does);
    read from a file, the statistics agree with [summarize_dataset] on that
    file, and a file without rows gives percentages 0 instead of a division
    by zero.  The processed file is preferred to the raw one, and a file
    without a [record_type] column raises KeyError. *)
Theorem load_data_consistent `{UnifiedColumns row} (round1 : R -> R)
    (enriched raw : option (frame row)) :
  (forall x y, x <= y -> round1 x <= round1 y) ->
  round1 0 = 0 -> round1 100 = 100 ->
  let data_path := match enriched with Some df => Some df | None => raw end in
  (forall stats, load_data round1 enriched raw = Loaded stats ->
     (n_observations stats + n_events stats + n_impact_links stats + n_targets stats
      <= stat_total_records stats)%nat
     /\ 0 <= high_conf_pct stats <= 100
     /\ 0 <= med_conf_pct stats <= 100
     /\ 0 <= low_conf_pct stats <= 100)
  /\ (data_path = None -> load_data round1 enriched raw = Loaded default_report_stats)
  /\ (forall df, data_path = Some df ->
        (has_record_type df = false ->
         load_data round1 enriched raw = KeyError "record_type")
        /\ (forall summary, summarize_dataset df = Loaded summary ->
              exists stats,
                load_data round1 enriched raw = Loaded stats
                /\ stat_total_records stats = total_records summary
                /\ n_observations stats
                   = default 0%nat (record_type_counts summary !! "observation"%string)
                /\ n_events stats
                   = default 0%nat (record_type_counts summary !! "event"%string)
                /\ n_impact_links stats
                   = default 0%nat (record_type_counts summary !! "impact_link"%string)
                /\ n_targets stats
                   = default 0%nat (record_type_counts summary !! "target"%string)
                /\ (frame_rows df = [] ->
                    high_conf_pct stats = 0 /\ med_conf_pct stats = 0
                    /\ low_conf_pct stats = 0))).
Proof.
  intros Hmono H0 H100 data_path.
  assert (Hcount : forall (cell : row -> option string) key rows,
            (count_where cell key rows <= length rows)%nat).
  { intros cell key rows. unfold count_where. apply length_filter. }
  assert (Hdefault : forall (counts : gmap string nat) key rows,
            counts = value_counts record_type_cell rows ->
            count_where record_type_cell key rows = default 0%nat (counts !! key)).
  { intros counts key rows ->. rewrite value_counts_lookup. cbn zeta.
    unfold count_where. by case_decide as Hz; [rewrite Hz|]. }
  unfold load_data. fold data_path. split; [|split].
  - intros stats Hstats. destruct data_path as [df|].
    + destruct (has_record_type df); [|done]. injection Hstats as <-.
      cbn [n_observations n_events n_impact_links n_targets stat_total_records
           high_conf_pct med_conf_pct low_conf_pct].
      split.
      * pose proof (record_type_partition_length (frame_rows df)) as Hsum.
        unfold count_where. lia.
      * repeat split; by apply conf_pct_range.
    + injection Hstats as <-. cbn. repeat split; try lia; lra.
  - by intros ->.
  - intros df ->. split; [by intros ->|].
    intros summary Hsummary. unfold summarize_dataset in Hsummary.
    destruct (has_record_type df); [|done]. injection Hsummary as <-.
    eexists. split; [reflexivity|].
    cbn [n_observations n_events n_impact_links n_targets stat_total_records
         high_conf_pct med_conf_pct low_conf_pct total_records record_type_counts].
    split; [done|]. do 4 (split; [by apply Hdefault|]).
    intros ->. by cbn.
Qed.

Lemma load_data_consistent_witness :
  load_data (row := observation_row) (fun x => x) None None = Loaded default_report_stats.
Proof.
  destruct (load_data_consistent (row := observation_row) (fun x => x) None None
              ltac:(intros x y Hxy; exact Hxy) eq_refl eq_refl) as (_ & Hdefault & _).
  exact (Hdefault eq_refl).
Defined.

(** * Properties of the dashboard *)

(** X30. The dashboard draws what the forecasting module computes, up to the
    cap.  The projection of [plot_account_ownership] is the default base
    scenario of [scenario_forecast] from the last observed value for
    2025..2027 exactly when that value is at most 92.5: above it the
    forecaster caps at 100 and the dashboard's line does not.  Each curve
    that [plot_scenario_forecast] hard-codes for 2024..2027 is its start
    value (49 for ['access'], 35 otherwise) followed by the forecaster's
    default scenario of that name from that start value. *)
Theorem dashboard_matches_scenario_forecast (last_value target_value : R)
    (indicator : string) :
  (scenario_forecast last_value target_value 2027 2024 None !! "base"%string
   = Some (FloatList (Dashboard.forecast_values last_value))
   <-> last_value <= 92.5)
  /\ let start := if decide (indicator = "access"%string) then 49 else 35 in
     let results := scenario_forecast start target_value 2027 2024 None in
     exists optimistic base pessimistic,
       results !! "optimistic"%string = Some (FloatList optimistic)
       /\ results !! "base"%string = Some (FloatList base)
       /\ results !! "pessimistic"%string = Some (FloatList pessimistic)
       /\ Dashboard.scenario_curves indicator
          = (start :: optimistic, start :: base, start :: pessimistic).
Proof.
  assert (Hlook : forall v name g, (name, g) ∈ default_scenarios ->
            scenario_forecast v target_value 2027 2024 None !! name
            = Some (FloatList (yearly_values v g [2025; 2026; 2027]%Z))).
  { intros v name g Hin. unfold scenario_forecast.
    by apply scenario_loop_item; [apply default_scenarios_dict|]. }
  split.
  - rewrite (Hlook last_value "base"%string 2.5) by (right; left).
    unfold Dashboard.forecast_values. cbn [yearly_values fmap list_fmap].
    split.
    + intros [= H1 H2 H3].
      assert (Hcap : Rmin (Rmin (Rmin (last_value + 2.5) 100 + 2.5) 100 + 2.5) 100 <= 100)
        by apply Rmin_r.
      lra.
    + intros Hle. rewrite (Rmin_left (last_value + 2.5)) by lra.
      rewrite (Rmin_left (last_value + 2.5 + 2.5)) by lra.
      rewrite (Rmin_left (last_value + 2.5 + 2.5 + 2.5)) by lra.
      replace (last_value + 2.5 * 1) with (last_value + 2.5) by lra.
      replace (last_value + 2.5 * 2) with (last_value + 2.5 + 2.5) by lra.
      replace (last_value + 2.5 * 3) with (last_value + 2.5 + 2.5 + 2.5) by lra.
      reflexivity.
  - intros start results. unfold results.
    do 3 eexists. split; [apply (Hlook start _ 4); left|].
    split; [apply (Hlook start _ 2.5); right; left|].
    split; [apply (Hlook start _ 1); right; right; left|].
    unfold Dashboard.scenario_curves, start. cbn [yearly_values].
    case_decide.
    + rewrite !Rmin_left by lra. repeat f_equal; lra.
    + rewrite !Rmin_left by lra. repeat f_equal; lra.
Qed.
